(** * YOLO Annotator: the annotation engine of [app.py]

    A shallow embedding of the coordinate codec ([BoundingBox.to_yolo_format],
    [BoundingBox.from_yolo_format]), the resize handle, the annotation scene
    with its undo/redo history, and the file writers/readers of [MainWindow],
    followed by the properties proved about them.

    Conventions of the embedding.
    - A Python [float] / Qt [qreal] is an exact rational ([Q]): the rounding of
      binary64 arithmetic is not modelled, the decimal rounding of the
      [:.6f] format is.  Results of arithmetic are compared with [==].
    - A Python [int] is a [Z]; a [str] is a [string] of ASCII characters.
    - A Python list used as a stack ([append]/[pop]) is a list whose head is
      the top of the stack.
    - An exception that leaves a function is a distinguished result ([None],
      or the [Aborted] outcome of a load). *)

From Stdlib Require Import ZArith QArith Qabs Qminmax Lqa Lia String Ascii List.
From stdpp Require Import base option gmap strings list sorting.

Local Open Scope Z_scope.

(* ====================================================================== *)
(** * Part I: the program                                                  *)
(* ====================================================================== *)

(** ** Python text primitives *)

Module PyStr.

(** [str.isspace] on the ASCII range: TAB..CR, FS..US and the space. *)
Definition isspace (c : ascii) : bool :=
  let n := Z.of_nat (nat_of_ascii c) in
  ((9 <=? n) && (n <=? 13)) || ((28 <=? n) && (n <=? 32)).

Fixpoint lstrip (s : string) : string :=
  match s with
  | EmptyString => EmptyString
  | String c r => if isspace c then lstrip r else s
  end.

Fixpoint rstrip (s : string) : string :=
  match s with
  | EmptyString => EmptyString
  | String c r =>
      match rstrip r with
      | EmptyString => if isspace c then EmptyString else String c EmptyString
      | r' => String c r'
      end
  end.

(** [s.strip()] *)
Definition strip (s : string) : string := rstrip (lstrip s).

(** [s.split()]: the maximal runs of non-whitespace characters. [cur] is the
    run being read. *)
Fixpoint split_go (cur s : string) : list string :=
  match s with
  | EmptyString => match cur with EmptyString => [] | _ => [cur] end
  | String c r =>
      if isspace c
      then match cur with
           | EmptyString => split_go EmptyString r
           | _ => cur :: split_go EmptyString r
           end
      else split_go (String.append cur (String c EmptyString)) r
  end.

Definition split (s : string) : list string := split_go EmptyString s.

(** [sub in s] *)
Definition contains (sub s : string) : bool :=
  match String.index 0 sub s with Some _ => true | None => false end.

(** No whitespace character in [s]: [s] is at most one token. *)
Fixpoint no_space (s : string) : bool :=
  match s with
  | EmptyString => true
  | String c r => negb (isspace c) && no_space r
  end.

(** The lines of a text file, as iterating over a file opened in text mode
    yields them, without their line ends: with universal newlines a line
    ends at LF, at CR LF and at a lone CR. [cur] is the line being read. *)
Fixpoint lines_go (cur s : string) : list string :=
  match s with
  | EmptyString => match cur with EmptyString => [] | _ => [cur] end
  | String c r =>
      if Ascii.eqb c "010"%char then cur :: lines_go EmptyString r
      else if Ascii.eqb c "013"%char then
        match r with
        | String c' r' =>
            if Ascii.eqb c' "010"%char
            then cur :: lines_go EmptyString r'
            else cur :: lines_go EmptyString r
        | EmptyString => cur :: lines_go EmptyString r
        end
      else lines_go (String.append cur (String c EmptyString)) r
  end.

Definition lines (text : string) : list string := lines_go EmptyString text.

(** [s.startswith(p)] is [String.prefix p s]; [s[i:j]] for [i <= j]. *)
Definition slice (i j : nat) (s : string) : string := String.substring i (j - i) s.

(** [sep.join(parts)] *)
Fixpoint join (sep : string) (parts : list string) : string :=
  match parts with
  | [] => EmptyString
  | [p] => p
  | p :: rest => String.append p (String.append sep (join sep rest))
  end.

End PyStr.

(** ** Decimal numerals *)

Module Dec.

Definition digit_value (c : ascii) : option Z :=
  let n := Z.of_nat (nat_of_ascii c) in
  if (48 <=? n) && (n <=? 57) then Some (n - 48) else None.

Definition digit_char (d : Z) : ascii := ascii_of_nat (Z.to_nat (48 + d)).

(** Reads the leading digits of [s]: the value accumulated on [acc], the
    number of digits read, and the rest of the string. *)
Fixpoint scan_digits (s : string) (acc : Z) (cnt : nat) : Z * nat * string :=
  match s with
  | EmptyString => (acc, cnt, s)
  | String c r =>
      match digit_value c with
      | Some d => scan_digits r (10 * acc + d) (S cnt)
      | None => (acc, cnt, s)
      end
  end.

Definition split_sign (s : string) : bool * string :=
  match s with
  | String "-"%char r => (true, r)
  | String "+"%char r => (false, r)
  | _ => (false, s)
  end.

(** The last [k] decimal digits of [n], most significant first, in front of
    [acc]. *)
Fixpoint fixed_digits (k : nat) (n : Z) (acc : string) : string :=
  match k with
  | O => acc
  | S k' => fixed_digits k' (n / 10) (String (digit_char (n mod 10)) acc)
  end.

(** The decimal digits of [n >= 0] without leading zeros, in front of
    [acc]; [fuel] bounds the number of digits. *)
Fixpoint nat_digits (fuel : nat) (n : Z) (acc : string) : string :=
  match fuel with
  | O => acc
  | S f =>
      let acc' := String (digit_char (n mod 10)) acc in
      if n / 10 =? 0 then acc' else nat_digits f (n / 10) acc'
  end.

Definition str_nonneg (n : Z) : string :=
  nat_digits (S (Z.to_nat (Z.log2 n))) n EmptyString.

(** [str(z)] / [f"{z}"] for an [int]. *)
Definition str_int (z : Z) : string :=
  if z <? 0 then String "-"%char (str_nonneg (- z)) else str_nonneg z.

End Dec.

(** ** Python numbers *)

Module PyNum.

Definition Qltb (x y : Q) : bool := (Qnum x * QDen y <? Qnum y * QDen x)%Z.

(** [max(a, b)] and [min(a, b)]: the first argument wins a tie. *)
Definition py_max (a b : Q) : Q := if Qltb a b then b else a.
Definition py_min (a b : Q) : Q := if Qltb b a then b else a.

Definition signed (neg : bool) (q : Q) : Q := if neg then Qopp q else q.

(** [int(s)] on plain decimal literals: an optional sign and at least one
    digit.  (Python also accepts surrounding whitespace, underscores between
    digits and non-ASCII digits.) *)
Definition py_int_dec (s : string) : option Z :=
  let '(neg, body) := Dec.split_sign s in
  match Dec.scan_digits body 0 0 with
  | (v, S _, EmptyString) => Some (if neg then - v else v)
  | _ => None
  end.

(** [float(s)] on plain decimal literals: an optional sign, digits, an
    optional point and digits, at least one digit in all.  (Python also
    accepts exponents, [inf], [nan], underscores and surrounding
    whitespace.) *)
Definition py_float_dec (s : string) : option Q :=
  let '(neg, body) := Dec.split_sign s in
  let '(ip, ci, rest) := Dec.scan_digits body 0 0 in
  match rest with
  | EmptyString =>
      match ci with
      | O => None
      | S _ => Some (signed neg (inject_Z ip))
      end
  | String "."%char rest' =>
      let '(m, cf, rest'') := Dec.scan_digits rest' ip 0 in
      match rest'', (ci + cf)%nat with
      | EmptyString, S _ =>
          Some (signed neg (Qmake m (Z.to_pos (10 ^ Z.of_nat cf))))
      | _, _ => None
      end
  | _ => None
  end.

(** Rounding to the nearest integer, ties to even: the rounding of the
    [f] presentation type. *)
Definition round_half_even (q : Q) : Z :=
  let n := Qnum q in
  let d := Zpos (Qden q) in
  let fl := n / d in
  let r2 := 2 * (n mod d) in
  if r2 <? d then fl
  else if d <? r2 then fl + 1
  else if Z.even fl then fl else fl + 1.

(** [f"{v:.6f}"] *)
Definition format_6f (v : Q) : string :=
  let n := round_half_even (Qabs v * 1000000) in
  String.append (if Qltb v 0 then "-" else "")%string
    (String.append (Dec.str_nonneg (n / 1000000))
       (String "."%char (Dec.fixed_digits 6 (n mod 1000000) EmptyString))).

End PyNum.

(** ** The part of Qt's geometry classes the program uses *)

Module Qt.
Local Open Scope Q_scope.

Record QPointF := mkPoint { px : Q; py : Q }.

(** A [QRectF] stores its top-left corner and its size. *)
Record QRectF := mkRect { xp : Q; yp : Q; wd : Q; ht : Q }.

Record QColor := mkColor { red : Z; green : Z; blue : Z; alpha : Z }.

Definition left (r : QRectF) : Q := xp r.
Definition top (r : QRectF) : Q := yp r.
Definition right (r : QRectF) : Q := xp r + wd r.
Definition bottom (r : QRectF) : Q := yp r + ht r.
Definition width (r : QRectF) : Q := wd r.
Definition height (r : QRectF) : Q := ht r.

(** [QRectF()] *)
Definition null_rect : QRectF := mkRect 0 0 0 0.

(** [QRectF(topLeft, bottomRight)] *)
Definition rect_of_points (tl br : QPointF) : QRectF :=
  mkRect (px tl) (py tl) (px br - px tl) (py br - py tl).

Definition setTop (pos : Q) (r : QRectF) : QRectF :=
  let diff := pos - yp r in mkRect (xp r) (yp r + diff) (wd r) (ht r - diff).
Definition setBottom (pos : Q) (r : QRectF) : QRectF :=
  mkRect (xp r) (yp r) (wd r) (pos - yp r).
Definition setLeft (pos : Q) (r : QRectF) : QRectF :=
  let diff := pos - xp r in mkRect (xp r + diff) (yp r) (wd r - diff) (ht r).
Definition setRight (pos : Q) (r : QRectF) : QRectF :=
  mkRect (xp r) (yp r) (pos - xp r) (ht r).

Definition normalized (r : QRectF) : QRectF :=
  let r1 := if PyNum.Qltb (wd r) 0
            then mkRect (xp r + wd r) (yp r) (- wd r) (ht r) else r in
  if PyNum.Qltb (ht r1) 0
  then mkRect (xp r1) (yp r1 + ht r1) (wd r1) (- ht r1) else r1.

Definition isValid (r : QRectF) : bool :=
  PyNum.Qltb 0 (wd r) && PyNum.Qltb 0 (ht r).

Definition isNull (p : QPointF) : bool :=
  Qeq_bool (px p) 0 && Qeq_bool (py p) 0.

(** Truth value of a rectangle and of a point in a Python condition
    ([if self.start_rect:], [if ... and self.start_point:]): the binding's
    [__bool__] is [isValid()] for a [QRectF] and [not isNull()] for a
    [QPointF]. *)
Definition QRectF_bool (r : QRectF) : bool := isValid r.
Definition QPointF_bool (p : QPointF) : bool := negb (isNull p).

Definition translated (r : QRectF) (d : QPointF) : QRectF :=
  mkRect (xp r + px d) (yp r + py d) (wd r) (ht r).

End Qt.

Import Qt.

(** ** class ResizeHandle *)

Module ResizeHandle.
Local Open Scope Q_scope.

Record t := mk {
  position : string;
  start_rect : option QRectF;
  start_pos : option QPointF
}.

(** [__init__(position, parent_bbox)] *)
Definition init (position : string) : t := mk position None None.

(** [mousePressEvent]: on the left button the handle records the parent's
    rectangle and the pointer position. *)
Definition mousePressEvent (left_button : bool) (h : t)
    (parent_rect : QRectF) (scenePos : QPointF) : t :=
  if left_button
  then mk (position h) (Some parent_rect) (Some scenePos)
  else h.

(** The rectangle [new_rect] built from [start_rect] and the total drag. *)
Definition dragged_rect (position : string) (sr : QRectF) (dx dy : Q) : QRectF :=
  let r0 := sr in
  let r1 := if PyStr.contains "top" position then setTop (top sr + dy) r0 else r0 in
  let r2 := if PyStr.contains "bottom" position then setBottom (bottom sr + dy) r1 else r1 in
  let r3 := if PyStr.contains "left" position then setLeft (left sr + dx) r2 else r2 in
  if PyStr.contains "right" position then setRight (right sr + dx) r3 else r3.

(** [mouseMoveEvent]: returns the rectangle of the parent item after the
    event; [parent_rect] is its rectangle before.  ([start_rect] and
    [start_pos] are set together, by [mousePressEvent].) *)
Definition mouseMoveEvent (h : t) (parent_rect : QRectF) (scenePos : QPointF)
    : QRectF :=
  match start_rect h, start_pos h with
  | Some sr, Some sp =>
      if QRectF_bool sr then
        let dx := px scenePos - px sp in
        let dy := py scenePos - py sp in
        let new_rect := dragged_rect (position h) sr dx dy in
        if PyNum.Qltb 10 (width new_rect) && PyNum.Qltb 10 (height new_rect)
        then normalized new_rect
        else parent_rect
      else parent_rect
  | _, _ => parent_rect
  end.

End ResizeHandle.

(** ** class BoundingBox *)

Module BoundingBox.
Local Open Scope Q_scope.

(** [graphics_item] is the identity of the scene item that draws the box
    ([None] for a box that is only data, as in a history snapshot). *)
Record t := mk {
  rect : QRectF;
  class_id : Z;
  class_name : string;
  color : option QColor;
  graphics_item : option nat
}.

(** [__init__(rect, class_id, class_name, color=None)] *)
Definition init (rect : QRectF) (class_id : Z) (class_name : string)
    (color : option QColor) : t :=
  mk rect class_id class_name color None.

Definition set_graphics_item (b : t) (g : option nat) : t :=
  mk (rect b) (class_id b) (class_name b) (color b) g.
Definition set_rect (b : t) (r : QRectF) : t :=
  mk r (class_id b) (class_name b) (color b) (graphics_item b).

(** The normalized fields, before clamping (lines 161-164). *)
Definition x_center (b : t) (image_width : Z) : Q :=
  (left (rect b) + right (rect b)) / 2 / inject_Z image_width.
Definition y_center (b : t) (image_height : Z) : Q :=
  (top (rect b) + bottom (rect b)) / 2 / inject_Z image_height.
Definition norm_width (b : t) (image_width : Z) : Q :=
  width (rect b) / inject_Z image_width.
Definition norm_height (b : t) (image_height : Z) : Q :=
  height (rect b) / inject_Z image_height.

Definition clamp01 (v : Q) : Q := PyNum.py_max 0 (PyNum.py_min 1 v).

(** [to_yolo_format]; [None] is the [ZeroDivisionError] of a zero image
    dimension. *)
Definition to_yolo_format (b : t) (image_width image_height : Z) : option string :=
  if ((image_width =? 0) || (image_height =? 0))%Z then None
  else
    let x_center := clamp01 (x_center b image_width) in
    let y_center := clamp01 (y_center b image_height) in
    let width := clamp01 (norm_width b image_width) in
    let height := clamp01 (norm_height b image_height) in
    Some (PyStr.join " " [Dec.str_int (class_id b);
                          PyNum.format_6f x_center; PyNum.format_6f y_center;
                          PyNum.format_6f width; PyNum.format_6f height]).

Section Decode.
(** Python's [int] and [float] constructors on a token; [None] is their
    [ValueError]. *)
Variable py_int : string -> option Z.
Variable py_float : string -> option Q.

(** [from_yolo_format]; [None] is the value the method returns when
    parsing fails. *)
Definition from_yolo_format (line : string) (image_width image_height : Z)
    (class_name : string) : option t :=
  match PyStr.split (PyStr.strip line) with
  | [p0; p1; p2; p3; p4] =>
      class_id ← py_int p0;
      xc ← py_float p1;
      yc ← py_float p2;
      w ← py_float p3;
      h ← py_float p4;
      let x_center := xc * inject_Z image_width in
      let y_center := yc * inject_Z image_height in
      let width := w * inject_Z image_width in
      let height := h * inject_Z image_height in
      let x := x_center - width / 2 in
      let y := y_center - height / 2 in
      Some (init (mkRect x y width height) class_id class_name None)
  | _ => None
  end.
End Decode.

End BoundingBox.

(** ** class AnnotationScene *)

Module AnnotationScene.
Local Open Scope Q_scope.
Import BoundingBox.

(** A [QGraphicsRectItem] of the scene: its rectangle, in item coordinates,
    and its position.  Pens, labels and flags are not modelled. *)
Record GraphicsRectItem := mkItem { item_rect : QRectF; item_pos : QPointF }.

(** The scene.  [items] holds the rectangle items in the scene, under the
    identities handed out by [next_item].  A reference to a live
    [BoundingBox] object ([selected_box], [editing_box]) is the identity of
    that box's graphics item. *)
Record t := mk {
  items : gmap nat GraphicsRectItem;
  next_item : nat;
  current_box : option nat;
  start_point : option QPointF;
  image_width : Z;
  image_height : Z;
  boxes : list BoundingBox.t;
  selected_box : option nat;
  editing_box : option nat;
  current_class_id : Z;
  current_class_name : string;
  current_class_color : option QColor;
  drawing_enabled : bool;
  undo_stack : list (list BoundingBox.t);
  redo_stack : list (list BoundingBox.t);
  class_custom_colors : gmap Z QColor
}.

Definition set_items (s : t) (v : gmap nat GraphicsRectItem) (n : nat) : t :=
  mk v n (current_box s) (start_point s) (image_width s) (image_height s)
     (boxes s) (selected_box s) (editing_box s) (current_class_id s)
     (current_class_name s) (current_class_color s) (drawing_enabled s)
     (undo_stack s) (redo_stack s) (class_custom_colors s).
Definition set_drawing (s : t) (cb : option nat) (sp : option QPointF) : t :=
  mk (items s) (next_item s) cb sp (image_width s) (image_height s)
     (boxes s) (selected_box s) (editing_box s) (current_class_id s)
     (current_class_name s) (current_class_color s) (drawing_enabled s)
     (undo_stack s) (redo_stack s) (class_custom_colors s).
Definition set_boxes (s : t) (v : list BoundingBox.t) : t :=
  mk (items s) (next_item s) (current_box s) (start_point s) (image_width s)
     (image_height s) v (selected_box s) (editing_box s) (current_class_id s)
     (current_class_name s) (current_class_color s) (drawing_enabled s)
     (undo_stack s) (redo_stack s) (class_custom_colors s).
Definition set_selected_box (s : t) (v : option nat) : t :=
  mk (items s) (next_item s) (current_box s) (start_point s) (image_width s)
     (image_height s) (boxes s) v (editing_box s) (current_class_id s)
     (current_class_name s) (current_class_color s) (drawing_enabled s)
     (undo_stack s) (redo_stack s) (class_custom_colors s).
Definition set_editing_box (s : t) (v : option nat) : t :=
  mk (items s) (next_item s) (current_box s) (start_point s) (image_width s)
     (image_height s) (boxes s) (selected_box s) v (current_class_id s)
     (current_class_name s) (current_class_color s) (drawing_enabled s)
     (undo_stack s) (redo_stack s) (class_custom_colors s).
Definition set_class (s : t) (cid : Z) (name : string) (c : option QColor) : t :=
  mk (items s) (next_item s) (current_box s) (start_point s) (image_width s)
     (image_height s) (boxes s) (selected_box s) (editing_box s) cid name c
     (drawing_enabled s) (undo_stack s) (redo_stack s) (class_custom_colors s).
Definition set_undo_stack (s : t) (v : list (list BoundingBox.t)) : t :=
  mk (items s) (next_item s) (current_box s) (start_point s) (image_width s)
     (image_height s) (boxes s) (selected_box s) (editing_box s)
     (current_class_id s) (current_class_name s) (current_class_color s)
     (drawing_enabled s) v (redo_stack s) (class_custom_colors s).
Definition set_redo_stack (s : t) (v : list (list BoundingBox.t)) : t :=
  mk (items s) (next_item s) (current_box s) (start_point s) (image_width s)
     (image_height s) (boxes s) (selected_box s) (editing_box s)
     (current_class_id s) (current_class_name s) (current_class_color s)
     (drawing_enabled s) (undo_stack s) v (class_custom_colors s).
Definition set_custom_colors (s : t) (v : gmap Z QColor) : t :=
  mk (items s) (next_item s) (current_box s) (start_point s) (image_width s)
     (image_height s) (boxes s) (selected_box s) (editing_box s)
     (current_class_id s) (current_class_name s) (current_class_color s)
     (drawing_enabled s) (undo_stack s) (redo_stack s) v.
Definition set_drawing_enabled (s : t) (v : bool) : t :=
  mk (items s) (next_item s) (current_box s) (start_point s) (image_width s)
     (image_height s) (boxes s) (selected_box s) (editing_box s)
     (current_class_id s) (current_class_name s) (current_class_color s)
     v (undo_stack s) (redo_stack s) (class_custom_colors s).

(** The default colour scheme. *)
Definition class_colors : list QColor :=
  [ mkColor 0 255 0 150; mkColor 255 0 0 150; mkColor 0 0 255 150;
    mkColor 255 255 0 150; mkColor 255 0 255 150; mkColor 0 255 255 150;
    mkColor 255 128 0 150; mkColor 128 0 255 150 ].

(** [__init__] *)
Definition init : t :=
  mk ∅ 0%nat None None 0%Z 0%Z [] None None 0%Z EmptyString None true [] [] ∅.

(** [addItem] of a fresh rectangle item and [removeItem]. *)
Definition addItem (s : t) (it : GraphicsRectItem) : nat * t :=
  (next_item s, set_items s (<[next_item s := it]> (items s)) (S (next_item s))).
Definition removeItem (s : t) (g : nat) : t :=
  set_items s (delete g (items s)) (next_item s).

(** [set_image]: a new image of the given size; everything is cleared. *)
Definition set_image (s : t) (pixmap_width pixmap_height : Z) : t :=
  mk ∅ (next_item s) None None pixmap_width pixmap_height [] None None
     (current_class_id s) (current_class_name s) (current_class_color s)
     (drawing_enabled s) [] [] (class_custom_colors s).

Definition get_box_color (s : t) (class_id : Z) : QColor :=
  match class_custom_colors s !! class_id with
  | Some c => c
  | None =>
      default (mkColor 0 0 0 0)
        (class_colors !! Z.to_nat (class_id mod Z.of_nat (length class_colors)))
  end.

Definition set_class_color (s : t) (class_id : Z) (color : QColor) : t :=
  set_custom_colors s (<[class_id := color]> (class_custom_colors s)).

Definition set_current_class (s : t) (class_id : Z) (class_name : string)
    (color : option QColor) : t :=
  let s1 := set_class s class_id class_name color in
  match color with
  | Some c => set_custom_colors s1 (<[class_id := c]> (class_custom_colors s1))
  | None => s1
  end.

(** [select_box]; only the reference is modelled, not the highlight. *)
Definition select_box (s : t) (bbox : option nat) : t := set_selected_box s bbox.

Definition select_box_by_item (s : t) (item : nat) : t :=
  match List.find (fun bbox => bool_decide (graphics_item bbox = Some item)) (boxes s) with
  | Some _ => select_box s (Some item)
  | None => s
  end.

(** [finish_editing]: the edited box takes the scene rectangle of its
    graphics item, [item.mapRectToScene(item.rect())]. *)
Definition finish_editing (s : t) : t :=
  match editing_box s with
  | None => s
  | Some g =>
      let s1 :=
        match items s !! g with
        | Some item =>
            let rect_in_scene := translated (item_rect item) (item_pos item) in
            set_boxes s
              (map (fun bbox =>
                      if bool_decide (graphics_item bbox = Some g)
                      then set_rect bbox rect_in_scene else bbox)
                   (boxes s))
        | None => s
        end in
      set_editing_box s1 None
  end.

(** The deep copy of the box list made by [save_state], [undo] and [redo]:
    [BoundingBox(QRectF(bbox.rect), bbox.class_id, bbox.class_name)]. *)
Definition copy_box (bbox : BoundingBox.t) : BoundingBox.t :=
  BoundingBox.init (rect bbox) (class_id bbox) (class_name bbox) None.
Definition copy_state (bs : list BoundingBox.t) : list BoundingBox.t :=
  map copy_box bs.

Definition save_state (s : t) : t :=
  let state := copy_state (boxes s) in
  set_redo_stack (set_undo_stack s (state :: undo_stack s)) [].

(** The first loop of [restore_state]: the items of the current boxes leave
    the scene. *)
Fixpoint remove_box_items (bs : list BoundingBox.t) (s : t) : t :=
  match bs with
  | [] => s
  | bbox :: rest =>
      remove_box_items rest
        (match graphics_item bbox with Some g => removeItem s g | None => s end)
  end.

(** The second loop of [restore_state]. *)
Fixpoint restore_boxes (state : list BoundingBox.t) (s : t) : t :=
  match state with
  | [] => s
  | bbox :: rest =>
      let '(new_item, s1) := addItem s (mkItem (rect bbox) (mkPoint 0 0)) in
      let new_bbox :=
        set_graphics_item
          (BoundingBox.init (rect bbox) (class_id bbox) (class_name bbox) None)
          (Some new_item) in
      restore_boxes rest (set_boxes s1 (boxes s1 ++ [new_bbox]))
  end.

Definition restore_state (s : t) (state : list BoundingBox.t) : t :=
  let s1 := remove_box_items (boxes s) s in
  let s2 := set_selected_box (set_boxes s1 []) None in
  restore_boxes state s2.

Definition undo (s : t) : bool * t :=
  match undo_stack s with
  | [] => (false, s)
  | previous_state :: rest =>
      let current_state := copy_state (boxes s) in
      let s1 := set_redo_stack s (current_state :: redo_stack s) in
      let s2 := set_undo_stack s1 rest in
      (true, restore_state s2 previous_state)
  end.

Definition redo (s : t) : bool * t :=
  match redo_stack s with
  | [] => (false, s)
  | redo_state :: rest =>
      let current_state := copy_state (boxes s) in
      let s1 := set_undo_stack s (current_state :: undo_stack s) in
      let s2 := set_redo_stack s1 rest in
      (true, restore_state s2 redo_state)
  end.

(** One round of the loop of [delete_selected_boxes]. *)
Definition delete_at (s : t) (i : Z) : t :=
  if ((0 <=? i) && (i <? Z.of_nat (length (boxes s))))%Z then
    match boxes s !! Z.to_nat i with
    | Some bbox =>
        let s1 := match graphics_item bbox with
                  | Some g => removeItem s g
                  | None => s
                  end in
        set_boxes s1 (delete (Z.to_nat i) (boxes s1))
    | None => s
    end
  else s.

(** [sorted(indices, reverse=True)] *)
Definition sorted_reverse (indices : list Z) : list Z :=
  merge_sort (flip Z.le) indices.

Definition delete_selected_boxes (s : t) (indices : list Z) : t :=
  let s1 := save_state s in
  let s2 := fold_left delete_at (sorted_reverse indices) s1 in
  set_selected_box s2 None.

(** What [itemAt] finds under the pointer. *)
Inductive hit :=
| OnResizeHandle
| OnRectItem (item : nat)
| OnOther.

(** [mousePressEvent]; the handlers take the button as [left_button]. *)
Definition mousePressEvent (s : t) (left_button : bool) (item : hit)
    (scenePos : QPointF) : t :=
  if left_button && drawing_enabled s then
    let elsewhere :=
      let s1 := finish_editing (select_box s None) in
      match current_class_name s1 with
      | EmptyString => s1
      | _ =>
          let '(new_item, s2) := addItem s1 (mkItem null_rect (mkPoint 0 0)) in
          set_drawing s2 (Some new_item) (Some scenePos)
      end in
    match item with
    | OnResizeHandle => s
    | OnRectItem g =>
        if bool_decide (Some g = current_box s) then elsewhere
        else select_box_by_item s g
    | OnOther => elsewhere
    end
  else s.

(** [setRect] on an item of the scene. *)
Definition setRect (s : t) (g : nat) (r : QRectF) : t :=
  set_items s (alter (fun it => mkItem r (item_pos it)) g (items s)) (next_item s).

Definition mouseMoveEvent (s : t) (scenePos : QPointF) : t :=
  match current_box s, start_point s with
  | Some g, Some sp =>
      if QPointF_bool sp
      then setRect s g (normalized (rect_of_points sp scenePos))
      else s
  | _, _ => s
  end.

(** The rectangle of an item, [QRectF()] if the scene has no such item. *)
Definition rect_of_item (s : t) (g : nat) : QRectF :=
  match items s !! g with Some it => item_rect it | None => null_rect end.

Definition mouseReleaseEvent (s : t) (left_button : bool) : t :=
  match current_box s with
  | Some g =>
      if left_button then
        let rect := rect_of_item s g in
        let s1 :=
          if PyNum.Qltb 5 (width rect) && PyNum.Qltb 5 (height rect) then
            let s' := save_state s in
            let color := get_box_color s' (current_class_id s') in
            let bbox :=
              set_graphics_item
                (BoundingBox.init rect (current_class_id s')
                   (current_class_name s') (Some color))
                (Some g) in
            set_boxes s' (boxes s' ++ [bbox])
          else removeItem s g in
        set_drawing s1 None None
      else s
  | None => s
  end.

(** What the Qt layer does to an item between two calls of the scene's own
    methods: a movable item follows the pointer ([moveItem]), and a resize
    handle sets the rectangle of its parent ([resizeItem]). *)
Definition moveItem (s : t) (g : nat) (pos : QPointF) : t :=
  set_items s (alter (fun it => mkItem (item_rect it) pos) g (items s)) (next_item s).
Definition resizeItem (s : t) (g : nat) (h : ResizeHandle.t) (scenePos : QPointF) : t :=
  set_items s
    (alter (fun it =>
              mkItem (ResizeHandle.mouseMoveEvent h (item_rect it) scenePos)
                     (item_pos it)) g (items s))
    (next_item s).

(** [add_resize_handles]: the four handles made for a box, each with the
    position it is put at, a corner of the rectangle of the box's item; no
    handle when the box has no item in the scene. *)
Definition add_resize_handles (s : t) (bbox : BoundingBox.t)
    : list (ResizeHandle.t * QPointF) :=
  match graphics_item bbox with
  | None => []
  | Some g =>
      match items s !! g with
      | None => []
      | Some it =>
          let rect := item_rect it in
          [ (ResizeHandle.init "top-left", mkPoint (left rect) (top rect));
            (ResizeHandle.init "top-right", mkPoint (right rect) (top rect));
            (ResizeHandle.init "bottom-left", mkPoint (left rect) (bottom rect));
            (ResizeHandle.init "bottom-right", mkPoint (right rect) (bottom rect)) ]
      end
  end.

(** [int(x)] for a float: truncation towards zero. *)
Definition int_of_float (x : Q) : Z := Z.quot (Qnum x) (Zpos (Qden x)).

(** The point size of a box label, as [add_box_label] and
    [update_box_label] compute it from the height of the box. *)
Definition label_font_size (box_height : Q) : Z :=
  let font_size := int_of_float (box_height / 15) in
  Z.max 7 (Z.min font_size 14).

End AnnotationScene.

(** ** class MainWindow: class list and annotation files *)

Module MainWindow.
Import BoundingBox AnnotationScene.

Definition newline : string := String "010"%char EmptyString.

(** [sorted(self.class_id_map.keys())] *)
Definition sorted_ids (class_id_map : gmap Z string) : list Z :=
  merge_sort Z.le (map fst (map_to_list class_id_map)).

(** [self.classes = [self.class_id_map[cid] for cid in sorted_ids]], as
    [add_class], [remove_class] and [load_classes] rebuild it. *)
Definition classes_of (class_id_map : gmap Z string) : list string :=
  omap (fun cid => class_id_map !! cid) (sorted_ids class_id_map).

(** [save_classes]: the text written to [class_file_path]; [None] when no
    path is set and nothing is written. *)
Definition save_classes (class_file_path : option string)
    (classes : list string) : option string :=
  match class_file_path with
  | None => None
  | Some _ =>
      Some (PyStr.join EmptyString
              (map (fun class_name => String.append class_name newline) classes))
  end.

(** [save_classes_file]: the text written to the chosen file; [None] when
    there is no class and nothing is written. *)
Definition save_classes_file (classes : list string) : option string :=
  match classes with
  | [] => None
  | _ =>
      Some (PyStr.join EmptyString
              (imap (fun i class_name =>
                       String.append "["
                         (String.append (Dec.str_int (Z.of_nat i))
                            (String.append "] "
                               (String.append class_name newline))))
                    classes))
  end.

(** The result of [load_classes]: the map read from the file, or the map as
    far as it was filled when [int] raised and the warning was shown. *)
Inductive classes_outcome :=
| ClassesLoaded (class_id_map : gmap Z string)
| ClassesFailed (class_id_map : gmap Z string).

Section LoadClasses.
Variable py_int : string -> option Z.

(** The body of the loop over the non-blank, stripped lines: the id and the
    name on line number [i]; [None] is the [ValueError] of [int]. *)
Definition class_of_line (i : nat) (line : string) : option (Z * string) :=
  match String.prefix "[" line, String.index 0 "]" line with
  | true, Some bracket_end =>
      class_id ← py_int (PyStr.slice 1 bracket_end line);
      Some (class_id,
            PyStr.strip (PyStr.slice (bracket_end + 1) (String.length line) line))
  | _, _ => Some (Z.of_nat i, line)
  end.

Fixpoint load_classes_go (i : nat) (lines : list string) (m : gmap Z string)
    : classes_outcome :=
  match lines with
  | [] => ClassesLoaded m
  | line :: rest =>
      match class_of_line i line with
      | Some (class_id, class_name) =>
          load_classes_go (S i) rest (<[class_id := class_name]> m)
      | None => ClassesFailed m
      end
  end.

(** [load_classes] on the text of the class file. *)
Definition load_classes (text : string) : classes_outcome :=
  let lines :=
    filter (fun line => line <> EmptyString) (map PyStr.strip (PyStr.lines text)) in
  load_classes_go 0 lines ∅.
End LoadClasses.

(** [edit_selected_annotation] for the first selected row. *)
Definition edit_selected_annotation (s : AnnotationScene.t) (row : Z)
    : AnnotationScene.t :=
  if (0 <=? row) && (row <? Z.of_nat (length (boxes s))) then
    match boxes s !! Z.to_nat row with
    | Some bbox =>
        match graphics_item bbox with
        | Some g => set_editing_box s (Some g)
        | None => s
        end
    | None => s
    end
  else s.

(** The result of [load_annotations]: the loop ran to the end of the file,
    or an exception left it and the warning was shown. *)
Inductive load_outcome :=
| Loaded (s : AnnotationScene.t)
| Aborted (s : AnnotationScene.t).

Definition scene_of (o : load_outcome) : AnnotationScene.t :=
  match o with Loaded s | Aborted s => s end.

Section Load.
Variable py_int : string -> option Z.
Variable py_float : string -> option Q.
Variable class_id_map : gmap Z string.

(** The body of the loop over the lines of the file; [None] is the
    [ValueError] of [int(parts[0])]. *)
Definition load_line (s : AnnotationScene.t) (line : string)
    : option AnnotationScene.t :=
  let line := PyStr.strip line in
  match line with
  | EmptyString => Some s
  | _ =>
      match PyStr.split line with
      | [p0; _; _; _; _] =>
          match py_int p0 with
          | None => None
          | Some class_id =>
              let class_name :=
                match class_id_map !! class_id with
                | Some n => n
                | None => String.append "class_" (Dec.str_int class_id)
                end in
              match from_yolo_format py_int py_float line
                      (image_width s) (image_height s) class_name with
              | Some bbox =>
                  let '(item, s1) :=
                    addItem s (mkItem (rect bbox) (mkPoint 0 0)) in
                  Some (set_boxes s1
                          (boxes s1 ++ [set_graphics_item bbox (Some item)]))
              | None => Some s
              end
          end
      | _ => Some s
      end
  end.

Fixpoint load_lines (s : AnnotationScene.t) (lines : list string)
    : load_outcome :=
  match lines with
  | [] => Loaded s
  | line :: rest =>
      match load_line s line with
      | Some s' => load_lines s' rest
      | None => Aborted s
      end
  end.

(** [load_annotations]; [file] is the annotation file as its lines,
    [None] when there is no such file. *)
Definition load_annotations (s : AnnotationScene.t)
    (file : option (list string)) : load_outcome :=
  match file with
  | None => Loaded s
  | Some lines => load_lines s lines
  end.
End Load.

(** *** The window's state and its class, annotation and file operations *)

(** The part of the window's state these operations use.  Answers given in
    dialogs are arguments of the operations. *)
Record t := mk {
  scene : AnnotationScene.t;
  classes : list string;
  class_id_map : gmap Z string;
  class_colors : gmap Z QColor;
  image_files : list string;
  current_image_index : Z;
  current_image_path : option string;
  unsaved_changes : bool
}.

Definition set_scene (w : t) (sc : AnnotationScene.t) (unsaved : bool) : t :=
  mk sc (classes w) (class_id_map w) (class_colors w) (image_files w)
     (current_image_index w) (current_image_path w) unsaved.

(** [__init__] *)
Definition init : t := mk AnnotationScene.init [] ∅ ∅ [] 0 None false.

(** [self.class_id_map.values()] *)
Definition values (class_id_map : gmap Z string) : list string :=
  map snd (map_to_list class_id_map).

(** [add_class]: [ok] and [class_name] are the answer to the name dialog,
    [ok_id] and [class_id] the answer to the id dialog, [color] the colour
    chosen, [None] when the colour dialog was cancelled. *)
Definition add_class (w : t) (ok : bool) (class_name : string)
    (ok_id : bool) (class_id : Z) (color : option QColor) : t :=
  if negb ok || bool_decide (class_name = EmptyString) then w
  else
    let class_name := PyStr.strip class_name in
    if bool_decide (class_name ∈ values (class_id_map w)) then w
    else if negb ok_id then w
    else
      let color := match color with
                   | Some c => c
                   | None => get_box_color (scene w) class_id
                   end in
      let m := <[class_id := class_name]> (class_id_map w) in
      mk (set_class_color (scene w) class_id color) (classes_of m) m
         (<[class_id := color]> (class_colors w)) (image_files w)
         (current_image_index w) (current_image_path w) (unsaved_changes w).

(** [[i for i, bbox in enumerate(boxes) if bbox.class_id == class_id]],
    counting from [i]. *)
Fixpoint indices_of_class (class_id : Z) (i : Z) (bs : list BoundingBox.t) : list Z :=
  match bs with
  | [] => []
  | bbox :: rest =>
      if BoundingBox.class_id bbox =? class_id
      then i :: indices_of_class class_id (i + 1) rest
      else indices_of_class class_id (i + 1) rest
  end.

(** [on_class_changed] *)
Definition on_class_changed (w : t) (index : Z) : t :=
  let ids := sorted_ids (class_id_map w) in
  if (0 <=? index) && (index <? Z.of_nat (length ids)) then
    match ids !! Z.to_nat index with
    | Some class_id =>
        match class_id_map w !! class_id with
        | Some class_name =>
            set_scene w
              (set_current_class (scene w) class_id class_name
                 (class_colors w !! class_id))
              (unsaved_changes w)
        | None => w
        end
    | None => w
    end
  else w.

(** [remove_class]: [current_row] is the selected row of the class list,
    [reply_yes] the answer to the question asked when the class is in use.
    Selecting row 0 of the rebuilt list, at the end, runs
    [on_class_changed]. *)
Definition remove_class (w : t) (current_row : Z) (reply_yes : bool) : t :=
  let ids := sorted_ids (class_id_map w) in
  if (current_row <? 0) || (Z.of_nat (length ids) <=? current_row) then w
  else
    match ids !! Z.to_nat current_row with
    | None => w
    | Some class_id =>
        let in_use :=
          existsb (fun bbox => BoundingBox.class_id bbox =? class_id)
                  (boxes (scene w)) in
        if in_use && negb reply_yes then w
        else
          let sc :=
            if in_use then
              match indices_of_class class_id 0 (boxes (scene w)) with
              | [] => scene w
              | indices_to_remove => delete_selected_boxes (scene w) indices_to_remove
              end
            else scene w in
          let m := delete class_id (class_id_map w) in
          let w' := mk sc (classes_of m) m (class_colors w) (image_files w)
                      (current_image_index w) (current_image_path w) true in
          match classes w' with
          | [] => w'
          | _ => on_class_changed w' 0
          end
    end.

(** [delete_selected_annotation]: [selected_rows] are the rows selected in
    the annotation list, [reply_yes] the answer to the confirmation. *)
Definition delete_selected_annotation (w : t) (selected_rows : list Z)
    (reply_yes : bool) : t :=
  match selected_rows with
  | [] => w
  | _ =>
      let indices := sorted_reverse (remove_dups selected_rows) in
      if reply_yes
      then set_scene w (delete_selected_boxes (scene w) indices) true
      else w
  end.

(** [undo_action] and [redo_action] *)
Definition undo_action (w : t) : t :=
  let '(done, sc) := undo (scene w) in
  if done then set_scene w sc true else w.
Definition redo_action (w : t) : t :=
  let '(done, sc) := redo (scene w) in
  if done then set_scene w sc true else w.

(** What a writer of annotations leaves behind: nothing touched, no file (an
    existing one was removed), the file with its text, or the file with the
    text written before [to_yolo_format] raised. *)
Inductive save_outcome :=
| NotSaved
| FileRemoved
| FileWritten (text : string)
| WriteFailed (text : string).

(** The loop that writes one line per box, after [written]. *)
Fixpoint write_boxes (bs : list BoundingBox.t) (image_width image_height : Z)
    (written : string) : save_outcome :=
  match bs with
  | [] => FileWritten written
  | bbox :: rest =>
      match to_yolo_format bbox image_width image_height with
      | Some yolo_line =>
          write_boxes rest image_width image_height
            (String.append written (String.append yolo_line newline))
      | None => WriteFailed written
      end
  end.

(** [save_annotations]; the labels directory, when one is set, can be
    created and the annotation file can be opened for writing. *)
Definition save_annotations (w : t) : save_outcome * t :=
  match current_image_path w with
  | None => (NotSaved, w)
  | Some _ =>
      match boxes (scene w) with
      | [] => (FileRemoved, set_scene w (scene w) false)
      | bs =>
          match write_boxes bs (image_width (scene w)) (image_height (scene w))
                  EmptyString with
          | FileWritten text => (FileWritten text, set_scene w (scene w) false)
          | o => (o, w)
          end
      end
  end.

(** [export_current_annotations]: [file_path] is the file chosen, [None]
    when the dialog was cancelled; the file can be opened for writing. *)
Definition export_current_annotations (w : t) (file_path : option string)
    : save_outcome :=
  match current_image_path w, boxes (scene w), file_path with
  | Some _, _ :: _, Some _ =>
      write_boxes (boxes (scene w)) (image_width (scene w))
        (image_height (scene w)) EmptyString
  | _, _, _ => NotSaved
  end.

(** The loop of [export_selected_annotation] over the rows to export. *)
Fixpoint write_rows (rows : list nat) (bs : list BoundingBox.t)
    (image_width image_height : Z) (written : string) : save_outcome :=
  match rows with
  | [] => FileWritten written
  | i :: rest =>
      match bs !! i with
      | Some bbox =>
          match to_yolo_format bbox image_width image_height with
          | Some yolo_line =>
              write_rows rest bs image_width image_height
                (String.append written (String.append yolo_line newline))
          | None => WriteFailed written
          end
      | None => write_rows rest bs image_width image_height written
      end
  end.

(** [export_selected_annotation], a labels directory being set:
    [selected_rows] are the rows selected in the annotation list. *)
Definition export_selected_annotation (w : t) (selected_rows : list nat)
    : save_outcome :=
  match current_image_path w with
  | None => NotSaved
  | Some _ =>
      let boxes_to_export :=
        match selected_rows with
        | [] => seq 0 (length (boxes (scene w)))
        | _ => merge_sort Nat.le (remove_dups selected_rows)
        end in
      match boxes_to_export, boxes (scene w) with
      | [], _ | _, [] => NotSaved
      | _, _ =>
          write_rows boxes_to_export (boxes (scene w)) (image_width (scene w))
            (image_height (scene w)) EmptyString
      end
  end.

(** The answer to the question [load_image] asks when boxes are left. *)
Inductive answer := Yes | No | Cancel.

Section LoadImage.
Variable py_int : string -> option Z.
Variable py_float : string -> option Q.

(** [load_image]: [reply] is the answer to the question, [pixmap] the size
    of the image read from [image_path] ([None] when it cannot be read),
    [file] the lines of its annotation file, if there is one. *)
Definition load_image (w : t) (image_path : string) (reply : answer)
    (pixmap : option (Z * Z)) (file : option (list string)) : t :=
  let asked :=
    match current_image_path w, boxes (scene w) with
    | Some _, _ :: _ => true
    | _, _ => false
    end in
  match asked, reply with
  | true, Cancel => w
  | _, _ =>
      match pixmap with
      | None => w
      | Some (pixmap_width, pixmap_height) =>
          let sc := set_image (scene w) pixmap_width pixmap_height in
          let sc' := scene_of (load_annotations py_int py_float (class_id_map w) sc file) in
          mk sc' (classes w) (class_id_map w) (class_colors w) (image_files w)
             (current_image_index w) (Some image_path) false
      end
  end.

Definition set_index (w : t) (i : Z) : t :=
  mk (scene w) (classes w) (class_id_map w) (class_colors w) (image_files w)
     i (current_image_path w) (unsaved_changes w).

(** [next_image] and [previous_image]; [pixmap_of] and [file_of] give, for an
    image path, what [load_image] finds on disk. *)
Definition next_image (w : t) (reply : answer)
    (pixmap_of : string -> option (Z * Z)) (file_of : string -> option (list string)) : t :=
  match image_files w with
  | [] => w
  | _ =>
      let i := (current_image_index w + 1) mod Z.of_nat (length (image_files w)) in
      let w1 := set_index w i in
      match image_files w !! Z.to_nat i with
      | Some path => load_image w1 path reply (pixmap_of path) (file_of path)
      | None => w1
      end
  end.

Definition previous_image (w : t) (reply : answer)
    (pixmap_of : string -> option (Z * Z)) (file_of : string -> option (list string)) : t :=
  match image_files w with
  | [] => w
  | _ =>
      let i := (current_image_index w - 1) mod Z.of_nat (length (image_files w)) in
      let w1 := set_index w i in
      match image_files w !! Z.to_nat i with
      | Some path => load_image w1 path reply (pixmap_of path) (file_of path)
      | None => w1
      end
  end.
End LoadImage.

End MainWindow.

(** ** An editing session: the calls that reach the scene *)

Module Session.
Import AnnotationScene.

Inductive event :=
| MousePress (left_button : bool) (item : hit) (scenePos : QPointF)
| MouseMove (scenePos : QPointF)
| MouseRelease (left_button : bool)
| DeleteSelectedBoxes (indices : list Z)
| EditSelectedAnnotation (row : Z)
| FinishEditing
| MoveItem (g : nat) (pos : QPointF)
| ResizeItem (g : nat) (h : ResizeHandle.t) (scenePos : QPointF)
| SetCurrentClass (class_id : Z) (class_name : string) (color : option QColor)
| SetClassColor (class_id : Z) (color : QColor)
| ToggleDrawingMode.

Definition step (s : AnnotationScene.t) (e : event) : AnnotationScene.t :=
  match e with
  | MousePress b item pos => mousePressEvent s b item pos
  | MouseMove pos => mouseMoveEvent s pos
  | MouseRelease b => mouseReleaseEvent s b
  | DeleteSelectedBoxes indices => delete_selected_boxes s indices
  | EditSelectedAnnotation row => MainWindow.edit_selected_annotation s row
  | FinishEditing => finish_editing s
  | MoveItem g pos => moveItem s g pos
  | ResizeItem g h pos => resizeItem s g h pos
  | SetCurrentClass cid name color => set_current_class s cid name color
  | SetClassColor cid color => set_class_color s cid color
  | ToggleDrawingMode => set_drawing_enabled s (negb (drawing_enabled s))
  end.

Definition run (s : AnnotationScene.t) (es : list event) : AnnotationScene.t :=
  fold_left step es s.

(** [undo] / [redo] called [n] times, results ignored. *)
Definition undo_n (n : nat) (s : AnnotationScene.t) : AnnotationScene.t :=
  Nat.iter n (fun s => snd (undo s)) s.
Definition redo_n (n : nat) (s : AnnotationScene.t) : AnnotationScene.t :=
  Nat.iter n (fun s => snd (redo s)) s.

(** Geometry and class of a box: what the history is to preserve. *)
Definition geometry_class (b : BoundingBox.t) : QRectF * Z * string :=
  (BoundingBox.rect b, BoundingBox.class_id b, BoundingBox.class_name b).

End Session.

(** ** Auxiliary notions used in the statements *)

Module History.
Import AnnotationScene Session.

(** The history of a scene with the boxes reduced to geometry and class:
    undo stack, live boxes, redo stack. *)
Definition snapshot := list (QRectF * Z * string).
Definition view (s : AnnotationScene.t) : list snapshot * snapshot * list snapshot :=
  (map (map geometry_class) (undo_stack s),
   map geometry_class (boxes s),
   map (map geometry_class) (redo_stack s)).

(** [undo] and [redo] on a view. *)
Definition undo_view (v : list snapshot * snapshot * list snapshot) :=
  match v with
  | ([], b, r) => ([], b, r)
  | (p :: u, b, r) => (u, p, b :: r)
  end.
Definition redo_view (v : list snapshot * snapshot * list snapshot) :=
  match v with
  | (u, b, []) => (u, b, [])
  | (u, b, n :: r) => (b :: u, n, r)
  end.

(** Unwinding an undo stack [u] from the live state [b]: the oldest state,
    and the redo stack left behind. *)
Fixpoint unwind (u : list snapshot) (b : snapshot) (r : list snapshot)
    : snapshot * list snapshot :=
  match u with
  | [] => (b, r)
  | p :: u' => unwind u' p (b :: r)
  end.

(** What one call does to the history: a call that leaves the stacks alone
    and cannot create a box out of nothing ([quiet]), and a call that starts
    with [save_state] ([snapshotting]). *)
Definition quiet (s s' : AnnotationScene.t) : Prop :=
  undo_stack s' = undo_stack s /\ redo_stack s' = redo_stack s
  /\ (boxes s = [] -> boxes s' = []).
Definition snapshotting (s s' : AnnotationScene.t) : Prop :=
  undo_stack s' = copy_state (boxes s) :: undo_stack s /\ redo_stack s' = [].

(** The invariant of a session of at most [n] calls started on the empty
    scene: nothing to redo, at most [n] snapshots, and the oldest state on
    record is the empty one. *)
Definition session_inv (n : nat) (s : AnnotationScene.t) : Prop :=
  redo_stack s = []
  /\ (length (undo_stack s) <= n)%nat
  /\ List.last (undo_stack s) (boxes s) = [].

End History.

(** ** Notions used to state the codec's properties *)

Module Codec.
Local Open Scope Q_scope.
Import BoundingBox.

(** The token [t] reads as a number with six decimals, [n / 10^6], that
    lies in [[0,1]] and is nearest to [v]; it has eight characters (a digit,
    the point, six digits). *)
Definition six_decimals_of (t : string) (v : Q) : Prop :=
  exists n : Z,
    PyNum.py_float_dec t = Some (Qmake n 1000000)
    /\ (0 <= n <= 1000000)%Z
    /\ Qabs (Qmake n 1000000 - v) <= 1 # 2000000
    /\ String.length t = 8%nat.

(** The box lies fully inside the image. *)
Definition inside_image (b : BoundingBox.t) (W H : Z) : Prop :=
  0 <= left (rect b) /\ left (rect b) <= right (rect b)
  /\ right (rect b) <= inject_Z W
  /\ 0 <= top (rect b) /\ top (rect b) <= bottom (rect b)
  /\ bottom (rect b) <= inject_Z H.

(** [a] reproduces [b] within the absolute, resp. relative, tolerance. *)
Definition within_abs (tol a b : Q) : Prop := Qabs (a - b) <= tol.
Definition within_rel (tol a b : Q) : Prop := Qabs (a - b) <= tol * Qabs b.

(** The four normalized fields of [a] reproduce those of [b]. *)
Definition fields_within (close : Q -> Q -> Prop) (a b : BoundingBox.t) (W H : Z)
    : Prop :=
  close (x_center a W) (x_center b W)
  /\ close (y_center a H) (y_center b H)
  /\ close (norm_width a W) (norm_width b W)
  /\ close (norm_height a H) (norm_height b H).

End Codec.

(** ** Notions used to state the properties of the operations *)

Module Props.
Local Open Scope Q_scope.

(** The elements of [l] whose position, counted from [k], satisfies [P]. *)
Fixpoint keep_positions {A} (P : nat -> bool) (k : nat) (l : list A) : list A :=
  match l with
  | [] => []
  | x :: r => if P k then x :: keep_positions P (S k) r else keep_positions P (S k) r
  end.

(** No line end in [s]: neither LF nor CR. *)
Fixpoint no_newline (s : string) : bool :=
  match s with
  | EmptyString => true
  | String c r =>
      negb (Ascii.eqb c "010"%char) && negb (Ascii.eqb c "013"%char) && no_newline r
  end.

(** No two ids of the class map carry the same name. *)
Definition names_unique (m : gmap Z string) : Prop :=
  forall (i j : Z) (n : string), m !! i = Some n -> m !! j = Some n -> i = j.

(** The corner of [r] that a handle of the given name sits on, and the
    corner opposite to it. *)
Definition handle_corner (name : string) (r : QRectF) : QPointF :=
  mkPoint (if PyStr.contains "left" name then left r else right r)
          (if PyStr.contains "top" name then top r else bottom r).
Definition opposite_corner (name : string) (r : QRectF) : QPointF :=
  mkPoint (if PyStr.contains "left" name then right r else left r)
          (if PyStr.contains "top" name then bottom r else top r).

(** The name [load_annotations] gives to a box of class [cid]. *)
Definition class_name_of (m : gmap Z string) (cid : Z) : string :=
  match m !! cid with
  | Some n => n
  | None => String.append "class_" (Dec.str_int cid)
  end.

(** [b'] is what reading back the line written for [b] gives, for an image
    of [W] by [H] pixels and the class map [m]: the class id of [b], the
    name the map has for it, no colour, each normalized field within half a
    unit of the sixth decimal of the clamped field of [b], and the same
    line when written again. *)
Definition reloads_as (W H : Z) (m : gmap Z string) (b' b : BoundingBox.t) : Prop :=
  BoundingBox.class_id b' = BoundingBox.class_id b
  /\ BoundingBox.class_name b' = class_name_of m (BoundingBox.class_id b)
  /\ BoundingBox.color b' = None
  /\ Codec.within_abs (1 # 2000000) (BoundingBox.x_center b' W)
       (BoundingBox.clamp01 (BoundingBox.x_center b W))
  /\ Codec.within_abs (1 # 2000000) (BoundingBox.y_center b' H)
       (BoundingBox.clamp01 (BoundingBox.y_center b H))
  /\ Codec.within_abs (1 # 2000000) (BoundingBox.norm_width b' W)
       (BoundingBox.clamp01 (BoundingBox.norm_width b W))
  /\ Codec.within_abs (1 # 2000000) (BoundingBox.norm_height b' H)
       (BoundingBox.clamp01 (BoundingBox.norm_height b H))
  /\ BoundingBox.to_yolo_format b' W H = BoundingBox.to_yolo_format b W H.

(** A box as [load_annotations] appends it: named as the class map [m]
    names its id, without a colour of its own, with a graphics item. *)
Definition loaded_box (m : gmap Z string) (b : BoundingBox.t) : Prop :=
  BoundingBox.class_name b = class_name_of m (BoundingBox.class_id b)
  /\ BoundingBox.color b = None /\ is_Some (BoundingBox.graphics_item b).

(** Every character of [s] satisfies [P]. *)
Fixpoint all_chars (P : ascii -> bool) (s : string) : bool :=
  match s with
  | EmptyString => true
  | String c r => P c && all_chars P r
  end.

(** A class name as [add_class] stores it, the empty one apart: stripped
    and on one line (no LF and no CR in it). *)
Definition plain_name (n : string) : Prop :=
  n <> EmptyString /\ PyStr.strip n = n /\ no_newline n = true.

(** The class map [m] numbers [names] by their position in the list. *)
Definition numbered_by_position (names : list string) (m : gmap Z string) : Prop :=
  forall z : Z, m !! z = if (0 <=? z)%Z then names !! Z.to_nat z else None.

(** Every live box is drawn by an item of its own: the boxes name pairwise
    different items, each one made by the scene and still in it, and the
    rectangle being drawn, if there is one, is in the scene and is the item
    of no box. *)
Definition items_wf (s : AnnotationScene.t) : Prop :=
  let drawn := map BoundingBox.graphics_item (AnnotationScene.boxes s) in
  NoDup drawn
  /\ Forall (fun og => exists g : nat,
                 og = Some g /\ (g < AnnotationScene.next_item s)%nat
                 /\ is_Some (AnnotationScene.items s !! g)) drawn
  /\ (forall g : nat,
        AnnotationScene.current_box s = Some g ->
        (g < AnnotationScene.next_item s)%nat
        /\ is_Some (AnnotationScene.items s !! g)
        /\ Some g ∉ drawn).

End Props.

(** ** Concrete inputs used in examples, witnesses and counterexamples *)

Module Examples.
Import AnnotationScene.

(** A scene with one box of class 3 drawn under a colour override. *)
Definition painted_scene : AnnotationScene.t :=
  mouseReleaseEvent
    (mouseMoveEvent
       (mousePressEvent
          (set_current_class AnnotationScene.init 3 "fish" (Some (mkColor 1 2 3 4)))
          true OnOther (mkPoint 10 10))
       (mkPoint 50 60))
    true.

(** An image of 1000 by 500 pixels on which a rectangle is being drawn from
    (100,100) to (300,400) under class 2, "fish"; the button is still down. *)
Definition fish_drawing : AnnotationScene.t :=
  mouseMoveEvent
    (mousePressEvent
       (set_current_class (set_image AnnotationScene.init 1000 500) 2 "fish" None)
       true OnOther (mkPoint 100 100))
    (mkPoint 300 400).

(** A box of one pixel in the corner of an image of 3000 by 3000 pixels. *)
Definition pixel_box : BoundingBox.t :=
  BoundingBox.init (mkRect 0 0 1 1) 0 "a" None.

(** An annotation file whose first line has five tokens but no integer in
    front, and whose second line is a well-formed record; and the empty
    scene of an image of 100 by 100 pixels that is to receive it. *)
Definition bad_then_good : list string :=
  ["abc 0.5 0.5 0.1 0.1"; "0 0.5 0.5 0.1 0.1"]%string.
Definition blank_100 : AnnotationScene.t := set_image AnnotationScene.init 100 100.

(** A class map with the single class 5, "fish", and one with two classes
    of ids 2 and 7. *)
Definition fish_only : gmap Z string := {[ 5%Z := "fish"%string ]}.
Definition crab_fish : gmap Z string :=
  <[ 7%Z := "fish"%string ]> {[ 2%Z := "crab"%string ]}.

(** A press, a move and a release of the left button on empty ground. *)
Definition draw (s : AnnotationScene.t) (p q : QPointF) : AnnotationScene.t :=
  mouseReleaseEvent (mouseMoveEvent (mousePressEvent s true OnOther p) q) true.

(** An image of 1000 by 500 pixels with three boxes drawn on it: two of
    class 2, "crab", then one of class 7, "fish". *)
Definition three_boxes : AnnotationScene.t :=
  draw (set_current_class
          (draw (draw (set_current_class (set_image AnnotationScene.init 1000 500)
                         2 "crab" None)
                      (mkPoint 10 10) (mkPoint 110 90))
                (mkPoint 200 50) (mkPoint 400 300))
          7 "fish" None)
       (mkPoint 500 100) (mkPoint 700 400).

(** A window on [three_boxes] with the classes of [crab_fish]. *)
Definition crab_fish_window : MainWindow.t :=
  MainWindow.mk three_boxes (MainWindow.classes_of crab_fish) crab_fish ∅
    [] 0 (Some "a.png"%string) false.

End Examples.

(* ====================================================================== *)
(** * Part II: properties                                                  *)
(* ====================================================================== *)

(** ** The history of the scene *)

Section SceneFacts.
Import BoundingBox AnnotationScene Session History Examples.

Lemma geometry_class_copy_state bs :
  map geometry_class (copy_state bs) = map geometry_class bs.
Proof. unfold copy_state. rewrite map_map. reflexivity. Qed.

Lemma copy_state_color bs b : In b (copy_state bs) -> color b = None.
Proof.
  unfold copy_state. rewrite in_map_iff. intros (b0 & <- & _). reflexivity.
Qed.

Lemma remove_box_items_frame bs s :
  boxes (remove_box_items bs s) = boxes s
  /\ undo_stack (remove_box_items bs s) = undo_stack s
  /\ redo_stack (remove_box_items bs s) = redo_stack s.
Proof.
  revert s. induction bs as [|b bs IH]; intros s; simpl; [auto|].
  destruct (graphics_item b); destruct (IH (removeItem s n)) as (-> & -> & ->) || apply IH.
  auto.
Qed.

Lemma restore_boxes_frame st s :
  undo_stack (restore_boxes st s) = undo_stack s
  /\ redo_stack (restore_boxes st s) = redo_stack s
  /\ map geometry_class (boxes (restore_boxes st s))
     = map geometry_class (boxes s) ++ map geometry_class st
  /\ (Forall (fun b => color b = None) (boxes s) ->
      Forall (fun b => color b = None) (boxes (restore_boxes st s))).
Proof.
  revert s. induction st as [|b st IH]; intros s; simpl.
  - rewrite app_nil_r. auto.
  - destruct (IH (set_boxes
                    (set_items s (<[next_item s:=mkItem (rect b) (mkPoint 0 0)]> (items s))
                       (S (next_item s)))
                    (boxes s ++ [set_graphics_item (BoundingBox.init (rect b) (class_id b) (class_name b) None)
                                   (Some (next_item s))])))
      as (Hu & Hr & Hb & Hc).
    simpl in *. rewrite Hu, Hr, Hb. repeat split; trivial.
    + rewrite map_app. simpl. rewrite <- app_assoc. reflexivity.
    + intros Hall. apply Hc. apply Forall_app. split; [exact Hall|].
      constructor; [reflexivity | constructor].
Qed.

Lemma restore_state_spec s st :
  undo_stack (restore_state s st) = undo_stack s
  /\ redo_stack (restore_state s st) = redo_stack s
  /\ map geometry_class (boxes (restore_state s st)) = map geometry_class st
  /\ Forall (fun b => color b = None) (boxes (restore_state s st)).
Proof.
  unfold restore_state.
  destruct (remove_box_items_frame (boxes s) s) as (Hb & Hu & Hr).
  destruct (restore_boxes_frame st
              (set_selected_box (set_boxes (remove_box_items (boxes s) s) []) None))
    as (Hu' & Hr' & Hb' & Hc').
  simpl in *. rewrite Hu', Hr', Hb', Hu, Hr. repeat split; trivial.
  apply Hc'. constructor.
Qed.

Lemma undo_view_spec s : view (snd (undo s)) = undo_view (view s).
Proof.
  unfold undo, view. destruct (undo_stack s) as [|p u] eqn:Hus; simpl.
  - rewrite Hus. reflexivity.
  - destruct (restore_state_spec
                (set_undo_stack (set_redo_stack s (copy_state (boxes s) :: redo_stack s)) u) p)
      as (Hu & Hr & Hb & _).
    rewrite Hu, Hr, Hb. simpl. rewrite geometry_class_copy_state. reflexivity.
Qed.

Lemma redo_view_spec s : view (snd (redo s)) = redo_view (view s).
Proof.
  unfold redo, view. destruct (redo_stack s) as [|p r] eqn:Hrs; simpl.
  - rewrite Hrs. reflexivity.
  - destruct (restore_state_spec
                (set_redo_stack (set_undo_stack s (copy_state (boxes s) :: undo_stack s)) r) p)
      as (Hu & Hr & Hb & _).
    rewrite Hu, Hr, Hb. simpl. rewrite geometry_class_copy_state. reflexivity.
Qed.

(** Iterating on views. *)
Lemma undo_view_empty n b r :
  Nat.iter n undo_view ([], b, r) = ([], b, r).
Proof. induction n as [|n IH]; simpl; [reflexivity | rewrite IH; reflexivity]. Qed.

Lemma redo_view_empty n u b :
  Nat.iter n redo_view (u, b, []) = (u, b, []).
Proof. induction n as [|n IH]; simpl; [reflexivity | rewrite IH; reflexivity]. Qed.

Lemma undo_view_iter u : forall n b r,
  (length u <= n)%nat ->
  Nat.iter n undo_view (u, b, r) = ([], fst (unwind u b r), snd (unwind u b r)).
Proof.
  induction u as [|p u IH]; intros n b r Hn; simpl.
  - apply undo_view_empty.
  - destruct n as [|n]; [simpl in Hn; lia|].
    rewrite Nat.iter_succ_r. cbn [undo_view].
    apply IH. simpl in Hn. lia.
Qed.

Lemma redo_view_iter u : forall n b r u0,
  (length u <= n)%nat ->
  Nat.iter n redo_view (u0, fst (unwind u b r), snd (unwind u b r))
  = Nat.iter (n - length u) redo_view (u ++ u0, b, r).
Proof.
  induction u as [|p u IH]; intros n b r u0 Hn; simpl.
  - rewrite Nat.sub_0_r. reflexivity.
  - simpl in Hn. rewrite IH by lia.
    replace (n - length u)%nat with (S (n - S (length u))) by lia.
    rewrite Nat.iter_succ_r. simpl. reflexivity.
Qed.


(** *** What one call does to the history *)

Lemma quiet_refl s : quiet s s.
Proof. repeat split; auto. Qed.

Lemma finish_editing_quiet s : quiet s (finish_editing s).
Proof.
  unfold finish_editing. destruct (editing_box s) as [g|]; [|apply quiet_refl].
  destruct (items s !! g); repeat split; simpl; auto.
  intros ->. reflexivity.
Qed.

Lemma quiet_trans s1 s2 s3 : quiet s1 s2 -> quiet s2 s3 -> quiet s1 s3.
Proof.
  intros (a & b & c) (a' & b' & c'). repeat split; try congruence. auto.
Qed.

Lemma mousePressEvent_quiet s b item pos : quiet s (mousePressEvent s b item pos).
Proof.
  assert (He : quiet s
            (let s1 := finish_editing (select_box s None) in
             match current_class_name s1 with
             | EmptyString => s1
             | String _ _ =>
                 let '(new_item, s2) := addItem s1 (mkItem null_rect (mkPoint 0 0)) in
                 set_drawing s2 (Some new_item) (Some pos)
             end)).
  { cbv zeta.
    assert (Hq : quiet s (finish_editing (select_box s None))).
    { eapply quiet_trans; [|apply finish_editing_quiet]. repeat split; auto. }
    destruct (current_class_name (finish_editing (select_box s None))); [exact Hq|].
    eapply quiet_trans; [exact Hq|]. repeat split; auto. }
  unfold mousePressEvent. destruct (b && drawing_enabled s); [|apply quiet_refl].
  destruct item as [|g|]; [apply quiet_refl| |exact He].
  destruct (bool_decide (Some g = current_box s)); [exact He|].
  unfold select_box_by_item. destruct (find _ _); repeat split; auto.
Qed.

Lemma mouseMoveEvent_quiet s pos : quiet s (mouseMoveEvent s pos).
Proof.
  unfold mouseMoveEvent. destruct (current_box s); [|apply quiet_refl].
  destruct (start_point s) as [sp|]; [|apply quiet_refl].
  destruct (QPointF_bool sp); repeat split; auto.
Qed.

Lemma mouseReleaseEvent_cases s b :
  quiet s (mouseReleaseEvent s b) \/ snapshotting s (mouseReleaseEvent s b).
Proof.
  unfold mouseReleaseEvent. destruct (current_box s) as [g|]; [|left; apply quiet_refl].
  destruct b; [|left; apply quiet_refl].
  destruct (PyNum.Qltb 5 (width (rect_of_item s g)) && PyNum.Qltb 5 (height (rect_of_item s g))).
  - right. split; reflexivity.
  - left. repeat split; auto.
Qed.

Lemma delete_at_frame s i :
  undo_stack (delete_at s i) = undo_stack s /\ redo_stack (delete_at s i) = redo_stack s.
Proof.
  unfold delete_at. destruct ((0 <=? i) && (i <? Z.of_nat (length (boxes s))))%Z; [|auto].
  destruct (boxes s !! Z.to_nat i) as [bbox|]; [|auto].
  destruct (graphics_item bbox); auto.
Qed.

Lemma fold_delete_at_frame l : forall s,
  undo_stack (fold_left delete_at l s) = undo_stack s
  /\ redo_stack (fold_left delete_at l s) = redo_stack s.
Proof.
  induction l as [|i l IH]; intros s; simpl; [auto|].
  destruct (IH (delete_at s i)) as (-> & ->). apply delete_at_frame.
Qed.

Lemma delete_selected_boxes_snapshotting s indices :
  snapshotting s (delete_selected_boxes s indices).
Proof.
  unfold delete_selected_boxes, snapshotting. simpl.
  destruct (fold_delete_at_frame (sorted_reverse indices) (save_state s)) as (-> & ->).
  split; reflexivity.
Qed.

Lemma edit_selected_annotation_quiet s row :
  quiet s (MainWindow.edit_selected_annotation s row).
Proof.
  unfold MainWindow.edit_selected_annotation.
  destruct ((0 <=? row) && (row <? Z.of_nat (length (boxes s))))%Z; [|apply quiet_refl].
  destruct (boxes s !! Z.to_nat row) as [bbox|]; [|apply quiet_refl].
  destruct (graphics_item bbox); [|apply quiet_refl]. repeat split; auto.
Qed.

Lemma step_cases s e : quiet s (step s e) \/ snapshotting s (step s e).
Proof.
  destruct e; simpl.
  - left. apply mousePressEvent_quiet.
  - left. apply mouseMoveEvent_quiet.
  - apply mouseReleaseEvent_cases.
  - right. apply delete_selected_boxes_snapshotting.
  - left. apply edit_selected_annotation_quiet.
  - left. apply finish_editing_quiet.
  - left. repeat split; auto.
  - left. repeat split; auto.
  - left. unfold set_current_class. destruct color0; repeat split; auto.
  - left. repeat split; auto.
  - left. repeat split; auto.
Qed.

(** *** The invariant of a session started on the empty scene *)

Lemma last_cons_indep {A} (x : A) l d d' : List.last (x :: l) d = List.last (x :: l) d'.
Proof.
  revert x. induction l as [|y l IH]; intros x; [reflexivity|].
  change (List.last (y :: l) d = List.last (y :: l) d'). apply IH.
Qed.

Lemma session_inv_step n s e : session_inv n s -> session_inv (S n) (step s e).
Proof.
  intros (Hr & Hn & Hl).
  destruct (step_cases s e) as [(Hu' & Hr' & Hb') | (Hu' & Hr')].
  - repeat split; [congruence | rewrite Hu'; lia |].
    rewrite Hu'. destruct (undo_stack s) as [|p u].
    + simpl in *. auto.
    + rewrite <- Hl. apply last_cons_indep.
  - repeat split; [exact Hr' | rewrite Hu'; simpl; lia |].
    rewrite Hu'. destruct (undo_stack s) as [|p u].
    + simpl in *. rewrite Hl. reflexivity.
    + change (List.last (p :: u) (boxes (step s e)) = []).
      rewrite <- Hl. apply last_cons_indep.
Qed.

Lemma session_inv_run es : forall n s,
  session_inv n s -> session_inv (length es + n) (run s es).
Proof.
  induction es as [|e es IH]; intros n s Hs; [exact Hs|].
  simpl. replace (S (length es + n)) with (length es + S n)%nat by lia.
  apply IH. apply session_inv_step. exact Hs.
Qed.

Lemma unwind_fst_last u : forall b r, fst (unwind u b r) = List.last u b.
Proof.
  induction u as [|p u IH]; intros b r; [reflexivity|].
  simpl unwind. rewrite IH. destruct u as [|q u]; [reflexivity|].
  change (List.last (q :: u) p = List.last (q :: u) b). apply last_cons_indep.
Qed.

Lemma view_undo_n n s : view (undo_n n s) = Nat.iter n undo_view (view s).
Proof.
  induction n as [|n IH]; [reflexivity|].
  unfold undo_n in *. simpl. rewrite undo_view_spec, IH. reflexivity.
Qed.

Lemma view_redo_n n s : view (redo_n n s) = Nat.iter n redo_view (view s).
Proof.
  induction n as [|n IH]; [reflexivity|].
  unfold redo_n in *. simpl. rewrite redo_view_spec, IH. reflexivity.
Qed.

Lemma last_map {A B} (f : A -> B) l d : List.last (map f l) (f d) = f (List.last l d).
Proof.
  induction l as [|x l IH]; [reflexivity|].
  destruct l as [|y l]; [reflexivity|]. exact IH.
Qed.

Lemma set_image_session_inv s W H : session_inv 0 (set_image s W H).
Proof. repeat split; simpl; auto. Qed.

Lemma undo_step_spec s :
  match undo_stack s with
  | [] => undo s = (false, s)
  | previous_state :: rest =>
      fst (undo s) = true
      /\ undo_stack (snd (undo s)) = rest
      /\ redo_stack (snd (undo s)) = copy_state (boxes s) :: redo_stack s
      /\ map geometry_class (boxes (snd (undo s))) = map geometry_class previous_state
  end.
Proof.
  unfold undo. destruct (undo_stack s) as [|p u]; [reflexivity|].
  destruct (restore_state_spec
              (set_undo_stack (set_redo_stack s (copy_state (boxes s) :: redo_stack s)) u) p)
    as (Hu & Hr & Hb & _).
  simpl. rewrite Hu, Hr, Hb. auto.
Qed.

Lemma redo_step_spec s :
  match redo_stack s with
  | [] => redo s = (false, s)
  | redo_state :: rest =>
      fst (redo s) = true
      /\ redo_stack (snd (redo s)) = rest
      /\ undo_stack (snd (redo s)) = copy_state (boxes s) :: undo_stack s
      /\ map geometry_class (boxes (snd (redo s))) = map geometry_class redo_state
  end.
Proof.
  unfold redo. destruct (redo_stack s) as [|p r]; [reflexivity|].
  destruct (restore_state_spec
              (set_redo_stack (set_undo_stack s (copy_state (boxes s) :: undo_stack s)) r) p)
    as (Hu & Hr & Hb & _).
  simpl. rewrite Hu, Hr, Hb. auto.
Qed.

(** C6. Undo/redo symmetry.  After any session of [n] calls started on the
    empty scene of a newly set image (the scene as created is one), [n]
    undos give back the empty scene (no box, nothing left to undo), and [n]
    redos after them give back the boxes the session ended with, equal in
    rectangle, class id and class name.  An undo pops the undo stack, pushes
    a copy of the live boxes on the redo stack and restores the popped
    state; a redo is the mirror image. *)
Theorem undo_redo_symmetry :
  (forall (s0 : AnnotationScene.t) (W H : Z) (es : list event),
      let s := run (set_image s0 W H) es in
      let n := length es in
      boxes (undo_n n s) = []
      /\ undo_stack (undo_n n s) = []
      /\ map geometry_class (boxes (redo_n n (undo_n n s)))
         = map geometry_class (boxes s)
      /\ redo_stack (redo_n n (undo_n n s)) = [])
  /\ set_image AnnotationScene.init 0 0 = AnnotationScene.init
  /\ (forall s : AnnotationScene.t,
         match undo_stack s with
         | [] => undo s = (false, s)
         | previous_state :: rest =>
             fst (undo s) = true
             /\ undo_stack (snd (undo s)) = rest
             /\ redo_stack (snd (undo s)) = copy_state (boxes s) :: redo_stack s
             /\ map geometry_class (boxes (snd (undo s)))
                = map geometry_class previous_state
         end)
  /\ (forall s : AnnotationScene.t,
         match redo_stack s with
         | [] => redo s = (false, s)
         | redo_state :: rest =>
             fst (redo s) = true
             /\ redo_stack (snd (redo s)) = rest
             /\ undo_stack (snd (redo s)) = copy_state (boxes s) :: undo_stack s
             /\ map geometry_class (boxes (snd (redo s)))
                = map geometry_class redo_state
         end).
Proof.
  split; [|split; [reflexivity | split; [apply undo_step_spec | apply redo_step_spec]]].
  intros s0 W H es s n.
  destruct (session_inv_run es 0%nat _ (set_image_session_inv s0 W H)) as (Hr & Hn & Hl).
  fold s in Hr, Hn, Hl. rewrite Nat.add_0_r in Hn. fold n in Hn.
  set (U := map (map geometry_class) (undo_stack s)).
  set (B := map geometry_class (boxes s)).
  assert (Hv : view s = (U, B, [])) by (unfold view; rewrite Hr; reflexivity).
  assert (HU : (length U <= n)%nat) by (unfold U; rewrite length_map; exact Hn).
  assert (Hold : fst (unwind U B []) = []).
  { rewrite unwind_fst_last. unfold U, B.
    rewrite (last_map (map geometry_class)), Hl. reflexivity. }
  assert (Hvu : view (undo_n n s) = ([], [], snd (unwind U B []))).
  { rewrite view_undo_n, Hv, undo_view_iter by exact HU. rewrite Hold. reflexivity. }
  assert (Hvr : view (redo_n n (undo_n n s)) = (U, B, [])).
  { rewrite view_redo_n, Hvu. rewrite <- Hold at 1.
    rewrite redo_view_iter by exact HU. rewrite app_nil_r. apply redo_view_empty. }
  unfold view in Hvu, Hvr.
  injection Hvu as Hu1 Hb1 _. injection Hvr as _ Hb2 Hr2.
  repeat split.
  - eapply map_eq_nil; exact Hb1.
  - eapply map_eq_nil; exact Hu1.
  - exact Hb2.
  - eapply map_eq_nil; exact Hr2.
Qed.

(** ** Snapshots and colours *)

Lemma copy_state_fields bs :
  Forall2 (fun b c =>
             rect c = rect b /\ class_id c = class_id b
             /\ class_name c = class_name b /\ color c = None
             /\ graphics_item c = None)
          bs (copy_state bs).
Proof.
  induction bs as [|b bs IH]; simpl; constructor; auto.
Qed.

(** C10. History snapshots carry geometry and class but no colour.  The
    copy made by [save_state], [undo] and [redo] keeps the rectangle, class
    id and class name of every box and has no colour; [restore_state]
    rebuilds the boxes of a state with the same three fields and no colour;
    so after every successful undo or redo all boxes have [color = None],
    as the box of [painted_scene] shows, which loses its override when a
    deletion is undone. *)
Theorem history_snapshots_drop_color :
  (forall s : AnnotationScene.t,
      undo_stack (save_state s) = copy_state (boxes s) :: undo_stack s
      /\ boxes (save_state s) = boxes s)
  /\ (forall bs : list BoundingBox.t,
         Forall2 (fun b c =>
                    rect c = rect b /\ class_id c = class_id b
                    /\ class_name c = class_name b /\ color c = None
                    /\ graphics_item c = None)
                 bs (copy_state bs))
  /\ (forall (s : AnnotationScene.t) (state : list BoundingBox.t),
         Forall (fun b => color b = None) (boxes (restore_state s state))
         /\ map geometry_class (boxes (restore_state s state))
            = map geometry_class state)
  /\ (forall s : AnnotationScene.t,
         if fst (undo s)
         then Forall (fun b => color b = None) (boxes (snd (undo s)))
         else snd (undo s) = s)
  /\ (forall s : AnnotationScene.t,
         if fst (redo s)
         then Forall (fun b => color b = None) (boxes (snd (redo s)))
         else snd (redo s) = s)
  /\ (map color (boxes painted_scene) = [Some (mkColor 1 2 3 4)]
      /\ let s' := snd (undo (delete_selected_boxes painted_scene [0%Z])) in
         map color (boxes s') = [None]
         /\ map geometry_class (boxes s') = map geometry_class (boxes painted_scene)).
Proof.
  split; [intros s; split; reflexivity|].
  split; [apply copy_state_fields|].
  split; [intros s st; destruct (restore_state_spec s st) as (_ & _ & Hb & Hc); auto|].
  split; [|split].
  - intros s. unfold undo. destruct (undo_stack s) as [|p u]; [reflexivity|].
    simpl. apply restore_state_spec.
  - intros s. unfold redo. destruct (redo_stack s) as [|p u]; [reflexivity|].
    simpl. apply restore_state_spec.
  - vm_compute. repeat split.
Qed.

(** ** Deleting by index *)

Lemma delete_at_out_of_range s i :
  (i < 0 \/ Z.of_nat (length (boxes s)) <= i)%Z -> delete_at s i = s.
Proof.
  intros Hi. unfold delete_at.
  destruct (0 <=? i)%Z eqn:H0; destruct (i <? Z.of_nat (length (boxes s)))%Z eqn:H1;
    try reflexivity.
  apply Z.leb_le in H0. apply Z.ltb_lt in H1. lia.
Qed.

Lemma fold_delete_at_out_of_range l s :
  Forall (fun i => (i < 0 \/ Z.of_nat (length (boxes s)) <= i)%Z) l ->
  fold_left delete_at l s = s.
Proof.
  induction 1 as [|i l Hi _ IH]; simpl; [reflexivity|].
  rewrite delete_at_out_of_range by exact Hi. exact IH.
Qed.

(** C5 (as the code has it). A deletion all of whose indices are out of
    range raises nothing and skips every index: boxes and scene items stay
    as they are.  The call has nevertheless saved the state first: a copy of
    the boxes is pushed on the undo stack, the redo stack is emptied, and
    the selection is dropped. *)
Theorem delete_out_of_range_skips :
  forall (s : AnnotationScene.t) (indices : list Z),
    Forall (fun i => (i < 0 \/ Z.of_nat (length (boxes s)) <= i)%Z) indices ->
    let s' := delete_selected_boxes s indices in
    boxes s' = boxes s
    /\ items s' = items s
    /\ undo_stack s' = copy_state (boxes s) :: undo_stack s
    /\ redo_stack s' = []
    /\ selected_box s' = None.
Proof.
  intros s indices Hall. unfold delete_selected_boxes.
  rewrite fold_delete_at_out_of_range.
  - repeat split.
  - unfold sorted_reverse. rewrite merge_sort_Permutation. exact Hall.
Qed.

Lemma delete_out_of_range_skips_witness :
  let s' := delete_selected_boxes AnnotationScene.init [0; -1; 7]%Z in
  boxes s' = [] /\ items s' = ∅ /\ undo_stack s' = [[]]
  /\ redo_stack s' = [] /\ selected_box s' = None.
Proof.
  apply (delete_out_of_range_skips AnnotationScene.init [0; -1; 7]%Z).
  repeat constructor; simpl; lia.
Defined.

(** C5, counterexample.  On the empty scene every index is out of range;
    deleting index 0 leaves the boxes alone but the undo stack is no longer
    the one before the call. *)
Lemma delete_out_of_range_pushes_snapshot :
  let s := AnnotationScene.init in
  let s' := delete_selected_boxes s [0%Z] in
  ~ (0 <= 0 < Z.of_nat (length (boxes s)))%Z
  /\ boxes s' = boxes s
  /\ undo_stack s = []
  /\ undo_stack s' = [[]]
  /\ undo_stack s' <> undo_stack s.
Proof.
  cbv zeta. split; [simpl; lia|]. vm_compute. repeat split. discriminate.
Qed.

(** ** Committing a drawn box *)

Lemma Qltb_lt x y : PyNum.Qltb x y = true <-> (x < y)%Q.
Proof. unfold PyNum.Qltb, Qlt. apply Z.ltb_lt. Qed.

Lemma Qltb_ge x y : PyNum.Qltb x y = false <-> (y <= x)%Q.
Proof. unfold PyNum.Qltb, Qle. apply Z.ltb_ge. Qed.

Lemma app_singleton_neq {A} (l : list A) x : l ++ [x] <> l.
Proof.
  intros H. apply (f_equal (@length A)) in H. rewrite length_app in H. simpl in H. lia.
Qed.

Lemma cons_neq {A} (l : list A) x : x :: l <> l.
Proof. intros H. apply (f_equal (@length A)) in H. simpl in H. lia. Qed.

(** The release of the left button that ends a draw, on the rectangle the
    provisional item has at that moment: it becomes a box of the current
    class id and name, in the colour [get_box_color] resolves for that id
    (the field [current_class_color] is not read), exactly when its width
    and its height both exceed 5; the state is saved exactly in that case,
    and a discarded draw leaves boxes and both stacks as they were. *)
Lemma mouseReleaseEvent_minimum_size :
  forall (s : AnnotationScene.t) (g : nat),
    current_box s = Some g ->
    let rect := rect_of_item s g in
    let s' := mouseReleaseEvent s true in
    let bbox := BoundingBox.mk rect (current_class_id s) (current_class_name s)
                  (Some (get_box_color s (current_class_id s))) (Some g) in
    let large := (5 < width rect /\ 5 < height rect)%Q in
    (large -> boxes s' = boxes s ++ [bbox]
              /\ undo_stack s' = copy_state (boxes s) :: undo_stack s
              /\ redo_stack s' = [])
    /\ (~ large -> boxes s' = boxes s
                   /\ undo_stack s' = undo_stack s
                   /\ redo_stack s' = redo_stack s)
    /\ (boxes s' = boxes s ++ [bbox] <-> large)
    /\ (undo_stack s' = copy_state (boxes s) :: undo_stack s <-> large)
    /\ (width rect == 4 -> height rect == 4 ->
        boxes s' = boxes s /\ undo_stack s' = undo_stack s)%Q
    /\ (width rect == 6 -> height rect == 6 -> boxes s' = boxes s ++ [bbox])%Q
    /\ current_box s' = None
    /\ (forall (s0 : AnnotationScene.t) (cid : Z) (name : string) (c : QColor),
           let s1 := set_current_class s0 cid name (Some c) in
           current_class_color s1 = Some c
           /\ get_box_color s1 (current_class_id s1) = c).
Proof.
  intros s g Hg rect s' bbox large.
  assert (Hyes : large -> boxes s' = boxes s ++ [bbox]
                          /\ undo_stack s' = copy_state (boxes s) :: undo_stack s
                          /\ redo_stack s' = []).
  { intros (Hw & Hh). subst s'. unfold mouseReleaseEvent. rewrite Hg.
    fold rect. apply Qltb_lt in Hw, Hh. rewrite Hw, Hh. simpl. repeat split. }
  assert (Hno : ~ large -> boxes s' = boxes s
                           /\ undo_stack s' = undo_stack s
                           /\ redo_stack s' = redo_stack s).
  { intros Hn. subst s'. unfold mouseReleaseEvent. rewrite Hg. fold rect.
    destruct (PyNum.Qltb 5 (width rect)) eqn:Hw;
      destruct (PyNum.Qltb 5 (height rect)) eqn:Hh; simpl; try (repeat split; fail).
    exfalso. apply Hn. split; apply Qltb_lt; assumption. }
  assert (Hdec : large \/ ~ large).
  { unfold large. destruct (Qlt_le_dec 5 (width rect)); destruct (Qlt_le_dec 5 (height rect));
      [left; auto | right | right | right]; intros (? & ?); lra. }
  split; [exact Hyes|]. split; [exact Hno|].
  split; [|split; [|split; [|split]]].
  - split; [|apply Hyes]. intros Hb. destruct Hdec as [|Hn]; [assumption|].
    destruct (Hno Hn) as (Hb' & _). rewrite Hb' in Hb.
    symmetry in Hb. exfalso. eapply app_singleton_neq; exact Hb.
  - split; [|apply Hyes]. intros Hu. destruct Hdec as [|Hn]; [assumption|].
    destruct (Hno Hn) as (_ & Hu' & _). rewrite Hu' in Hu.
    symmetry in Hu. exfalso. eapply cons_neq; exact Hu.
  - intros Hw Hh. assert (Hn : ~ large) by (unfold large; intros (? & ?); lra).
    destruct (Hno Hn) as (? & ? & _). auto.
  - intros Hw Hh. apply Hyes. unfold large. split; lra.
  - split; [subst s'; unfold mouseReleaseEvent; rewrite Hg; reflexivity|].
    intros s0 cid name c. simpl. split; [reflexivity|].
    unfold get_box_color. simpl. rewrite lookup_insert_eq. reflexivity.
Qed.

Lemma mouseReleaseEvent_minimum_size_example :
  current_box fish_drawing = Some 0%nat
  /\ rect_of_item fish_drawing 0 = mkRect 100 100 (300 - 100) (400 - 100)
  /\ boxes (mouseReleaseEvent fish_drawing true)
     = boxes fish_drawing
         ++ [BoundingBox.mk (rect_of_item fish_drawing 0)
               (current_class_id fish_drawing) (current_class_name fish_drawing)
               (Some (get_box_color fish_drawing (current_class_id fish_drawing)))
               (Some 0%nat)].
Proof.
  split; [reflexivity|]. split; [reflexivity|].
  destruct (mouseReleaseEvent_minimum_size fish_drawing 0%nat eq_refl) as (H & _).
  apply H. split; reflexivity.
Qed.

(** C7, the code at the failing input.  On an image of 100 by 100 pixels
    with a class chosen, the left button is pressed on empty ground at the
    scene origin, the pointer moves to (6,6) and the button is released: a
    drag of 6 by 6 pixels.  The press makes the provisional item and records
    the start point (0,0); [mouseMoveEvent] tests [self.start_point] for
    truth, and the point (0,0) is false, so the move changes nothing and the
    provisional rectangle stays the empty one; the release finds width and
    height 0 and discards it.  No box is added and no state is saved, for
    this drag and for every drag that starts at the origin.  The same drag
    started one pixel further, from (1,1) to (7,7), adds the box of 6 by 6
    pixels and saves the state. *)
Theorem draw_from_origin_adds_no_box :
  let s0 := set_current_class (set_image AnnotationScene.init 100 100) 0 "a" None in
  let pressed := mousePressEvent s0 true OnOther (mkPoint 0 0) in
  let moved := mouseMoveEvent pressed (mkPoint 6 6) in
  let released := mouseReleaseEvent moved true in
  (current_box pressed = Some 0%nat /\ start_point pressed = Some (mkPoint 0 0))
  /\ QPointF_bool (mkPoint 0 0) = false
  /\ moved = pressed
  /\ rect_of_item moved 0 = null_rect
  /\ released = draw s0 (mkPoint 0 0) (mkPoint 6 6)
  /\ boxes released = [] /\ undo_stack released = []
  /\ (forall q : QPointF,
        boxes (draw s0 (mkPoint 0 0) q) = []
        /\ undo_stack (draw s0 (mkPoint 0 0) q) = [])
  /\ (exists b : BoundingBox.t,
        boxes (draw s0 (mkPoint 1 1) (mkPoint 7 7)) = [b]
        /\ (left (rect b) == 1 /\ top (rect b) == 1
            /\ width (rect b) == 6 /\ height (rect b) == 6)%Q
        /\ class_id b = 0 /\ class_name b = "a"%string
        /\ undo_stack (draw s0 (mkPoint 1 1) (mkPoint 7 7)) = [[]]).
Proof.
  cbv zeta. split; [split; reflexivity|]. split; [reflexivity|].
  split; [reflexivity|]. split; [reflexivity|]. split; [reflexivity|].
  split; [reflexivity|]. split; [reflexivity|].
  split; [intros q; split; reflexivity|].
  eexists. split; [vm_compute; reflexivity|].
  repeat split; reflexivity.
Qed.

End SceneFacts.

(** ** The resize handle *)

Section ResizeFacts.
Import ResizeHandle.
Local Open Scope Q_scope.

Lemma normalized_nonneg r : 0 <= wd r -> 0 <= ht r -> normalized r = r.
Proof.
  intros Hw Hh. unfold normalized.
  apply Qltb_ge in Hw. rewrite Hw.
  apply Qltb_ge in Hh. rewrite Hh. reflexivity.
Qed.

Lemma normalized_size r :
  0 <= wd (normalized r) /\ 0 <= ht (normalized r)
  /\ Qabs (wd r) == wd (normalized r) /\ Qabs (ht r) == ht (normalized r).
Proof.
  unfold normalized.
  destruct (PyNum.Qltb (wd r) 0) eqn:Hw; destruct (PyNum.Qltb (ht _) 0) eqn:Hh;
    simpl in *;
    try apply Qltb_lt in Hw; try apply Qltb_ge in Hw;
    try apply Qltb_lt in Hh; try apply Qltb_ge in Hh;
    repeat split; try lra;
    try (rewrite Qabs_neg by lra; reflexivity);
    try (rewrite Qabs_pos by lra; reflexivity).
Qed.

Lemma dragged_rect_edges position sr dx dy :
  let r := dragged_rect position sr dx dy in
  top r == (if PyStr.contains "top" position then top sr + dy else top sr)
  /\ bottom r == (if PyStr.contains "bottom" position then bottom sr + dy else bottom sr)
  /\ left r == (if PyStr.contains "left" position then left sr + dx else left sr)
  /\ right r == (if PyStr.contains "right" position then right sr + dx else right sr).
Proof.
  unfold dragged_rect.
  destruct (PyStr.contains "top" position), (PyStr.contains "bottom" position),
    (PyStr.contains "left" position), (PyStr.contains "right" position);
    unfold top, bottom, left, right, setTop, setBottom, setLeft, setRight; simpl;
    repeat split; ring.
Qed.

(** C8 (as the code has it). Resize floor.  A handle pressed on the
    rectangle [start] at [p0] and dragged to [p] does nothing when [start]
    is not valid (its width or its height is not positive).  Otherwise it
    builds the rectangle whose edges named in [position] are those of
    [start] moved by the whole drag [p - p0], the other edges being those of
    [start], and tests the width and the height of that rectangle as built,
    before normalizing it: when both exceed 10 the parent takes it, and it
    is then its own normalized form, with left <= right and top <= bottom;
    when one of them is at most 10, as it is whenever the drag passes the
    opposite edge, the parent keeps the rectangle it has, unchanged. *)
Theorem resize_floor :
  forall (position : string) (start parent : QRectF) (p0 p : QPointF),
    let h := mousePressEvent true (init position) start p0 in
    let dx := px p - px p0 in
    let dy := py p - py p0 in
    let new_rect := dragged_rect position start dx dy in
    let result := mouseMoveEvent h parent p in
    (isValid start = false -> result = parent)
    /\ (isValid start = true ->
        (top new_rect == (if PyStr.contains "top" position then top start + dy else top start)
         /\ bottom new_rect
            == (if PyStr.contains "bottom" position then bottom start + dy else bottom start)
         /\ left new_rect
            == (if PyStr.contains "left" position then left start + dx else left start)
         /\ right new_rect
            == (if PyStr.contains "right" position then right start + dx else right start))
        /\ (10 < width new_rect /\ 10 < height new_rect ->
            result = normalized new_rect /\ normalized new_rect = new_rect
            /\ left result <= right result /\ top result <= bottom result)
        /\ (width new_rect <= 10 \/ height new_rect <= 10 -> result = parent)
        /\ (result = parent \/ (10 < width result /\ 10 < height result))).
Proof.
  intros position start parent p0 p h dx dy new_rect result. split.
  { intros Hinv. subst result h. unfold mouseMoveEvent, mousePressEvent, init. simpl.
    unfold QRectF_bool. rewrite Hinv. reflexivity. }
  intros Hvalid. split; [apply dragged_rect_edges|].
  assert (Hres : result =
                 if PyNum.Qltb 10 (width new_rect) && PyNum.Qltb 10 (height new_rect)
                 then normalized new_rect else parent).
  { subst result h. unfold mouseMoveEvent, mousePressEvent, init. simpl.
    unfold QRectF_bool. rewrite Hvalid. reflexivity. }
  destruct (PyNum.Qltb 10 (width new_rect)) eqn:Ew;
    destruct (PyNum.Qltb 10 (height new_rect)) eqn:Eh; simpl in Hres;
    try apply Qltb_lt in Ew; try apply Qltb_ge in Ew;
    try apply Qltb_lt in Eh; try apply Qltb_ge in Eh;
    unfold width, height in *.
  - assert (Hn : normalized new_rect = new_rect) by (apply normalized_nonneg; lra).
    split; [|split].
    + intros _. split; [exact Hres|]. split; [exact Hn|].
      rewrite Hres, Hn. unfold left, right, top, bottom. split; lra.
    + intros [H|H]; lra.
    + right. rewrite Hres, Hn. split; assumption.
  - split; [intros (_ & H); lra|]. split; [intros _; exact Hres | left; exact Hres].
  - split; [intros (H & _); lra|]. split; [intros _; exact Hres | left; exact Hres].
  - split; [intros (H & _); lra|]. split; [intros _; exact Hres | left; exact Hres].
Qed.

Lemma resize_floor_witness :
  let start := mkRect 10 10 100 100 in
  let h := mousePressEvent true (init "top-left") start (mkPoint 10 10) in
  mouseMoveEvent h start (mkPoint 30 95)
  = normalized (dragged_rect "top-left" start (30 - 10) (95 - 10)).
Proof.
  cbv zeta.
  destruct (resize_floor "top-left" (mkRect 10 10 100 100) (mkRect 10 10 100 100)
              (mkPoint 10 10) (mkPoint 30 95)) as (_ & H).
  destruct (H eq_refl) as (_ & Hbig & _).
  apply Hbig. split; reflexivity.
Defined.

(** C8, counterexample.  The top-left handle of the rectangle of 100 by 100
    at (10,10), pressed at (10,10) and dragged to (200,200), passes the
    opposite corner.  Adjusting the two edges and normalizing gives the
    rectangle of 90 by 90 at (110,110), whose width and height are not at
    most 10, so that the resize is to be applied; but the parent keeps the
    rectangle it had: the size is tested before normalization, on a width
    and a height of -90. *)
Lemma resize_past_opposite_corner_rejected :
  let start := mkRect 10 10 100 100 in
  let h := mousePressEvent true (init "top-left") start (mkPoint 10 10) in
  let new_rect := dragged_rect "top-left" start (200 - 10) (200 - 10) in
  let result := mouseMoveEvent h start (mkPoint 200 200) in
  isValid start = true
  /\ width new_rect == - (90) /\ height new_rect == - (90)
  /\ left (normalized new_rect) == 110 /\ top (normalized new_rect) == 110
  /\ width (normalized new_rect) == 90 /\ height (normalized new_rect) == 90
  /\ ~ (width (normalized new_rect) <= 10 \/ height (normalized new_rect) <= 10)
  /\ result = start
  /\ result <> normalized new_rect.
Proof.
  cbv zeta. repeat split; try reflexivity.
  - intros [H|H]; vm_compute in H; apply H; reflexivity.
  - vm_compute. discriminate.
Qed.
End ResizeFacts.

(** ** Text: splitting and stripping *)

Section TextFacts.
Import PyStr.
Local Open Scope string_scope.

Lemma append_cons c s t : String.append (String c s) t = String c (String.append s t).
Proof. reflexivity. Qed.

Lemma append_nil_l t : String.append "" t = t.
Proof. reflexivity. Qed.

Lemma append_nil_r s : String.append s "" = s.
Proof.
  induction s as [|c s IH]; [reflexivity|]. rewrite append_cons, IH. reflexivity.
Qed.

Lemma append_assoc s1 s2 s3 :
  String.append (String.append s1 s2) s3 = String.append s1 (String.append s2 s3).
Proof.
  induction s1 as [|c s IH]; [reflexivity|]. rewrite !append_cons, IH. reflexivity.
Qed.

Lemma length_append s1 s2 :
  String.length (String.append s1 s2) = (String.length s1 + String.length s2)%nat.
Proof.
  induction s1 as [|c s IH]; [reflexivity|].
  rewrite append_cons. simpl. rewrite IH. reflexivity.
Qed.

Lemma no_space_append s1 s2 :
  no_space (String.append s1 s2) = no_space s1 && no_space s2.
Proof.
  induction s1 as [|c s IH]; [reflexivity|].
  rewrite append_cons. simpl. rewrite IH. apply andb_assoc.
Qed.

Lemma split_go_token t : forall cur s,
  no_space t = true ->
  split_go cur (String.append t s) = split_go (String.append cur t) s.
Proof.
  induction t as [|c t IH]; intros cur s Ht.
  - rewrite append_nil_r. reflexivity.
  - simpl in Ht. apply andb_true_iff in Ht as (Hc & Ht).
    apply negb_true_iff in Hc. rewrite append_cons. simpl. rewrite Hc.
    rewrite IH by exact Ht. rewrite append_assoc. reflexivity.
Qed.

Lemma split_go_last t :
  no_space t = true -> t <> "" -> split_go "" t = [t].
Proof.
  intros Ht Hne. rewrite <- (append_nil_r t) at 1.
  rewrite split_go_token by exact Ht. rewrite append_nil_l. simpl.
  destruct t; [contradiction | reflexivity].
Qed.

Lemma split_go_space t s :
  no_space t = true -> t <> "" ->
  split_go "" (String.append t (String.append " " s)) = t :: split_go "" s.
Proof.
  intros Ht Hne. change (String.append " " s) with (String " "%char s).
  rewrite split_go_token by exact Ht. rewrite append_nil_l. simpl.
  destruct t; [contradiction | reflexivity].
Qed.

(** Five tokens joined by single spaces split into the five tokens. *)
Lemma split_join5 t0 t1 t2 t3 t4 :
  Forall (fun t => no_space t = true /\ t <> "") [t0; t1; t2; t3; t4] ->
  split (join " " [t0; t1; t2; t3; t4]) = [t0; t1; t2; t3; t4].
Proof.
  intros H.
  apply Forall_cons in H as ((H0 & N0) & H).
  apply Forall_cons in H as ((H1 & N1) & H).
  apply Forall_cons in H as ((H2 & N2) & H).
  apply Forall_cons in H as ((H3 & N3) & H).
  apply Forall_cons in H as ((H4 & N4) & _).
  unfold split. simpl join.
  rewrite (split_go_space t0), (split_go_space t1), (split_go_space t2),
    (split_go_space t3), (split_go_last t4) by assumption.
  reflexivity.
Qed.

Lemma split_lstrip s : split (lstrip s) = split s.
Proof.
  unfold split. induction s as [|c s IH]; simpl; [reflexivity|].
  destruct (isspace c) eqn:Hc; [exact IH|]. simpl. rewrite Hc. reflexivity.
Qed.

Lemma split_go_rstrip s : forall cur, split_go cur (rstrip s) = split_go cur s.
Proof.
  induction s as [|c s IH]; intros cur; simpl; [reflexivity|].
  destruct (rstrip s) as [|c' r'] eqn:Hr.
  - destruct (isspace c) eqn:Hc; simpl.
    + rewrite <- (IH ""). simpl. destruct cur; reflexivity.
    + rewrite Hc. rewrite <- IH. reflexivity.
  - simpl. destruct (isspace c) eqn:Hc.
    + rewrite <- (IH ""). reflexivity.
    + rewrite <- IH. reflexivity.
Qed.

(** [line.strip().split()] is [line.split()]. *)
Lemma split_strip s : split (strip s) = split s.
Proof. unfold strip, split. rewrite split_go_rstrip. apply split_lstrip. Qed.

Lemma strip_empty_split s : strip s = "" -> split s = [].
Proof. intros H. rewrite <- split_strip, H. reflexivity. Qed.
End TextFacts.

(** ** Decimal numerals: printing and reading back *)

Section DecFacts.
Import PyStr Dec.

Ltac digit_cases d H :=
  let E := fresh in
  assert (E : d = 0 \/ d = 1 \/ d = 2 \/ d = 3 \/ d = 4 \/ d = 5 \/ d = 6
              \/ d = 7 \/ d = 8 \/ d = 9) by lia;
  clear H;
  destruct E as [->|[->|[->|[->|[->|[->|[->|[->|[->| ->]]]]]]]]].

Lemma digit_value_char d : 0 <= d <= 9 -> digit_value (digit_char d) = Some d.
Proof. intros H. digit_cases d H; reflexivity. Qed.

Lemma isspace_digit_char d : 0 <= d <= 9 -> isspace (digit_char d) = false.
Proof. intros H. digit_cases d H; reflexivity. Qed.

Lemma split_sign_digit d r :
  0 <= d <= 9 ->
  split_sign (String (digit_char d) r) = (false, String (digit_char d) r).
Proof. intros H. digit_cases d H; reflexivity. Qed.

Lemma mod10_digit n : 0 <= n mod 10 <= 9.
Proof. pose proof (Z.mod_pos_bound n 10). lia. Qed.

Lemma scan_digits_cons d r a c :
  0 <= d <= 9 ->
  scan_digits (String (digit_char d) r) a c = scan_digits r (10 * a + d) (S c).
Proof. intros H. simpl. rewrite digit_value_char by exact H. reflexivity. Qed.

Lemma scan_fixed_digits k : forall n acc a c,
  scan_digits (fixed_digits k n acc) a c
  = scan_digits acc (a * 10 ^ Z.of_nat k + n mod 10 ^ Z.of_nat k) (c + k).
Proof.
  induction k as [|k IH]; intros n acc a c.
  - simpl. rewrite Z.mod_1_r, Nat.add_0_r. f_equal. lia.
  - cbn [fixed_digits]. rewrite IH, scan_digits_cons by apply mod10_digit.
    f_equal; [|lia].
    rewrite Nat2Z.inj_succ, Z.pow_succ_r by lia.
    rewrite (Z.rem_mul_r n 10 (10 ^ Z.of_nat k)) by lia. lia.
Qed.

Lemma no_space_fixed_digits k : forall n acc,
  no_space (fixed_digits k n acc) = no_space acc.
Proof.
  induction k as [|k IH]; intros n acc; [reflexivity|].
  cbn [fixed_digits]. rewrite IH. simpl.
  rewrite isspace_digit_char by apply mod10_digit. reflexivity.
Qed.

Lemma length_fixed_digits k : forall n acc,
  String.length (fixed_digits k n acc) = (k + String.length acc)%nat.
Proof.
  induction k as [|k IH]; intros n acc; [reflexivity|].
  cbn [fixed_digits]. rewrite IH. simpl. lia.
Qed.

Lemma nat_digits_S f n acc :
  nat_digits (S f) n acc
  = if n / 10 =? 0 then String (digit_char (n mod 10)) acc
    else nat_digits f (n / 10) (String (digit_char (n mod 10)) acc).
Proof. reflexivity. Qed.

Lemma nat_digits_app f : forall n acc,
  nat_digits f n acc = String.append (nat_digits f n EmptyString) acc.
Proof.
  induction f as [|f IH]; intros n acc; [reflexivity|].
  cbn [nat_digits]. destruct (n / 10 =? 0); [reflexivity|].
  rewrite IH, (IH _ (String _ EmptyString)), append_assoc. reflexivity.
Qed.

Lemma no_space_nat_digits f : forall n acc,
  no_space (nat_digits f n acc) = no_space acc.
Proof.
  induction f as [|f IH]; intros n acc; [reflexivity|].
  cbn [nat_digits]. destruct (n / 10 =? 0); [|rewrite IH]; simpl;
    rewrite isspace_digit_char by apply mod10_digit; reflexivity.
Qed.

Lemma nat_digits_head f : forall n acc,
  exists d r, 0 <= d <= 9 /\ nat_digits (S f) n acc = String (digit_char d) r.
Proof.
  induction f as [|f IH]; intros n acc.
  - exists (n mod 10), acc. split; [apply mod10_digit|].
    cbn [nat_digits]. destruct (n / 10 =? 0); reflexivity.
  - rewrite nat_digits_S. destruct (n / 10 =? 0).
    + exists (n mod 10), acc. split; [apply mod10_digit | reflexivity].
    + apply IH.
Qed.

Lemma scan_nat_digits f : forall n acc c,
  0 <= n < 2 ^ Z.of_nat (S f) ->
  exists d, scan_digits (nat_digits (S f) n acc) 0 c = scan_digits acc n (c + S d).
Proof.
  induction f as [|f IH]; intros n acc c Hn.
  - change (2 ^ Z.of_nat 1) with 2 in Hn.
    assert (Hq : n / 10 = 0) by (apply Z.div_small; lia).
    assert (Hm : n mod 10 = n) by (apply Z.mod_small; lia).
    exists 0%nat. cbn [nat_digits]. rewrite Hq. simpl (0 =? 0).
    cbv iota. rewrite scan_digits_cons by apply mod10_digit.
    rewrite Hm. f_equal; lia.
  - rewrite nat_digits_S. destruct (n / 10 =? 0) eqn:Hq.
    + apply Z.eqb_eq in Hq.
      assert (Hm : n mod 10 = n).
      { pose proof (Z.div_mod n 10). lia. }
      exists 0%nat. rewrite scan_digits_cons by apply mod10_digit.
      rewrite Hm. f_equal; lia.
    + assert (Hn' : 0 <= n / 10 < 2 ^ Z.of_nat (S f)).
      { rewrite (Nat2Z.inj_succ (S f)), Z.pow_succ_r in Hn by lia.
        split; [apply Z.div_pos; lia|].
        apply Z.div_lt_upper_bound; lia. }
      destruct (IH (n / 10) (String (digit_char (n mod 10)) acc) c Hn') as (d & Hd).
      exists (S d). rewrite Hd, scan_digits_cons by apply mod10_digit.
      f_equal; [|lia]. pose proof (Z.div_mod n 10). lia.
Qed.

Lemma str_nonneg_fuel n : 0 <= n -> 0 <= n < 2 ^ Z.of_nat (S (Z.to_nat (Z.log2 n))).
Proof.
  intros Hn. split; [exact Hn|].
  rewrite Nat2Z.inj_succ, Z2Nat.id by apply Z.log2_nonneg.
  destruct (Z.eq_dec n 0) as [->|Hne]; [reflexivity|].
  apply Z.log2_spec. lia.
Qed.

Lemma scan_str_nonneg n rest c :
  0 <= n ->
  exists d, scan_digits (String.append (str_nonneg n) rest) 0 c
            = scan_digits rest n (c + S d).
Proof.
  intros Hn. unfold str_nonneg. rewrite <- nat_digits_app.
  apply scan_nat_digits, str_nonneg_fuel, Hn.
Qed.

Lemma str_nonneg_head n :
  exists d r, 0 <= d <= 9 /\ str_nonneg n = String (digit_char d) r.
Proof. apply nat_digits_head. Qed.

Lemma no_space_str_nonneg n : no_space (str_nonneg n) = true.
Proof. unfold str_nonneg. rewrite no_space_nat_digits. reflexivity. Qed.

Lemma no_space_str_int z : no_space (str_int z) = true /\ str_int z <> EmptyString.
Proof.
  unfold str_int. destruct (z <? 0).
  - split; [|discriminate]. simpl. apply no_space_str_nonneg.
  - split; [apply no_space_str_nonneg|].
    destruct (str_nonneg_head z) as (d & r & _ & ->). discriminate.
Qed.

(** [int(str(z)) == z] *)
Lemma py_int_dec_str_int z : PyNum.py_int_dec (str_int z) = Some z.
Proof.
  unfold PyNum.py_int_dec, str_int. destruct (z <? 0) eqn:Hz.
  - apply Z.ltb_lt in Hz. cbn [split_sign].
    assert (Hn : 0 <= - z) by lia.
    destruct (scan_str_nonneg (- z) EmptyString 0 Hn) as (d & Hd).
    rewrite append_nil_r in Hd. rewrite Hd. simpl. f_equal. lia.
  - apply Z.ltb_ge in Hz.
    destruct (str_nonneg_head z) as (d0 & r & Hd0 & Hs).
    rewrite Hs, split_sign_digit by exact Hd0. rewrite <- Hs.
    destruct (scan_str_nonneg z EmptyString 0 Hz) as (d & Hd).
    rewrite append_nil_r in Hd. rewrite Hd. reflexivity.
Qed.
End DecFacts.

(** ** Rounding and the six-decimal format *)

Section FormatFacts.
Import PyStr Dec PyNum.

Lemma round_half_even_cases q :
  let n := Qnum q in
  let d := Zpos (Qden q) in
  (round_half_even q = n / d /\ 2 * (n mod d) <= d)
  \/ (round_half_even q = n / d + 1 /\ d <= 2 * (n mod d)).
Proof.
  cbv zeta. unfold round_half_even.
  destruct (2 * (Qnum q mod Z.pos (Qden q)) <? Z.pos (Qden q)) eqn:H1.
  - left. apply Z.ltb_lt in H1. split; [reflexivity | lia].
  - apply Z.ltb_ge in H1.
    destruct (Z.pos (Qden q) <? 2 * (Qnum q mod Z.pos (Qden q))) eqn:H2.
    + right. split; [reflexivity | exact H1].
    + apply Z.ltb_ge in H2.
      destruct (Z.even (Qnum q / Z.pos (Qden q)));
        [left | right]; (split; [reflexivity | lia]).
Qed.

(** The rounded value is within one half of the exact one. *)
Lemma round_half_even_near q :
  (Qabs (inject_Z (round_half_even q) - q) <= 1 # 2)%Q.
Proof.
  apply Qabs_Qle_condition.
  pose proof (round_half_even_cases q) as H. cbv zeta in H.
  pose proof (Z.div_mod (Qnum q) (Z.pos (Qden q)) ltac:(lia)) as Hdm.
  pose proof (Z.mod_pos_bound (Qnum q) (Z.pos (Qden q)) ltac:(lia)) as Hb.
  destruct q as [n d]. unfold Qle, Qminus, Qplus, Qopp, inject_Z. simpl in *.
  destruct H as [(-> & H) | (-> & H)]; split; nia.
Qed.

Lemma round_half_even_nonneg q : (0 <= q)%Q -> 0 <= round_half_even q.
Proof.
  intros Hq. pose proof (round_half_even_cases q) as H. cbv zeta in H.
  assert (Hn : 0 <= Qnum q) by (unfold Qle in Hq; simpl in Hq; lia).
  pose proof (Z.div_pos (Qnum q) (Z.pos (Qden q)) Hn ltac:(lia)).
  destruct H as [(-> & _) | (-> & _)]; lia.
Qed.

Lemma round_half_even_le q m : (q <= inject_Z m)%Q -> round_half_even q <= m.
Proof.
  intros Hq. pose proof (round_half_even_cases q) as H. cbv zeta in H.
  pose proof (Z.div_mod (Qnum q) (Z.pos (Qden q)) ltac:(lia)) as Hdm.
  pose proof (Z.mod_pos_bound (Qnum q) (Z.pos (Qden q)) ltac:(lia)) as Hb.
  destruct q as [n d]. unfold Qle, inject_Z in Hq. simpl in *.
  destruct H as [(-> & H) | (-> & H)]; nia.
Qed.

Lemma scan_digits_dot r a c :
  scan_digits (String "."%char r) a c = (a, c, String "."%char r).
Proof. reflexivity. Qed.

(** The tokens [format_6f] writes for a value that is not negative: what
    [float] reads back, and the shape of the text. *)
Lemma format_6f_nonneg v :
  (0 <= v)%Q ->
  let n := round_half_even (Qabs v * 1000000) in
  0 <= n
  /\ py_float_dec (format_6f v) = Some (Qmake n 1000000)
  /\ no_space (format_6f v) = true
  /\ format_6f v <> EmptyString.
Proof.
  intros Hv n.
  assert (Hn : 0 <= n).
  { apply round_half_even_nonneg. rewrite Qabs_pos by exact Hv.
    apply Qmult_le_0_compat; [exact Hv | discriminate]. }
  assert (Hs : Qltb v 0 = false) by (apply Qltb_ge; exact Hv).
  assert (Hip : 0 <= n / 1000000) by (apply Z.div_pos; lia).
  unfold format_6f. fold n. rewrite Hs, append_nil_l.
  split; [exact Hn|]. split; [|split].
  - unfold py_float_dec.
    destruct (str_nonneg_head (n / 1000000)) as (d0 & r & Hd0 & Hh).
    rewrite Hh, append_cons, split_sign_digit by exact Hd0.
    rewrite <- append_cons, <- Hh.
    destruct (scan_str_nonneg (n / 1000000)
                (String "."%char (fixed_digits 6 (n mod 1000000) EmptyString)) 0 Hip)
      as (d & Hd).
    rewrite Hd, scan_digits_dot. cbv beta iota.
    rewrite scan_fixed_digits. cbn [scan_digits]. cbv beta iota.
    change (10 ^ Z.of_nat 6) with 1000000.
    rewrite Z.mod_mod by lia.
    replace (n / 1000000 * 1000000 + n mod 1000000) with n
      by (pose proof (Z.div_mod n 1000000); lia).
    replace (0 + S d + (0 + 6))%nat with (S (d + 6)) by lia.
    reflexivity.
  - rewrite no_space_append, no_space_str_nonneg.
    cbn [no_space andb]. change (isspace "."%char) with false. cbn [negb andb].
    apply no_space_fixed_digits.
  - destruct (str_nonneg_head (n / 1000000)) as (d0 & r & _ & ->). discriminate.
Qed.
End FormatFacts.

(** ** The coordinate codec *)

Section CodecFacts.
Import PyStr Dec PyNum BoundingBox Codec Examples.
Local Open Scope Q_scope.

Lemma clamp01_range v : 0 <= clamp01 v <= 1.
Proof.
  unfold clamp01, py_max, py_min.
  destruct (Qltb v 1) eqn:H1; [apply Qltb_lt in H1 | apply Qltb_ge in H1].
  - destruct (Qltb 0 v) eqn:H0; [apply Qltb_lt in H0 | apply Qltb_ge in H0]; lra.
  - destruct (Qltb 0 1) eqn:H0; [|discriminate]. lra.
Qed.

Lemma clamp01_cases v :
  (v < 0 -> clamp01 v = 0) /\ (1 < v -> clamp01 v = 1) /\ (0 <= v <= 1 -> clamp01 v == v).
Proof.
  unfold clamp01, py_max, py_min.
  destruct (Qltb v 1) eqn:H1; [apply Qltb_lt in H1 | apply Qltb_ge in H1].
  - destruct (Qltb 0 v) eqn:H0; [apply Qltb_lt in H0 | apply Qltb_ge in H0];
      repeat split; intros; try reflexivity; lra.
  - destruct (Qltb 0 1) eqn:H0; [|discriminate].
    repeat split; intros; try reflexivity; lra.
Qed.

Lemma Qmake_millionth n : Qmake n 1000000 == inject_Z n * (1 # 1000000).
Proof. rewrite Qmake_Qdiv. reflexivity. Qed.

Lemma format_6f_six_decimals v :
  0 <= v <= 1 ->
  six_decimals_of (format_6f v) v
  /\ no_space (format_6f v) = true /\ format_6f v <> EmptyString.
Proof.
  intros (H0 & H1).
  destruct (format_6f_nonneg v H0) as (Hn & Hp & Hs & Hne). cbv zeta in *.
  split; [|split; assumption].
  set (n := round_half_even (Qabs v * 1000000)) in *.
  exists n. split; [exact Hp|].
  assert (Hv : Qabs v == v) by (apply Qabs_pos; exact H0).
  assert (Hle : (n <= 1000000)%Z).
  { apply round_half_even_le. change (inject_Z 1000000) with 1000000. lra. }
  split; [lia|]. split.
  - pose proof (round_half_even_near (Qabs v * 1000000)) as Hnear. fold n in Hnear.
    apply Qabs_Qle_condition in Hnear. apply Qabs_Qle_condition.
    rewrite Qmake_millionth. lra.
  - unfold format_6f. fold n.
    assert (Hs' : Qltb v 0 = false) by (apply Qltb_ge; exact H0).
    rewrite Hs', append_nil_l, length_append. cbn [String.length].
    rewrite length_fixed_digits.
    assert (Hip : (n / 1000000 = 0 \/ n / 1000000 = 1)%Z).
    { destruct (Z.eq_dec n 1000000%Z) as [E|E]; [right; rewrite E; reflexivity|].
      left. apply Z.div_small. lia. }
    destruct Hip as [-> | ->]; reflexivity.
Qed.

(** What [to_yolo_format] returns on an image with non-zero sides. *)
Lemma to_yolo_format_tokens b W H :
  W <> 0%Z -> H <> 0%Z ->
  let tokens := [str_int (class_id b);
                 format_6f (clamp01 (x_center b W));
                 format_6f (clamp01 (y_center b H));
                 format_6f (clamp01 (norm_width b W));
                 format_6f (clamp01 (norm_height b H))] in
  to_yolo_format b W H = Some (join " " tokens)
  /\ split (join " " tokens) = tokens.
Proof.
  intros HW HH tokens. split.
  - unfold to_yolo_format.
    destruct (W =? 0)%Z eqn:E1; [apply Z.eqb_eq in E1; contradiction|].
    destruct (H =? 0)%Z eqn:E2; [apply Z.eqb_eq in E2; contradiction|].
    reflexivity.
  - apply split_join5. repeat constructor;
      try apply no_space_str_int;
      try (apply format_6f_six_decimals, clamp01_range).
Qed.

(** C2. Encoding.  On an image with positive sides [to_yolo_format] returns
    five tokens separated by single spaces: the class id in decimal, then
    the centre abscissa [(left + right) / 2 / image_width], the centre
    ordinate [(top + bottom) / 2 / image_height], the width over the image
    width and the height over the image height, each clamped to [[0,1]] on
    its own and written with six decimals (the nearest multiple of 10^-6).
    The rectangle drawn from (100,100) to (300,400) under class 2 on an
    image of 1000 by 500 encodes to [2 0.200000 0.500000 0.200000 0.600000]. *)
Theorem encode_correct :
  (forall (b : BoundingBox.t) (W H : Z),
      (0 < W)%Z -> (0 < H)%Z ->
      exists t1 t2 t3 t4 : string,
        to_yolo_format b W H
        = Some (join " " [str_int (class_id b); t1; t2; t3; t4])
        /\ split (join " " [str_int (class_id b); t1; t2; t3; t4])
           = [str_int (class_id b); t1; t2; t3; t4]
        /\ py_int_dec (str_int (class_id b)) = Some (class_id b)
        /\ six_decimals_of t1
             (clamp01 ((left (rect b) + right (rect b)) / 2 / inject_Z W))
        /\ six_decimals_of t2
             (clamp01 ((top (rect b) + bottom (rect b)) / 2 / inject_Z H))
        /\ six_decimals_of t3 (clamp01 (width (rect b) / inject_Z W))
        /\ six_decimals_of t4 (clamp01 (height (rect b) / inject_Z H)))
  /\ (forall v : Q,
         0 <= clamp01 v <= 1
         /\ (v < 0 -> clamp01 v = 0)
         /\ (1 < v -> clamp01 v = 1)
         /\ (0 <= v <= 1 -> clamp01 v == v))
  /\ map (fun b => to_yolo_format b 1000 500)
         (AnnotationScene.boxes (AnnotationScene.mouseReleaseEvent fish_drawing true))
     = [Some "2 0.200000 0.500000 0.200000 0.600000"%string].
Proof.
  split; [|split].
  - intros b W H HW HH.
    destruct (to_yolo_format_tokens b W H) as (Henc & Hsplit); [lia | lia |].
    cbv zeta in Henc, Hsplit.
    eexists _, _, _, _. split; [exact Henc|]. split; [exact Hsplit|].
    split; [apply py_int_dec_str_int|].
    repeat split; apply format_6f_six_decimals, clamp01_range.
  - intros v. split; [apply clamp01_range | apply clamp01_cases].
  - vm_compute. reflexivity.
Qed.

Lemma encode_correct_witness :
  exists t1 t2 t3 t4 : string,
    to_yolo_format pixel_box 3000 3000
    = Some (join " " [str_int (class_id pixel_box); t1; t2; t3; t4])
    /\ split (join " " [str_int (class_id pixel_box); t1; t2; t3; t4])
       = [str_int (class_id pixel_box); t1; t2; t3; t4]
    /\ py_int_dec (str_int (class_id pixel_box)) = Some (class_id pixel_box)
    /\ six_decimals_of t1
         (clamp01 ((left (rect pixel_box) + right (rect pixel_box)) / 2 / inject_Z 3000))
    /\ six_decimals_of t2
         (clamp01 ((top (rect pixel_box) + bottom (rect pixel_box)) / 2 / inject_Z 3000))
    /\ six_decimals_of t3 (clamp01 (width (rect pixel_box) / inject_Z 3000))
    /\ six_decimals_of t4 (clamp01 (height (rect pixel_box) / inject_Z 3000)).
Proof.
  destruct encode_correct as (H & _).
  apply (H pixel_box 3000%Z 3000%Z); reflexivity.
Defined.

(** *** Decoding *)

Lemma from_yolo_format_spec py_int py_float line W H name :
  match from_yolo_format py_int py_float line W H name with
  | Some b =>
      exists t0 t1 t2 t3 t4 cid xc yc w h,
        split line = [t0; t1; t2; t3; t4]
        /\ py_int t0 = Some cid /\ py_float t1 = Some xc /\ py_float t2 = Some yc
        /\ py_float t3 = Some w /\ py_float t4 = Some h
        /\ b = BoundingBox.mk
                 (mkRect (xc * inject_Z W - w * inject_Z W / 2)
                         (yc * inject_Z H - h * inject_Z H / 2)
                         (w * inject_Z W) (h * inject_Z H))
                 cid name None None
  | None =>
      ~ exists t0 t1 t2 t3 t4 cid xc yc w h,
          split line = [t0; t1; t2; t3; t4]
          /\ py_int t0 = Some cid /\ py_float t1 = Some xc /\ py_float t2 = Some yc
          /\ py_float t3 = Some w /\ py_float t4 = Some h
  end.
Proof.
  unfold from_yolo_format. rewrite split_strip.
  destruct (split line) as [|t0 [|t1 [|t2 [|t3 [|t4 [|t5 l]]]]]];
    try (intros (? & ? & ? & ? & ? & ? & ? & ? & ? & ? & Hs & _); discriminate).
  destruct (py_int t0) as [cid|] eqn:E0; simpl;
    [|intros (? & ? & ? & ? & ? & ? & ? & ? & ? & ? & Hs & H0 & _);
      injection Hs as -> -> -> -> ->; congruence].
  destruct (py_float t1) as [xc|] eqn:E1; simpl;
    [|intros (? & ? & ? & ? & ? & ? & ? & ? & ? & ? & Hs & _ & H1 & _);
      injection Hs as -> -> -> -> ->; congruence].
  destruct (py_float t2) as [yc|] eqn:E2; simpl;
    [|intros (? & ? & ? & ? & ? & ? & ? & ? & ? & ? & Hs & _ & _ & H2 & _);
      injection Hs as -> -> -> -> ->; congruence].
  destruct (py_float t3) as [w|] eqn:E3; simpl;
    [|intros (? & ? & ? & ? & ? & ? & ? & ? & ? & ? & Hs & _ & _ & _ & H3 & _);
      injection Hs as -> -> -> -> ->; congruence].
  destruct (py_float t4) as [h|] eqn:E4; simpl;
    [|intros (? & ? & ? & ? & ? & ? & ? & ? & ? & ? & Hs & _ & _ & _ & _ & H4);
      injection Hs as -> -> -> -> ->; congruence].
  exists t0, t1, t2, t3, t4, cid, xc, yc, w, h. repeat split; assumption.
Qed.

(** C3. Decoding.  For any reading of integers and floats, [from_yolo_format]
    returns [None] exactly when the line does not split on whitespace into
    five tokens of which the first reads as an integer and the other four as
    floats.  Otherwise it returns the box of that class id and of the given
    class name whose rectangle has width [w * image_width], height
    [h * image_height], and top-left corner
    [(cx * image_width - width / 2, cy * image_height - height / 2)], with
    no clamping: the line [0 1.5 0.5 0.2 0.2] gives a box whose left edge is
    at 1.4 image widths, to the right of the whole image. *)
Theorem decode_contract :
  (forall (py_int : string -> option Z) (py_float : string -> option Q)
          (line : string) (W H : Z) (name : string),
      from_yolo_format py_int py_float line W H name = None
      <-> ~ exists t0 t1 t2 t3 t4 cid xc yc w h,
              split line = [t0; t1; t2; t3; t4]
              /\ py_int t0 = Some cid /\ py_float t1 = Some xc
              /\ py_float t2 = Some yc /\ py_float t3 = Some w
              /\ py_float t4 = Some h)
  /\ (forall (py_int : string -> option Z) (py_float : string -> option Q)
             (line : string) (W H : Z) (name : string) (b : BoundingBox.t),
         from_yolo_format py_int py_float line W H name = Some b
         <-> exists t0 t1 t2 t3 t4 cid xc yc w h,
               split line = [t0; t1; t2; t3; t4]
               /\ py_int t0 = Some cid /\ py_float t1 = Some xc
               /\ py_float t2 = Some yc /\ py_float t3 = Some w
               /\ py_float t4 = Some h
               /\ b = BoundingBox.mk
                        (mkRect (xc * inject_Z W - w * inject_Z W / 2)
                                (yc * inject_Z H - h * inject_Z H / 2)
                                (w * inject_Z W) (h * inject_Z H))
                        cid name None None)
  /\ (forall (W H : Z) (name : string),
         exists b : BoundingBox.t,
           from_yolo_format py_int_dec py_float_dec "0 1.5 0.5 0.2 0.2" W H name
           = Some b
           /\ class_id b = 0%Z
           /\ left (rect b) == (14 # 10) * inject_Z W
           /\ width (rect b) == (2 # 10) * inject_Z W
           /\ top (rect b) == (4 # 10) * inject_Z H
           /\ height (rect b) == (2 # 10) * inject_Z H
           /\ (0 < inject_Z W -> inject_Z W < left (rect b))).
Proof.
  split; [|split].
  - intros py_int py_float line W H name.
    pose proof (from_yolo_format_spec py_int py_float line W H name) as Hs.
    destruct (from_yolo_format py_int py_float line W H name) as [b|].
    + split; [discriminate|]. intros Hn. exfalso. apply Hn.
      destruct Hs as (t0 & t1 & t2 & t3 & t4 & cid & xc & yc & w & h & Hs).
      exists t0, t1, t2, t3, t4, cid, xc, yc, w, h. tauto.
    + tauto.
  - intros py_int py_float line W H name b.
    pose proof (from_yolo_format_spec py_int py_float line W H name) as Hs.
    destruct (from_yolo_format py_int py_float line W H name) as [b'|].
    + split.
      * intros [= <-]. exact Hs.
      * intros (t0 & t1 & t2 & t3 & t4 & cid & xc & yc & w & h
                & Hsp & H0 & H1 & H2 & H3 & H4 & ->).
        destruct Hs as (t0' & t1' & t2' & t3' & t4' & cid' & xc' & yc' & w' & h'
                        & Hsp' & H0' & H1' & H2' & H3' & H4' & ->).
        rewrite Hsp in Hsp'. injection Hsp' as <- <- <- <- <-.
        congruence.
    + split; [discriminate|].
      intros (t0 & t1 & t2 & t3 & t4 & cid & xc & yc & w & h & Hb).
      exfalso. apply Hs. exists t0, t1, t2, t3, t4, cid, xc, yc, w, h. tauto.
  - intros W H name.
    exists (BoundingBox.mk
              (mkRect ((15 # 10) * inject_Z W - (2 # 10) * inject_Z W / 2)
                      ((5 # 10) * inject_Z H - (2 # 10) * inject_Z H / 2)
                      ((2 # 10) * inject_Z W) ((2 # 10) * inject_Z H))
              0 name None None).
    split; [reflexivity|]. split; [reflexivity|].
    unfold left, width, top, height. cbn [rect xp yp wd ht].
    split; [field|]. split; [reflexivity|]. split; [field|]. split; [reflexivity|].
    intros HW.
    assert (E : (15 # 10) * inject_Z W - (2 # 10) * inject_Z W / 2
                == (14 # 10) * inject_Z W) by field.
    rewrite E. lra.
Qed.

(** *** Round trip *)

Lemma unit_fraction a c : 0 < c -> 0 <= a -> a <= c -> 0 <= a / c <= 1.
Proof.
  intros Hc Ha Hac. split.
  - apply Qle_shift_div_l; [exact Hc | lra].
  - apply Qle_shift_div_r; [exact Hc | lra].
Qed.

Lemma inside_image_fields b W H :
  (0 < W)%Z -> (0 < H)%Z -> inside_image b W H ->
  0 <= x_center b W <= 1 /\ 0 <= y_center b H <= 1
  /\ 0 <= norm_width b W <= 1 /\ 0 <= norm_height b H <= 1.
Proof.
  intros HW HH (Hl & Hlr & Hr & Ht & Htb & Hb).
  assert (HWq : 0 < inject_Z W) by (change 0 with (inject_Z 0); rewrite <- Zlt_Qlt; exact HW).
  assert (HHq : 0 < inject_Z H) by (change 0 with (inject_Z 0); rewrite <- Zlt_Qlt; exact HH).
  unfold x_center, y_center, norm_width, norm_height, left, right, top, bottom,
    width, height in *.
  assert (Ex : (xp (rect b) + (xp (rect b) + wd (rect b))) / 2
               == (xp (rect b) + (xp (rect b) + wd (rect b))) * (1 # 2)) by field.
  assert (Ey : (yp (rect b) + (yp (rect b) + ht (rect b))) / 2
               == (yp (rect b) + (yp (rect b) + ht (rect b))) * (1 # 2)) by field.
  split; [|split; [|split]]; apply unit_fraction; trivial; lra.
Qed.

(** The normalized fields of a decoded rectangle are the numbers read. *)
Lemma decoded_fields xc yc w h W H cid name :
  (0 < W)%Z -> (0 < H)%Z ->
  let b := BoundingBox.mk
             (mkRect (xc * inject_Z W - w * inject_Z W / 2)
                     (yc * inject_Z H - h * inject_Z H / 2)
                     (w * inject_Z W) (h * inject_Z H))
             cid name None None in
  x_center b W == xc /\ y_center b H == yc
  /\ norm_width b W == w /\ norm_height b H == h.
Proof.
  intros HW HH b.
  assert (HWq : ~ inject_Z W == 0).
  { intros E. unfold Qeq in E. simpl in E. lia. }
  assert (HHq : ~ inject_Z H == 0).
  { intros E. unfold Qeq in E. simpl in E. lia. }
  unfold x_center, y_center, norm_width, norm_height, left, right, top, bottom,
    width, height. subst b. cbn [rect xp yp wd ht].
  repeat split; field; assumption.
Qed.

Lemma six_decimals_close t v u n :
  py_float_dec t = Some (Qmake n 1000000) ->
  Qabs (Qmake n 1000000 - clamp01 v) <= 1 # 2000000 ->
  0 <= v <= 1 -> u == Qmake n 1000000 ->
  within_abs (1 # 2000000) u v.
Proof.
  intros _ Hnear Hv Hu. unfold within_abs.
  destruct (clamp01_cases v) as (_ & _ & Hc). specialize (Hc Hv).
  rewrite Hu, <- Hc. exact Hnear.
Qed.

Lemma within_abs_weaken a b :
  within_abs (1 # 2000000) a b -> within_abs (1 # 1000000) a b.
Proof. unfold within_abs. intros H. eapply Qle_trans; [exact H | discriminate]. Qed.

(** C1 (as the code has it). Round trip.  A box that lies fully inside an
    image with positive sides encodes to a line that decodes, under the
    same image size, to a box of the same class id whose four normalized
    fields are each within 5e-7, half a unit of the sixth decimal, of
    those of the original box, hence within 1e-6 of them: the error is
    bounded absolutely. *)
Theorem roundtrip_absolute :
  forall (b : BoundingBox.t) (W H : Z) (name : string),
    (0 < W)%Z -> (0 < H)%Z -> inside_image b W H ->
    exists (line : string) (b' : BoundingBox.t),
      to_yolo_format b W H = Some line
      /\ from_yolo_format py_int_dec py_float_dec line W H name = Some b'
      /\ class_id b' = class_id b
      /\ class_name b' = name
      /\ fields_within (within_abs (1 # 2000000)) b' b W H
      /\ fields_within (within_abs (1 # 1000000)) b' b W H.
Proof.
  intros b W H name HW HH Hin.
  destruct (to_yolo_format_tokens b W H) as (Henc & Hsplit); [lia | lia |].
  cbv zeta in Henc, Hsplit.
  destruct (inside_image_fields b W H HW HH Hin) as (Rx & Ry & Rw & Rh).
  destruct (format_6f_six_decimals _ (clamp01_range (x_center b W)))
    as ((nx & Px & _ & Nx & _) & _).
  destruct (format_6f_six_decimals _ (clamp01_range (y_center b H)))
    as ((ny & Py & _ & Ny & _) & _).
  destruct (format_6f_six_decimals _ (clamp01_range (norm_width b W)))
    as ((nw & Pw & _ & Nw & _) & _).
  destruct (format_6f_six_decimals _ (clamp01_range (norm_height b H)))
    as ((nh & Ph & _ & Nh & _) & _).
  eexists. eexists. split; [exact Henc|].
  unfold from_yolo_format. rewrite split_strip, Hsplit.
  rewrite py_int_dec_str_int, Px, Py, Pw, Ph. cbn [mbind option_bind].
  split; [reflexivity|]. split; [reflexivity|]. split; [reflexivity|].
  destruct (decoded_fields (Qmake nx 1000000) (Qmake ny 1000000)
              (Qmake nw 1000000) (Qmake nh 1000000) W H (class_id b) name HW HH)
    as (Ex & Ey & Ew & Eh).
  unfold BoundingBox.init.
  pose proof (six_decimals_close _ _ _ _ Px Nx Rx Ex) as Cx.
  pose proof (six_decimals_close _ _ _ _ Py Ny Ry Ey) as Cy.
  pose proof (six_decimals_close _ _ _ _ Pw Nw Rw Ew) as Cw.
  pose proof (six_decimals_close _ _ _ _ Ph Nh Rh Eh) as Ch.
  split; [repeat split; assumption|].
  repeat split; apply within_abs_weaken; assumption.
Qed.

Lemma pixel_box_inside : inside_image pixel_box 3000 3000.
Proof. unfold inside_image. vm_compute. repeat split; discriminate. Qed.

Lemma roundtrip_absolute_witness :
  exists (line : string) (b' : BoundingBox.t),
    to_yolo_format pixel_box 3000 3000 = Some line
    /\ from_yolo_format py_int_dec py_float_dec line 3000 3000 "a" = Some b'
    /\ class_id b' = class_id pixel_box
    /\ class_name b' = "a"%string
    /\ fields_within (within_abs (1 # 2000000)) b' pixel_box 3000 3000
    /\ fields_within (within_abs (1 # 1000000)) b' pixel_box 3000 3000.
Proof.
  apply (roundtrip_absolute pixel_box 3000%Z 3000%Z "a");
    [reflexivity | reflexivity | exact pixel_box_inside].
Defined.

(** C1, counterexample.  The box of one pixel in the corner of an image of
    3000 by 3000 pixels lies inside the image and has width and height 1.
    Its normalized width 1/3000 is written as [0.000333] and read back as
    333/10^6: the error is a thousandth of the original value, above the
    relative tolerance 10^-6. *)
Lemma roundtrip_relative_fails :
  inside_image pixel_box 3000 3000
  /\ 1 <= width (rect pixel_box) /\ 1 <= height (rect pixel_box)
  /\ to_yolo_format pixel_box 3000 3000
     = Some "0 0.000167 0.000167 0.000333 0.000333"%string
  /\ exists b' : BoundingBox.t,
       from_yolo_format py_int_dec py_float_dec
         "0 0.000167 0.000167 0.000333 0.000333" 3000 3000 "a" = Some b'
       /\ norm_width pixel_box 3000 == 1 # 3000
       /\ norm_width b' 3000 == 333 # 1000000
       /\ ~ within_rel (1 # 1000000) (norm_width b' 3000) (norm_width pixel_box 3000)
       /\ ~ fields_within (within_rel (1 # 1000000)) b' pixel_box 3000 3000.
Proof.
  split; [exact pixel_box_inside|].
  split; [vm_compute; discriminate|]. split; [vm_compute; discriminate|].
  split; [vm_compute; reflexivity|].
  eexists. split; [vm_compute; reflexivity|].
  split; [vm_compute; reflexivity|]. split; [vm_compute; reflexivity|].
  split.
  - unfold within_rel. apply Qlt_not_le. vm_compute. reflexivity.
  - intros (_ & _ & Hw & _). revert Hw.
    unfold within_rel. apply Qlt_not_le. vm_compute. reflexivity.
Qed.

End CodecFacts.

(** ** Loading an annotation file *)

Section LoadFacts.
Import PyStr PyNum BoundingBox AnnotationScene MainWindow Examples.

Variable py_int : string -> option Z.
Variable py_float : string -> option Q.
Variable class_id_map : gmap Z string.

(** A line that is blank or does not have five tokens is skipped. *)
Lemma load_line_token_count s line :
  length (split line) <> 5%nat ->
  load_line py_int py_float class_id_map s line = Some s.
Proof.
  intros Hlen. unfold load_line.
  destruct (strip line) eqn:Hs; [reflexivity|]. rewrite <- Hs, split_strip.
  destruct (split line) as [|t0 [|t1 [|t2 [|t3 [|t4 [|t5 l]]]]]]; try reflexivity.
  exfalso. apply Hlen. reflexivity.
Qed.

(** A line of five tokens with an integer in front that does not decode is
    skipped. *)
Lemma load_line_bad_float s line cid :
  hd_error (split line) = Some cid ->
  is_Some (py_int cid) ->
  (forall name, from_yolo_format py_int py_float line
                  (image_width s) (image_height s) name = None) ->
  load_line py_int py_float class_id_map s line = Some s.
Proof.
  intros Hhd (z & Hz) Hnone. unfold load_line.
  destruct (strip line) eqn:Hs; [reflexivity|]. rewrite <- Hs, split_strip.
  destruct (split line) as [|t0 [|t1 [|t2 [|t3 [|t4 [|t5 l]]]]]] eqn:Hsp;
    try reflexivity.
  simpl in Hhd. injection Hhd as ->. rewrite Hz.
  assert (Hd : forall name, from_yolo_format py_int py_float (strip line)
                              (image_width s) (image_height s) name = None).
  { intros name. specialize (Hnone name). unfold from_yolo_format in *.
    rewrite split_strip in *. rewrite split_strip. exact Hnone. }
  rewrite Hd. reflexivity.
Qed.

(** A line of five tokens without an integer in front ends the load: the
    rest of the file is not read. *)
Lemma load_lines_bad_class_id s line rest t0 t1 t2 t3 t4 :
  split line = [t0; t1; t2; t3; t4] ->
  py_int t0 = None ->
  load_lines py_int py_float class_id_map s (line :: rest) = Aborted s.
Proof.
  intros Hsp H0. cbn [load_lines]. unfold load_line.
  destruct (strip line) eqn:Hs.
  - apply strip_empty_split in Hs. congruence.
  - rewrite <- Hs, split_strip, Hsp, H0. reflexivity.
Qed.
End LoadFacts.

Section LoadExample.
Import PyStr PyNum BoundingBox AnnotationScene MainWindow Examples.

(** C4, the code at the failing input.  The first line of [bad_then_good]
    is malformed, the second decodes to a box; loaded alone the second line
    gives that box, but loading the file stops at the first line with no
    box at all. *)
Theorem load_aborts_on_bad_class_id :
  from_yolo_format py_int_dec py_float_dec "abc 0.5 0.5 0.1 0.1" 100 100 "x" = None
  /\ is_Some (from_yolo_format py_int_dec py_float_dec "0 0.5 0.5 0.1 0.1" 100 100 "x")
  /\ (exists s, load_annotations py_int_dec py_float_dec ∅ blank_100
                  (Some ["0 0.5 0.5 0.1 0.1"%string]) = Loaded s
                /\ length (boxes s) = 1%nat)
  /\ load_annotations py_int_dec py_float_dec ∅ blank_100 (Some bad_then_good)
     = Aborted blank_100
  /\ boxes (scene_of (load_annotations py_int_dec py_float_dec ∅ blank_100
                        (Some bad_then_good))) = [].
Proof.
  split; [reflexivity|]. split; [eexists; reflexivity|].
  split; [eexists; split; reflexivity|].
  split; [|reflexivity].
  apply (load_lines_bad_class_id py_int_dec py_float_dec ∅ blank_100
           "abc 0.5 0.5 0.1 0.1" ["0 0.5 0.5 0.1 0.1"%string]
           "abc" "0.5" "0.5" "0.1" "0.1"); reflexivity.
Qed.
End LoadExample.

(** ** Writing the class list *)

Section ClassFileFacts.
Import MainWindow Examples.

(** C9, the code at the failing input.  With the single class 5, "fish",
    [save_classes_file] writes the line [[0] fish], under the position of
    the class and not its id, and [save_classes] writes the bare line
    [fish]; with classes 2 and 7 the ids written are 0 and 1.  Read back by
    [load_classes], either file gives class 0, "fish": the id 5 is lost. *)
Theorem class_file_written_with_positions :
  classes_of fish_only = ["fish"%string]
  /\ save_classes_file (classes_of fish_only)
     = Some (String.append "[0] fish" newline)
  /\ save_classes (Some "classes.txt"%string) (classes_of fish_only)
     = Some (String.append "fish" newline)
  /\ save_classes_file (classes_of crab_fish)
     = Some (String.append "[0] crab"
               (String.append newline (String.append "[1] fish" newline)))
  /\ load_classes PyNum.py_int_dec (String.append "[5] fish" newline)
     = ClassesLoaded fish_only
  /\ load_classes PyNum.py_int_dec (String.append "[0] fish" newline)
     = ClassesLoaded {[ 0%Z := "fish"%string ]}
  /\ load_classes PyNum.py_int_dec (String.append "fish" newline)
     = ClassesLoaded {[ 0%Z := "fish"%string ]}
  /\ fish_only !! 0%Z = None.
Proof. vm_compute. repeat split. Qed.
End ClassFileFacts.

(** ** A whole drag *)

Section DragFacts.
Import BoundingBox AnnotationScene.
Local Open Scope Q_scope.

Lemma finish_editing_class_name s :
  current_class_name (finish_editing s) = current_class_name s
  /\ drawing_enabled (finish_editing s) = drawing_enabled s.
Proof.
  unfold finish_editing. destruct (editing_box s) as [g|]; [|auto].
  destruct (items s !! g); auto.
Qed.

Lemma mouseReleaseEvent_boxes s g :
  current_box s = Some g ->
  boxes (mouseReleaseEvent s true)
  = if PyNum.Qltb 5 (width (rect_of_item s g)) && PyNum.Qltb 5 (height (rect_of_item s g))
    then boxes s
           ++ [BoundingBox.mk (rect_of_item s g) (current_class_id s) (current_class_name s)
                 (Some (get_box_color s (current_class_id s))) (Some g)]
    else boxes s.
Proof.
  intros Hg. unfold mouseReleaseEvent. rewrite Hg.
  destruct (PyNum.Qltb 5 (width (rect_of_item s g)) && PyNum.Qltb 5 (height (rect_of_item s g)));
    reflexivity.
Qed.

(** A whole drag on the empty canvas, from a point other than the origin,
    to the right and downwards by [dx] and [dy]: the rectangle that reaches
    [mouseReleaseEvent] spans the drag, and a box is added exactly when both
    [dx] and [dy] exceed 5. *)
Lemma drag_minimum_size (s : AnnotationScene.t) (p : QPointF) (dx dy : Q) :
  drawing_enabled s = true -> current_class_name s <> EmptyString ->
  QPointF_bool p = true -> 0 <= dx -> 0 <= dy ->
  let s1 := mousePressEvent s true OnOther p in
  let s2 := mouseMoveEvent s1 (mkPoint (px p + dx) (py p + dy)) in
  let s3 := mouseReleaseEvent s2 true in
  exists g,
    current_box s2 = Some g
    /\ width (rect_of_item s2 g) == dx /\ height (rect_of_item s2 g) == dy
    /\ (5 < dx /\ 5 < dy -> length (boxes s3) = S (length (boxes s1)))
    /\ (~ (5 < dx /\ 5 < dy) -> boxes s3 = boxes s1).
Proof.
  intros Hen Hname Hp Hdx Hdy s1 s2 s3.
  set (s0 := finish_editing (select_box s None)).
  destruct (finish_editing_class_name (select_box s None)) as (Hn0 & _).
  fold s0 in Hn0. simpl in Hn0.
  assert (Hs1 : s1 = set_drawing
                       (set_items s0 (<[next_item s0 := mkItem null_rect (mkPoint 0 0)]> (items s0))
                          (S (next_item s0)))
                       (Some (next_item s0)) (Some p)).
  { subst s1. unfold mousePressEvent. rewrite Hen. cbn [andb]. fold s0.
    destruct (current_class_name s0) eqn:E; [congruence | reflexivity]. }
  set (g := next_item s0) in *.
  set (r := normalized (rect_of_points p (mkPoint (px p + dx) (py p + dy)))).
  assert (Hs2 : s2 = setRect s1 g r).
  { subst s2. rewrite Hs1. unfold mouseMoveEvent.
    cbn [current_box start_point set_drawing]. rewrite Hp. reflexivity. }
  assert (Hr : rect_of_item s2 g = r).
  { rewrite Hs2, Hs1. unfold rect_of_item, setRect. cbn [items set_items set_drawing].
    rewrite lookup_alter_eq, lookup_insert_eq. reflexivity. }
  assert (Hw : width r == dx /\ height r == dy).
  { subst r. unfold rect_of_points. cbn [px py].
    rewrite normalized_nonneg; cbn [wd ht width height]; [split; ring | lra | lra]. }
  destruct Hw as (Hw & Hh).
  assert (Hc2 : current_box s2 = Some g) by (rewrite Hs2, Hs1; reflexivity).
  assert (Hb2 : boxes s2 = boxes s1) by (rewrite Hs2; reflexivity).
  exists g. split; [exact Hc2|]. rewrite Hr. split; [exact Hw|]. split; [exact Hh|].
  pose proof (mouseReleaseEvent_boxes s2 g Hc2) as Hrel. rewrite Hr in Hrel.
  fold s3 in Hrel.
  split.
  - intros (H5x & H5y).
    assert (E1 : PyNum.Qltb 5 (width r) = true) by (apply Qltb_lt; lra).
    assert (E2 : PyNum.Qltb 5 (height r) = true) by (apply Qltb_lt; lra).
    rewrite E1, E2 in Hrel. cbn [andb] in Hrel.
    rewrite Hrel, length_app, Hb2. simpl. lia.
  - intros Hn.
    destruct (PyNum.Qltb 5 (width r)) eqn:E1; destruct (PyNum.Qltb 5 (height r)) eqn:E2;
      cbn [andb] in Hrel; try congruence.
    exfalso. apply Hn. apply Qltb_lt in E1, E2. split; lra.
Qed.
End DragFacts.

(** ** More on the history *)

Section HistoryMore.
Import BoundingBox AnnotationScene Session History.

(** X1. Redo after undo, and undo after redo.  When there is something to
    undo, an undo followed by a redo succeeds and gives back the boxes and
    both stacks, equal in rectangle, class id and class name; likewise a redo
    followed by an undo when there is something to redo. *)
Theorem undo_redo_cancel :
  (forall s : AnnotationScene.t,
      match undo_stack s with
      | [] => undo s = (false, s)
      | _ :: _ =>
          fst (undo s) = true
          /\ fst (redo (snd (undo s))) = true
          /\ view (snd (redo (snd (undo s)))) = view s
      end)
  /\ (forall s : AnnotationScene.t,
         match redo_stack s with
         | [] => redo s = (false, s)
         | _ :: _ =>
             fst (redo s) = true
             /\ fst (undo (snd (redo s))) = true
             /\ view (snd (undo (snd (redo s)))) = view s
         end).
Proof.
  split; intros s.
  - pose proof (undo_step_spec s) as Hu. pose proof (undo_view_spec s) as Hv.
    destruct (undo_stack s) as [|p u] eqn:Hs; [exact Hu|].
    destruct Hu as (Hf & _ & Hr & _). split; [exact Hf|].
    pose proof (redo_step_spec (snd (undo s))) as Hr2. rewrite Hr in Hr2.
    destruct Hr2 as (Hf2 & _). split; [exact Hf2|].
    rewrite redo_view_spec, Hv. unfold view. rewrite Hs. reflexivity.
  - pose proof (redo_step_spec s) as Hr. pose proof (redo_view_spec s) as Hv.
    destruct (redo_stack s) as [|p r] eqn:Hs; [exact Hr|].
    destruct Hr as (Hf & _ & Hu & _). split; [exact Hf|].
    pose proof (undo_step_spec (snd (redo s))) as Hu2. rewrite Hu in Hu2.
    destruct Hu2 as (Hf2 & _). split; [exact Hf2|].
    rewrite undo_view_spec, Hv. unfold view. rewrite Hs. reflexivity.
Qed.

Lemma redo_empty s : redo_stack s = [] -> redo s = (false, s).
Proof. intros H. unfold redo. rewrite H. reflexivity. Qed.

(** X2. Redo invalidation.  After a deletion nothing can be redone, whatever
    was on the redo stack; after the release of a button either nothing can
    be redone (a box was committed) or boxes and both stacks are as before
    (nothing was committed).  Ending an edit, moving or resizing an item
    and choosing a class leave both stacks as they are: an edit cannot be
    undone and does not invalidate a redo. *)
Theorem redo_invalidation :
  (forall (s : AnnotationScene.t) (indices : list Z),
      redo (delete_selected_boxes s indices) = (false, delete_selected_boxes s indices))
  /\ (forall (s : AnnotationScene.t) (left_button : bool),
         let s' := mouseReleaseEvent s left_button in
         (redo s' = (false, s') /\ length (boxes s') = S (length (boxes s)))
         \/ (boxes s' = boxes s /\ undo_stack s' = undo_stack s
             /\ redo_stack s' = redo_stack s))
  /\ (forall (s : AnnotationScene.t) (e : event),
         match e with
         | MouseRelease _ | DeleteSelectedBoxes _ => True
         | _ => undo_stack (step s e) = undo_stack s
                /\ redo_stack (step s e) = redo_stack s
         end).
Proof.
  split; [|split].
  - intros s indices. apply redo_empty.
    apply (delete_selected_boxes_snapshotting s indices).
  - intros s b s'. subst s'. unfold mouseReleaseEvent.
    destruct (current_box s) as [g|]; [|right; auto].
    destruct b; [|right; auto].
    destruct (PyNum.Qltb 5 (width (rect_of_item s g))
              && PyNum.Qltb 5 (height (rect_of_item s g))).
    + left. split; [apply redo_empty; reflexivity|].
      simpl. rewrite length_app. simpl. lia.
    + right. auto.
  - intros s e. destruct e; try exact I; simpl.
    + destruct (mousePressEvent_quiet s left_button item scenePos) as (? & ? & _); auto.
    + destruct (mouseMoveEvent_quiet s scenePos) as (? & ? & _); auto.
    + destruct (edit_selected_annotation_quiet s row) as (? & ? & _); auto.
    + destruct (finish_editing_quiet s) as (? & ? & _); auto.
    + auto.
    + auto.
    + unfold set_current_class. destruct color0; auto.
    + auto.
    + auto.
Qed.
End HistoryMore.

(** ** More on resizing and drawing *)

Section GeometryMore.
Import BoundingBox AnnotationScene ResizeHandle Props.
Local Open Scope Q_scope.

(** X3. What a resize can do to a box.  After a move of a resize handle the
    parent either keeps the rectangle it had, or it has a rectangle wider
    and higher than 10 that does not depend on the rectangle it had: the
    result is computed from the rectangle at the press and the whole drag,
    so that the steps of a drag do not add up. *)
Theorem resize_result :
  forall (h : ResizeHandle.t) (parent : QRectF) (p : QPointF),
    let r := ResizeHandle.mouseMoveEvent h parent p in
    r = parent
    \/ (10 < width r /\ 10 < height r
        /\ forall parent' : QRectF,
             ResizeHandle.mouseMoveEvent h parent' p = r).
Proof.
  intros h parent p r. subst r. unfold ResizeHandle.mouseMoveEvent.
  destruct (start_rect h) as [sr|]; [|left; reflexivity].
  destruct (start_pos h) as [sp|]; [|left; reflexivity].
  destruct (QRectF_bool sr); [|left; reflexivity].
  set (nr := dragged_rect (position h) sr (px p - px sp) (py p - py sp)).
  destruct (PyNum.Qltb 10 (width nr)) eqn:Ew; [|left; reflexivity].
  destruct (PyNum.Qltb 10 (height nr)) eqn:Eh; [|left; reflexivity].
  right. simpl. apply Qltb_lt in Ew, Eh. unfold width, height in *.
  rewrite normalized_nonneg by lra. repeat split; trivial.
Qed.

Lemma dragged_rect_corner position sr dx dy :
  let r := dragged_rect position sr dx dy in
  xp r == (if PyStr.contains "left" position then xp sr + dx else xp sr)
  /\ yp r == (if PyStr.contains "top" position then yp sr + dy else yp sr)
  /\ xp r + wd r
     == (if PyStr.contains "right" position then xp sr + wd sr + dx else xp sr + wd sr)
  /\ yp r + ht r
     == (if PyStr.contains "bottom" position then yp sr + ht sr + dy else yp sr + ht sr).
Proof.
  destruct (dragged_rect_edges position sr dx dy) as (Ht & Hb & Hl & Hr).
  cbv zeta in *. unfold top, bottom, left, right in *.
  destruct (PyStr.contains "left" position), (PyStr.contains "top" position),
    (PyStr.contains "right" position), (PyStr.contains "bottom" position);
    repeat split; lra.
Qed.

Lemma move_after_press name rect pos q parent :
  isValid rect = true ->
  ResizeHandle.mouseMoveEvent
    (ResizeHandle.mousePressEvent true (ResizeHandle.init name) rect pos) parent q
  = let nr := dragged_rect name rect (px q - px pos) (py q - py pos) in
    if PyNum.Qltb 10 (width nr) && PyNum.Qltb 10 (height nr)
    then normalized nr else parent.
Proof.
  intros Hvalid. unfold ResizeHandle.mouseMoveEvent. simpl.
  unfold QRectF_bool. rewrite Hvalid. reflexivity.
Qed.

Lemma handle_follows name rect dx dy :
  isValid rect = true ->
  PyStr.contains "left" name = negb (PyStr.contains "right" name) ->
  PyStr.contains "top" name = negb (PyStr.contains "bottom" name) ->
  let pos := handle_corner name rect in
  let pressed := ResizeHandle.mousePressEvent true (ResizeHandle.init name) rect pos in
  let r := ResizeHandle.mouseMoveEvent pressed rect (mkPoint (px pos + dx) (py pos + dy)) in
  r = rect
  \/ (px (handle_corner name r) == px pos + dx
      /\ py (handle_corner name r) == py pos + dy
      /\ px (opposite_corner name r) == px (opposite_corner name rect)
      /\ py (opposite_corner name r) == py (opposite_corner name rect)).
Proof.
  intros Hvalid Hlr Htb pos pressed r.
  set (nr := dragged_rect name rect (px pos + dx - px pos) (py pos + dy - py pos)).
  assert (Hr : r = rect \/ r = nr).
  { subst r pressed. rewrite move_after_press by exact Hvalid.
    cbv zeta. cbn [px py]. fold nr.
    destruct (PyNum.Qltb 10 (width nr)) eqn:Ew; [|left; reflexivity].
    destruct (PyNum.Qltb 10 (height nr)) eqn:Eh; [|left; reflexivity].
    right. simpl. apply Qltb_lt in Ew, Eh. unfold width, height in *.
    apply normalized_nonneg; lra. }
  destruct Hr as [E|E]; [left; exact E | right; rewrite E].
  destruct (dragged_rect_corner name rect (px pos + dx - px pos) (py pos + dy - py pos))
    as (Cx & Cy & Cr & Cb).
  cbv zeta in Cx, Cy, Cr, Cb. fold nr in Cx, Cy, Cr, Cb.
  subst pos. unfold handle_corner, opposite_corner, left, right, top, bottom in *.
  cbn [px py] in *. rewrite Hlr, Htb in *.
  destruct (PyStr.contains "right" name), (PyStr.contains "bottom" name);
    cbn [negb] in *; repeat split; lra.
Qed.

(** X4. The four handles of a box.  [add_resize_handles] makes four handles,
    one on each corner of the rectangle of the box's item, each on the corner
    its name tells.  Pressed there and dragged by [(dx, dy)], a handle either
    leaves the rectangle as it is or takes its own corner along by
    [(dx, dy)] and leaves the opposite corner where it was. *)
Theorem handle_moves_its_corner :
  forall (s : AnnotationScene.t) (bbox : BoundingBox.t) (g : nat)
         (it : GraphicsRectItem) (dx dy : Q),
    graphics_item bbox = Some g -> items s !! g = Some it ->
    isValid (item_rect it) = true ->
    let rect := item_rect it in
    map (fun hp => position (fst hp)) (add_resize_handles s bbox)
    = ["top-left"; "top-right"; "bottom-left"; "bottom-right"]%string
    /\ Forall
         (fun hp =>
            let name := position (fst hp) in
            let pos := snd hp in
            let pressed := ResizeHandle.mousePressEvent true (fst hp) rect pos in
            let r := ResizeHandle.mouseMoveEvent pressed rect
                       (mkPoint (px pos + dx) (py pos + dy)) in
            pos = handle_corner name rect
            /\ (r = rect
                \/ (px (handle_corner name r) == px pos + dx
                    /\ py (handle_corner name r) == py pos + dy
                    /\ px (opposite_corner name r) == px (opposite_corner name rect)
                    /\ py (opposite_corner name r) == py (opposite_corner name rect))))
         (add_resize_handles s bbox).
Proof.
  intros s bbox g it dx dy Hg Hit Hvalid rect.
  unfold add_resize_handles. rewrite Hg, Hit. fold rect. fold rect in Hvalid.
  split; [reflexivity|].
  repeat apply Forall_cons_2; try apply Forall_nil_2; cbv zeta; cbn [fst snd];
    (split; [reflexivity|]).
  - apply (handle_follows "top-left" rect dx dy Hvalid); reflexivity.
  - apply (handle_follows "top-right" rect dx dy Hvalid); reflexivity.
  - apply (handle_follows "bottom-left" rect dx dy Hvalid); reflexivity.
  - apply (handle_follows "bottom-right" rect dx dy Hvalid); reflexivity.
Qed.

Lemma handle_moves_its_corner_witness :
  let s := Examples.painted_scene in
  map (fun hp => position (fst hp))
      (add_resize_handles s
         (BoundingBox.mk (mkRect 10 10 40 50) 3 "fish" None (Some 0%nat)))
  = ["top-left"; "top-right"; "bottom-left"; "bottom-right"]%string.
Proof.
  cbv zeta.
  destruct (handle_moves_its_corner Examples.painted_scene
              (BoundingBox.mk (mkRect 10 10 40 50) 3 "fish" None (Some 0%nat))
              0%nat (mkItem (mkRect 10 10 (50 - 10) (60 - 10)) (mkPoint 0 0)) 0 0
              eq_refl eq_refl eq_refl) as (H & _).
  exact H.
Defined.
End GeometryMore.

(** ** More on the scene: drawing, colours, labels *)

Section SceneMore.
Import BoundingBox AnnotationScene Props.
Local Open Scope Q_scope.

Lemma normalized_orientation (p q : QPointF) :
  let r := normalized (rect_of_points p q) in
  left r == Qmin (px p) (px q) /\ right r == Qmax (px p) (px q)
  /\ top r == Qmin (py p) (py q) /\ bottom r == Qmax (py p) (py q).
Proof.
  cbv zeta. unfold normalized, rect_of_points, left, right, top, bottom. cbn [xp yp wd ht].
  destruct (PyNum.Qltb (px q - px p) 0) eqn:Ex;
    [apply Qltb_lt in Ex | apply Qltb_ge in Ex];
    cbn [xp yp wd ht];
    (destruct (PyNum.Qltb (py q - py p) 0) eqn:Ey;
     [apply Qltb_lt in Ey | apply Qltb_ge in Ey]);
    cbn [xp yp wd ht];
    repeat split;
    try (rewrite Q.min_l by lra; lra); try (rewrite Q.min_r by lra; lra);
    try (rewrite Q.max_l by lra; lra); try (rewrite Q.max_r by lra; lra).
Qed.

(** X5. Drawing in any direction.  While a box is being drawn from a start
    point other than the origin, a move of the pointer to [q] gives the
    provisional item the rectangle spanned by the start point and [q],
    whichever way the pointer went: its left and top are the smaller, its
    right and bottom the larger coordinates, so width and height are never
    negative.  Boxes and history are not touched. *)
Theorem drawing_any_direction :
  forall (s : AnnotationScene.t) (g : nat) (it : GraphicsRectItem) (p q : QPointF),
    current_box s = Some g -> start_point s = Some p -> items s !! g = Some it ->
    QPointF_bool p = true ->
    let s' := mouseMoveEvent s q in
    let r := rect_of_item s' g in
    left r == Qmin (px p) (px q) /\ right r == Qmax (px p) (px q)
    /\ top r == Qmin (py p) (py q) /\ bottom r == Qmax (py p) (py q)
    /\ 0 <= width r /\ 0 <= height r
    /\ boxes s' = boxes s /\ undo_stack s' = undo_stack s
    /\ redo_stack s' = redo_stack s /\ current_box s' = Some g.
Proof.
  intros s g it p q Hg Hp Hit Hb s' r.
  assert (Hr : r = normalized (rect_of_points p q)).
  { subst r s'. unfold mouseMoveEvent. rewrite Hg, Hp, Hb.
    unfold rect_of_item, setRect. cbn [items set_items].
    rewrite lookup_alter_eq, Hit. reflexivity. }
  destruct (normalized_orientation p q) as (Hl & Hrr & Ht & Hbt). cbv zeta in *.
  destruct (normalized_size (rect_of_points p q)) as (Hw & Hh & _).
  rewrite Hr. repeat split; trivial;
    subst s'; unfold mouseMoveEvent; rewrite Hg, Hp, Hb; simpl; auto.
Qed.

Lemma drawing_any_direction_witness :
  let s := mousePressEvent
             (set_current_class AnnotationScene.init 3 "fish" None)
             true OnOther (mkPoint 50 60) in
  let r := rect_of_item (mouseMoveEvent s (mkPoint 10 80)) 0 in
  left r == Qmin 50 10 /\ right r == Qmax 50 10
  /\ top r == Qmin 60 80 /\ bottom r == Qmax 60 80.
Proof.
  cbv zeta.
  destruct (drawing_any_direction
              (mousePressEvent (set_current_class AnnotationScene.init 3 "fish" None)
                 true OnOther (mkPoint 50 60))
              0%nat (mkItem null_rect (mkPoint 0 0)) (mkPoint 50 60) (mkPoint 10 80)
              eq_refl eq_refl eq_refl eq_refl) as (H1 & H2 & H3 & H4 & _).
  repeat split; assumption.
Defined.

(** X6. The colour of a class.  A colour set for a class id is the colour of
    that id and changes the colour of no other id.  An id without a colour
    of its own gets a colour of the default scheme, for negative ids too,
    and ids that differ by 8 get the same one.  Choosing the current class
    without a colour changes no colour; choosing it with a colour sets that
    colour for its id. *)
Theorem class_color_resolution :
  (forall (s : AnnotationScene.t) (cid : Z) (c : QColor),
      get_box_color (set_class_color s cid c) cid = c)
  /\ (forall (s : AnnotationScene.t) (cid cid' : Z) (c : QColor),
         cid <> cid' ->
         get_box_color (set_class_color s cid c) cid' = get_box_color s cid')
  /\ (forall (s : AnnotationScene.t) (cid : Z),
         match class_custom_colors s !! cid with
         | Some c => get_box_color s cid = c
         | None =>
             In (get_box_color s cid) class_colors
             /\ (class_custom_colors s !! (cid + 8)%Z = None ->
                 get_box_color s (cid + 8) = get_box_color s cid)
         end)
  /\ (forall (s : AnnotationScene.t) (cid cid' : Z) (name : string),
         get_box_color (set_current_class s cid name None) cid' = get_box_color s cid')
  /\ (forall (s : AnnotationScene.t) (cid : Z) (name : string) (c : QColor),
         get_box_color (set_current_class s cid name (Some c)) cid = c).
Proof.
  split; [|split; [|split; [|split]]].
  - intros s cid c. unfold get_box_color, set_class_color. simpl.
    rewrite lookup_insert_eq. reflexivity.
  - intros s cid cid' c Hne. unfold get_box_color, set_class_color. simpl.
    rewrite lookup_insert_ne by exact Hne. reflexivity.
  - intros s cid. unfold get_box_color.
    destruct (class_custom_colors s !! cid) as [c|] eqn:E; [reflexivity|].
    split.
    + change (Z.of_nat (length class_colors)) with 8%Z.
      pose proof (Z.mod_pos_bound cid 8 ltac:(lia)) as Hb.
      assert (Hn : (Z.to_nat (cid mod 8) < 8)%nat) by lia.
      destruct (Z.to_nat (cid mod 8)) as [|[|[|[|[|[|[|[|n]]]]]]]]; simpl; try lia; tauto.
    + intros ->. change (Z.of_nat (length class_colors)) with 8%Z.
      replace ((cid + 8) mod 8)%Z with (cid mod 8)%Z; [reflexivity|].
      symmetry. exact (Z.mod_add cid 1 8 ltac:(lia)).
  - intros s cid cid' name. reflexivity.
  - intros s cid name c. unfold get_box_color, set_current_class. simpl.
    rewrite lookup_insert_eq. reflexivity.
Qed.

Lemma int_of_float_bounds (x : Q) (n : Z) :
  (inject_Z n <= x -> (0 <= n)%Z -> (n <= int_of_float x)%Z)
  /\ (x < inject_Z n -> (0 < n)%Z -> (int_of_float x < n)%Z).
Proof.
  unfold int_of_float. destruct x as [a d]. unfold Qle, Qlt, inject_Z. simpl.
  split; intros H Hn.
  - rewrite Z.mul_1_r in H.
    assert (Ha : (0 <= a)%Z) by nia.
    rewrite Z.quot_div_nonneg by lia. apply Z.div_le_lower_bound; lia.
  - rewrite Z.mul_1_r in H.
    destruct (Z_lt_le_dec a 0) as [Hneg|Hpos].
    + assert (Hd : Z.pos d <> 0%Z) by lia.
      pose proof (Z.quot_opp_l (- a) (Z.pos d) Hd) as Ho.
      rewrite Z.opp_involutive in Ho. rewrite Ho.
      assert (Hna : (0 <= - a)%Z) by lia.
      assert (Hdp : (0 < Z.pos d)%Z) by lia.
      pose proof (Z.quot_pos (- a) (Z.pos d) Hna Hdp). lia.
    + rewrite Z.quot_div_nonneg by lia. apply Z.div_lt_upper_bound; lia.
Qed.

(** X7. The size of a label.  The point size of the label of a box is
    between 7 and 14 whatever the height of the box; it is 7 for every
    height below 120 (a negative one too), 14 from a height of 210 on, and
    it does not go down when the height goes up. *)
Theorem label_font_size_range :
  forall h : Q,
    (7 <= label_font_size h <= 14)%Z
    /\ (h < 120 -> label_font_size h = 7%Z)
    /\ (210 <= h -> label_font_size h = 14%Z)
    /\ (forall h' : Q, h <= h' -> (label_font_size h <= label_font_size h')%Z).
Proof.
  intros h. unfold label_font_size. cbv zeta.
  split; [lia|]. split; [|split].
  - intros Hh. destruct (int_of_float_bounds (h / 15) 8) as (_ & Hlt).
    assert (h / 15 < inject_Z 8).
    { apply Qlt_shift_div_r; [reflexivity|]. change (inject_Z 8 * 15) with 120. exact Hh. }
    specialize (Hlt H). lia.
  - intros Hh. destruct (int_of_float_bounds (h / 15) 14) as (Hle & _).
    assert (inject_Z 14 <= h / 15).
    { apply Qle_shift_div_l; [reflexivity|]. change (inject_Z 14 * 15) with 210. exact Hh. }
    specialize (Hle H). lia.
  - intros h' Hhh'.
    assert (Hm : forall n : Z, (0 < n)%Z ->
                               (n <= int_of_float (h / 15) -> n <= int_of_float (h' / 15))%Z).
    { intros n Hn Hle.
      destruct (int_of_float_bounds (h / 15) n) as (_ & Hlt).
      destruct (int_of_float_bounds (h' / 15) n) as (Hge & _).
      apply Hge; [|lia].
      destruct (Qlt_le_dec (h / 15) (inject_Z n)) as [Hc|Hc]; [specialize (Hlt Hc); lia|].
      eapply Qle_trans; [exact Hc|].
      unfold Qdiv. apply Qmult_le_compat_r; [exact Hhh' | discriminate]. }
    destruct (Z_lt_le_dec (int_of_float (h / 15)) 8) as [Hs|Hs]; [lia|].
    pose proof (Hm (Z.min (int_of_float (h / 15)) 14) ltac:(lia) ltac:(lia)). lia.
Qed.
End SceneMore.

(** ** Deleting boxes *)

Section DeleteMore.
Import BoundingBox AnnotationScene Props MainWindow.

Lemma keep_positions_ext {A} (P Q : nat -> bool) (l : list A) : forall k,
  (forall j, (k <= j < k + length l)%nat -> P j = Q j) ->
  keep_positions P k l = keep_positions Q k l.
Proof.
  induction l as [|x l IH]; intros k H; [reflexivity|].
  simpl. rewrite (H k) by (simpl; lia).
  rewrite (IH (S k)) by (intros j Hj; apply H; simpl; lia). reflexivity.
Qed.

Lemma keep_positions_all {A} (P : nat -> bool) (l : list A) : forall k,
  (forall j, (k <= j < k + length l)%nat -> P j = true) -> keep_positions P k l = l.
Proof.
  induction l as [|x l IH]; intros k H; [reflexivity|].
  simpl. rewrite (H k) by (simpl; lia).
  rewrite (IH (S k)) by (intros j Hj; apply H; simpl; lia). reflexivity.
Qed.

Lemma delete_keep_positions {A} (P : nat -> bool) (l : list A) : forall k m,
  (forall j, (k <= j <= k + m)%nat -> P j = true) ->
  delete m (keep_positions P k l)
  = keep_positions (fun j => P j && negb (j =? k + m)%nat) k l.
Proof.
  induction l as [|x l IH]; intros k m H; [reflexivity|].
  simpl. rewrite (H k) by lia. destruct m as [|m].
  - rewrite Nat.add_0_r, Nat.eqb_refl. simpl.
    apply keep_positions_ext. intros j Hj.
    destruct (Nat.eqb_spec j k); [lia|]. rewrite andb_true_r. reflexivity.
  - destruct (Nat.eqb_spec k (k + S m)); [lia|]. simpl.
    rewrite (IH (S k) m) by (intros j Hj; apply H; lia).
    f_equal. apply keep_positions_ext. intros j Hj.
    replace (S k + m)%nat with (k + S m)%nat by lia. reflexivity.
Qed.

Lemma boxes_delete_at s i :
  boxes (delete_at s i)
  = if ((0 <=? i) && (i <? Z.of_nat (length (boxes s))))%Z
    then delete (Z.to_nat i) (boxes s) else boxes s.
Proof.
  unfold delete_at.
  destruct ((0 <=? i) && (i <? Z.of_nat (length (boxes s))))%Z eqn:E; [|reflexivity].
  destruct (boxes s !! Z.to_nat i) as [bbox|] eqn:El.
  - destruct (graphics_item bbox); reflexivity.
  - apply andb_true_iff in E as (E0 & E1). apply Z.leb_le in E0. apply Z.ltb_lt in E1.
    apply lookup_ge_None in El. lia.
Qed.

Lemma delete_beyond {A} (l : list A) : forall m, (length l <= m)%nat -> delete m l = l.
Proof.
  induction l as [|x l IH]; intros m H; [reflexivity|].
  destruct m as [|m]; [simpl in H; lia|]. simpl. f_equal. apply IH. simpl in H. lia.
Qed.

(** One round of the loop on boxes that are the kept positions of [l0]. *)
Lemma delete_at_keep_positions s i (P : nat -> bool) l0 :
  boxes s = keep_positions P 0 l0 ->
  (forall j, (Z.of_nat j <= i)%Z -> P j = true) ->
  boxes (delete_at s i)
  = keep_positions (fun j => P j && negb (bool_decide (Z.of_nat j = i))) 0 l0.
Proof.
  intros Hb HP. rewrite boxes_delete_at, Hb.
  destruct (Z_lt_le_dec i 0) as [Hneg|Hpos].
  - destruct (0 <=? i)%Z eqn:E0; [apply Z.leb_le in E0; lia|]. simpl.
    apply keep_positions_ext. intros j _; cbv beta.
    rewrite bool_decide_eq_false_2 by lia. rewrite andb_true_r. reflexivity.
  - assert (Hd : delete (Z.to_nat i) (keep_positions P 0 l0)
                 = keep_positions (fun j => P j && negb (bool_decide (Z.of_nat j = i))) 0 l0).
    { rewrite delete_keep_positions by (intros j Hj; apply HP; lia).
      apply keep_positions_ext. intros j _; cbv beta. f_equal. f_equal.
      destruct (Nat.eqb_spec j (0 + Z.to_nat i)) as [E|E].
      - rewrite bool_decide_eq_true_2 by lia. reflexivity.
      - rewrite bool_decide_eq_false_2 by lia. reflexivity. }
    destruct ((0 <=? i) && (i <? Z.of_nat (length (keep_positions P 0 l0))))%Z eqn:E;
      [exact Hd|].
    rewrite <- Hd. symmetry. apply delete_beyond.
    apply andb_false_iff in E as [E|E];
      [apply Z.leb_gt in E; lia | apply Z.ltb_ge in E; lia].
Qed.

Lemma fold_delete_at_keep_positions L : forall s (P : nat -> bool) l0,
  StronglySorted (fun a b => (b < a)%Z) L ->
  boxes s = keep_positions P 0 l0 ->
  (forall i j, i ∈ L -> (Z.of_nat j <= i)%Z -> P j = true) ->
  boxes (fold_left delete_at L s)
  = keep_positions (fun j => P j && negb (bool_decide (Z.of_nat j ∈ L))) 0 l0.
Proof.
  induction L as [|i L IH]; intros s P l0 Hs Hb HP.
  - cbn [fold_left]. rewrite Hb. apply keep_positions_ext. intros j _; cbv beta.
    rewrite bool_decide_eq_false_2 by (apply not_elem_of_nil). rewrite andb_true_r.
    reflexivity.
  - apply StronglySorted_inv in Hs as (Hs & Hlt). cbn [fold_left].
    rewrite (IH (delete_at s i)
               (fun j => P j && negb (bool_decide (Z.of_nat j = i))) l0 Hs).
    + apply keep_positions_ext. intros j _; cbv beta. rewrite <- andb_assoc. f_equal.
      rewrite <- negb_orb. f_equal.
      destruct (decide (Z.of_nat j = i)) as [E|E].
      * rewrite (bool_decide_eq_true_2 _ E). simpl.
        symmetry. apply bool_decide_eq_true_2. rewrite E. apply list_elem_of_here.
      * rewrite (bool_decide_eq_false_2 _ E). simpl.
        apply bool_decide_ext. rewrite elem_of_cons. tauto.
    + apply delete_at_keep_positions; [exact Hb|].
      intros j Hj. apply (HP i j); [apply list_elem_of_here | exact Hj].
    + intros i' j Hi' Hj. rewrite (HP i' j) by (try apply list_elem_of_further; assumption).
      rewrite Forall_forall in Hlt. specialize (Hlt i' Hi').
      rewrite bool_decide_eq_false_2 by lia. reflexivity.
Qed.

Lemma sorted_reverse_strict indices :
  NoDup indices -> StronglySorted (fun a b => (b < a)%Z) (sorted_reverse indices).
Proof.
  intros Hnd. unfold sorted_reverse.
  assert (Hs : StronglySorted (flip Z.le) (merge_sort (flip Z.le) indices)).
  { apply StronglySorted_merge_sort.
    - intros x y z. unfold flip. lia.
    - intros x y. unfold flip. lia. }
  assert (Hn : NoDup (merge_sort (flip Z.le) indices)).
  { rewrite merge_sort_Permutation. exact Hnd. }
  induction Hs as [|i L Hs IH Hall]; [constructor|].
  apply NoDup_cons in Hn as (Hni & Hn). constructor; [apply IH; exact Hn|].
  rewrite Forall_forall in *. intros y Hy. specialize (Hall y Hy). unfold flip in Hall.
  assert (y <> i) by (intros ->; contradiction). lia.
Qed.

Lemma delete_selected_boxes_boxes s indices :
  NoDup indices ->
  boxes (delete_selected_boxes s indices)
  = keep_positions (fun j => negb (bool_decide (Z.of_nat j ∈ indices))) 0 (boxes s).
Proof.
  intros Hnd. unfold delete_selected_boxes. cbn [boxes set_selected_box].
  rewrite (fold_delete_at_keep_positions (sorted_reverse indices) (save_state s)
             (fun _ => true) (boxes s)).
  - apply keep_positions_ext. intros j _; cbv beta. simpl. f_equal.
    apply bool_decide_ext. unfold sorted_reverse. rewrite merge_sort_Permutation.
    reflexivity.
  - apply sorted_reverse_strict, Hnd.
  - simpl. symmetry. apply keep_positions_all. reflexivity.
  - reflexivity.
Qed.

(** X8. Deleting by position.  Given indices without repetition, in any
    order, [delete_selected_boxes] removes the boxes at exactly these
    positions and keeps the others in their order; indices that are negative
    or beyond the last box count for nothing.  The state before is on the
    undo stack. *)
Theorem delete_removes_selected_positions :
  forall (s : AnnotationScene.t) (indices : list Z),
    NoDup indices ->
    let s' := delete_selected_boxes s indices in
    boxes s'
    = keep_positions (fun j => negb (bool_decide (Z.of_nat j ∈ indices))) 0 (boxes s)
    /\ (forall indices' : list Z,
           indices' ≡ₚ indices ->
           boxes (delete_selected_boxes s indices') = boxes s')
    /\ undo_stack s' = copy_state (boxes s) :: undo_stack s
    /\ redo_stack s' = [].
Proof.
  intros s indices Hnd s'. split; [apply delete_selected_boxes_boxes, Hnd|].
  split; [|apply (delete_selected_boxes_snapshotting s indices)].
  intros indices' Hp. subst s'.
  rewrite !delete_selected_boxes_boxes by (try rewrite Hp; exact Hnd).
  apply keep_positions_ext. intros j _; cbv beta. f_equal. apply bool_decide_ext.
  rewrite Hp. reflexivity.
Qed.

Lemma delete_removes_selected_positions_witness :
  map BoundingBox.class_id
      (boxes (delete_selected_boxes Examples.three_boxes [1; -4; 0; 9]%Z))
  = [7%Z].
Proof.
  destruct (delete_removes_selected_positions Examples.three_boxes [1; -4; 0; 9]%Z)
    as (H & _).
  - apply (bool_decide_unpack _). vm_compute. exact I.
  - rewrite H. vm_compute. reflexivity.
Defined.

Lemma sorted_reverse_remove_dups_NoDup rows : NoDup (sorted_reverse (remove_dups rows)).
Proof.
  unfold sorted_reverse. rewrite merge_sort_Permutation. apply NoDup_remove_dups.
Qed.

Lemma elem_of_sorted_reverse_remove_dups x rows :
  x ∈ sorted_reverse (remove_dups rows) <-> x ∈ rows.
Proof.
  unfold sorted_reverse. rewrite merge_sort_Permutation. apply elem_of_remove_dups.
Qed.

(** X9. Deleting from the annotation list.  Whatever rows are selected, in
    whatever order and however often each, a confirmed
    [delete_selected_annotation] removes exactly the boxes of the selected
    rows and marks the window as changed; when the answer is No, or no row
    is selected, the window stays as it is. *)
Theorem delete_selected_annotation_effect :
  forall (w : MainWindow.t) (selected_rows : list Z),
    delete_selected_annotation w selected_rows false = w
    /\ delete_selected_annotation w [] true = w
    /\ (selected_rows <> [] ->
        let w' := delete_selected_annotation w selected_rows true in
        boxes (scene w')
        = keep_positions (fun j => negb (bool_decide (Z.of_nat j ∈ selected_rows))) 0
            (boxes (scene w))
        /\ undo_stack (scene w')
           = copy_state (boxes (scene w)) :: undo_stack (scene w)
        /\ unsaved_changes w' = true
        /\ class_id_map w' = class_id_map w).
Proof.
  intros w rows. split; [destruct rows; reflexivity|]. split; [reflexivity|].
  intros Hne. destruct rows as [|r rows]; [contradiction|].
  cbv zeta. unfold delete_selected_annotation. cbn [scene set_scene unsaved_changes class_id_map].
  rewrite delete_selected_boxes_boxes by apply sorted_reverse_remove_dups_NoDup.
  split; [|split; [apply (delete_selected_boxes_snapshotting (scene w))|split; reflexivity]].
  apply keep_positions_ext. intros j _; cbv beta. f_equal. apply bool_decide_ext.
  apply elem_of_sorted_reverse_remove_dups.
Qed.
End DeleteMore.

(** ** The class list *)

Section ClassMore.
Import BoundingBox AnnotationScene Props MainWindow.

Lemma indices_of_class_range cid bs : forall i x,
  x ∈ indices_of_class cid i bs -> (i <= x < i + Z.of_nat (length bs))%Z.
Proof.
  induction bs as [|b bs IH]; intros i x Hx; simpl in Hx.
  - apply elem_of_nil in Hx. contradiction.
  - destruct (class_id b =? cid)%Z.
    + apply elem_of_cons in Hx as [->|Hx]; [simpl; lia|].
      apply IH in Hx. simpl. lia.
    + apply IH in Hx. simpl. lia.
Qed.

Lemma indices_of_class_NoDup cid bs : forall i, NoDup (indices_of_class cid i bs).
Proof.
  induction bs as [|b bs IH]; intros i; simpl; [constructor|].
  destruct (class_id b =? cid)%Z; [|apply IH].
  constructor; [|apply IH]. intros Hx. apply indices_of_class_range in Hx. lia.
Qed.

Lemma keep_positions_indices_of_class cid bs : forall k,
  keep_positions
    (fun j => negb (bool_decide (Z.of_nat j ∈ indices_of_class cid (Z.of_nat k) bs))) k bs
  = List.filter (fun b => negb (class_id b =? cid)%Z) bs.
Proof.
  induction bs as [|b bs IH]; intros k; [reflexivity|].
  cbn [keep_positions List.filter indices_of_class].
  assert (Hrest : keep_positions
            (fun j => negb (bool_decide
               (Z.of_nat j ∈ (if (class_id b =? cid)%Z
                              then Z.of_nat k :: indices_of_class cid (Z.of_nat k + 1) bs
                              else indices_of_class cid (Z.of_nat k + 1) bs)))) (S k) bs
          = List.filter (fun b => negb (class_id b =? cid)%Z) bs).
  { rewrite <- (IH (S k)). apply keep_positions_ext. intros j Hj; cbv beta.
    replace (Z.of_nat (S k)) with (Z.of_nat k + 1)%Z by lia.
    f_equal. apply bool_decide_ext.
    destruct (class_id b =? cid)%Z; [|reflexivity].
    rewrite elem_of_cons. split; [intros [E|H]; [lia|exact H] | auto]. }
  rewrite Hrest.
  destruct (class_id b =? cid)%Z eqn:E; cbn [negb].
  - rewrite bool_decide_eq_true_2 by apply list_elem_of_here. reflexivity.
  - rewrite bool_decide_eq_false_2; [reflexivity|].
    intros Hx. apply indices_of_class_range in Hx. lia.
Qed.

Lemma indices_of_class_nil cid bs : forall i,
  indices_of_class cid i bs = [] ->
  List.filter (fun b => negb (class_id b =? cid)%Z) bs = bs.
Proof.
  induction bs as [|b bs IH]; intros i H; [reflexivity|].
  simpl in *. destruct (class_id b =? cid)%Z; [discriminate|].
  simpl. f_equal. apply (IH _ H).
Qed.

Lemma filter_existsb_false cid (bs : list BoundingBox.t) :
  existsb (fun bbox => (class_id bbox =? cid)%Z) bs = false ->
  List.filter (fun b => negb (class_id b =? cid)%Z) bs = bs.
Proof.
  induction bs as [|b bs IH]; [reflexivity|]. simpl.
  intros H. apply orb_false_iff in H as (-> & H). simpl. f_equal. apply IH, H.
Qed.

(** [on_class_changed] only chooses the class to draw with. *)
Lemma on_class_changed_frame w index :
  let w' := on_class_changed w index in
  boxes (scene w') = boxes (scene w)
  /\ undo_stack (scene w') = undo_stack (scene w)
  /\ redo_stack (scene w') = redo_stack (scene w)
  /\ classes w' = classes w
  /\ class_id_map w' = class_id_map w
  /\ unsaved_changes w' = unsaved_changes w.
Proof.
  cbv zeta. unfold on_class_changed.
  destruct ((0 <=? index) && (index <? _))%Z; [|repeat split; reflexivity].
  destruct (sorted_ids (class_id_map w) !! Z.to_nat index) as [cid|];
    [|repeat split; reflexivity].
  destruct (class_id_map w !! cid); [|repeat split; reflexivity].
  unfold set_current_class. destruct (class_colors w !! cid); repeat split; reflexivity.
Qed.

(** The scene and the class map after the class of id [class_id] was taken
    out of [w], before row 0 is selected again. *)
Lemma remove_class_boxes w cid :
  let bs := boxes (scene w) in
  boxes (if existsb (fun bbox => (class_id bbox =? cid)%Z) bs
         then match indices_of_class cid 0 bs with
              | [] => scene w
              | indices_to_remove => delete_selected_boxes (scene w) indices_to_remove
              end
         else scene w)
  = List.filter (fun b => negb (class_id b =? cid)%Z) bs.
Proof.
  cbv zeta.
  destruct (existsb _ (boxes (scene w))) eqn:Ex;
    [|symmetry; apply filter_existsb_false, Ex].
  destruct (indices_of_class cid 0 (boxes (scene w))) as [|i0 is0] eqn:Ei.
  - symmetry. apply (indices_of_class_nil cid _ 0%Z Ei).
  - rewrite <- Ei. rewrite delete_selected_boxes_boxes by apply indices_of_class_NoDup.
    apply (keep_positions_indices_of_class cid (boxes (scene w)) 0).
Qed.

Lemma existsb_indices_of_class cid bs : forall i,
  existsb (fun bbox => (class_id bbox =? cid)%Z) bs = true ->
  indices_of_class cid i bs <> [].
Proof.
  induction bs as [|b bs IH]; intros i H; [discriminate|].
  simpl in *. destruct (class_id b =? cid)%Z; [discriminate|]. apply IH, H.
Qed.

Lemma remove_class_spec w row cid reply :
  (0 <= row)%Z ->
  sorted_ids (class_id_map w) !! Z.to_nat row = Some cid ->
  let in_use := existsb (fun bbox => (class_id bbox =? cid)%Z) (boxes (scene w)) in
  let w' := remove_class w row reply in
  (in_use = true -> reply = false -> w' = w)
  /\ (in_use = false \/ reply = true ->
      class_id_map w' = delete cid (class_id_map w)
      /\ classes w' = classes_of (delete cid (class_id_map w))
      /\ boxes (scene w')
         = List.filter (fun b => negb (class_id b =? cid)%Z) (boxes (scene w))
      /\ unsaved_changes w' = true
      /\ (in_use = true ->
          undo_stack (scene w') = copy_state (boxes (scene w)) :: undo_stack (scene w))).
Proof.
  intros Hrow Hlook in_use w'. subst w'. unfold remove_class.
  assert (Hlen : (row < Z.of_nat (length (sorted_ids (class_id_map w))))%Z).
  { apply lookup_lt_Some in Hlook. lia. }
  destruct (row <? 0)%Z eqn:E0; [apply Z.ltb_lt in E0; lia|].
  destruct (Z.of_nat (length (sorted_ids (class_id_map w))) <=? row)%Z eqn:E1;
    [apply Z.leb_le in E1; lia|].
  cbn [orb]. rewrite Hlook. fold in_use. split.
  - intros -> ->. reflexivity.
  - intros Hgo.
    assert (Hc : in_use && negb reply = false)
      by (destruct Hgo as [-> | ->]; [reflexivity | apply andb_false_r]).
    rewrite Hc.
    pose proof (remove_class_boxes w cid) as Hb. cbv zeta in Hb. fold in_use in Hb.
    match goal with
    | |- context [match classes ?x with [] => _ | _ => _ end] => set (w1 := x)
    end.
    assert (H1 : class_id_map w1 = delete cid (class_id_map w)
                 /\ classes w1 = classes_of (delete cid (class_id_map w))
                 /\ boxes (scene w1)
                    = List.filter (fun b => negb (class_id b =? cid)%Z)
                        (boxes (scene w))
                 /\ unsaved_changes w1 = true
                 /\ (in_use = true ->
                     undo_stack (scene w1)
                     = copy_state (boxes (scene w)) :: undo_stack (scene w))).
    { subst w1. cbn [class_id_map classes scene unsaved_changes]. rewrite Hb.
      repeat split. intros Hu. rewrite Hu.
      pose proof (existsb_indices_of_class cid (boxes (scene w)) 0%Z Hu) as Hne.
      destruct (indices_of_class cid 0 (boxes (scene w))) as [|i0 is0]; [contradiction|].
      apply (delete_selected_boxes_snapshotting (scene w)). }
    match goal with
    | |- context [match classes w1 with [] => _ | _ => _ end] =>
        set (w2 := match classes w1 with [] => w1 | _ => on_class_changed w1 0 end)
    end.
    assert (Hcase : w2 = w1 \/ w2 = on_class_changed w1 0)
      by (subst w2; destruct (classes w1); auto).
    destruct Hcase as [-> | ->]; [exact H1|].
    destruct (on_class_changed_frame w1 0) as (Fb & Fs & _ & Fc & Fm & Fu).
    rewrite Fb, Fs, Fc, Fm, Fu. exact H1.
Qed.

(** X10. Removing a class.  When the selected row holds the class of id
    [class_id]: if boxes of that class exist and the answer is No, nothing
    changes and the class stays; otherwise the class leaves the map, the
    class list is rebuilt from the map, every box of that class is removed
    and all other boxes stay in their order. *)
Theorem remove_class_cascade :
  forall (w : MainWindow.t) (current_row class_id : Z) (reply_yes : bool),
    (0 <= current_row)%Z ->
    sorted_ids (class_id_map w) !! Z.to_nat current_row = Some class_id ->
    let in_use :=
      existsb (fun bbox => (BoundingBox.class_id bbox =? class_id)%Z)
              (boxes (scene w)) in
    let w' := remove_class w current_row reply_yes in
    (in_use = true -> reply_yes = false -> w' = w)
    /\ (in_use = false \/ reply_yes = true ->
        class_id_map w' = delete class_id (class_id_map w)
        /\ classes w' = classes_of (delete class_id (class_id_map w))
        /\ boxes (scene w')
           = List.filter (fun b => negb (BoundingBox.class_id b =? class_id)%Z)
               (boxes (scene w))
        /\ unsaved_changes w' = true).
Proof.
  intros w row cid reply Hrow Hlook in_use w'.
  destruct (remove_class_spec w row cid reply Hrow Hlook) as (Hno & Hyes).
  split; [exact Hno|]. intros Hgo.
  destruct (Hyes Hgo) as (Hm & Hc & Hb & Hu & _). auto.
Qed.

Lemma remove_class_cascade_witness :
  let w' := remove_class Examples.crab_fish_window 0 true in
  classes w' = ["fish"%string]
  /\ map BoundingBox.class_id (boxes (scene w')) = [7%Z].
Proof.
  cbv zeta.
  destruct (remove_class_cascade Examples.crab_fish_window 0 2 true) as (_ & H).
  - lia.
  - vm_compute. reflexivity.
  - destruct H as (_ & Hc & Hb & _); [right; reflexivity|].
    rewrite Hc, Hb. split; vm_compute; reflexivity.
Defined.

(** X11. Undo after removing a class.  When a class in use was removed with
    its boxes, one [undo_action] brings all boxes back, with their
    rectangles, class ids and class names, but not the class: its id stays
    out of the class map. *)
Theorem undo_after_remove_class :
  forall (w : MainWindow.t) (current_row class_id : Z),
    (0 <= current_row)%Z ->
    sorted_ids (class_id_map w) !! Z.to_nat current_row = Some class_id ->
    existsb (fun bbox => (BoundingBox.class_id bbox =? class_id)%Z)
            (boxes (scene w)) = true ->
    let w'' := undo_action (remove_class w current_row true) in
    map Session.geometry_class (boxes (scene w''))
    = map Session.geometry_class (boxes (scene w))
    /\ class_id_map w'' !! class_id = None
    /\ undo_stack (scene w'') = undo_stack (scene w).
Proof.
  intros w row cid Hrow Hlook Huse w''.
  destruct (remove_class_spec w row cid true Hrow Hlook) as (_ & Hyes).
  destruct Hyes as (Hm & _ & _ & _ & Hu); [right; reflexivity|].
  specialize (Hu Huse). subst w''. unfold undo_action.
  pose proof (undo_step_spec (scene (remove_class w row true))) as Hs.
  rewrite Hu in Hs. destruct Hs as (Hd & Hus & _ & Hg).
  destruct (undo (scene (remove_class w row true))) as [done sc].
  simpl in Hd, Hus, Hg. subst done. cbn [scene set_scene class_id_map].
  rewrite Hg, Hus, Hm, geometry_class_copy_state.
  repeat split. apply lookup_delete_eq.
Qed.

Lemma undo_after_remove_class_witness :
  let w'' := undo_action (remove_class Examples.crab_fish_window 0 true) in
  map BoundingBox.class_id (boxes (scene w'')) = [2; 2; 7]%Z
  /\ class_id_map w'' !! 2%Z = None.
Proof.
  cbv zeta.
  destruct (undo_after_remove_class Examples.crab_fish_window 0 2) as (Hg & Hm & _).
  - lia.
  - vm_compute. reflexivity.
  - vm_compute. reflexivity.
  - split; [|exact Hm].
    apply (f_equal (map (fun g => snd (fst g)))) in Hg.
    rewrite !map_map in Hg. exact Hg.
Defined.
End ClassMore.

Section AddClassMore.
Import BoundingBox AnnotationScene Props MainWindow.

Lemma elem_of_values (m : gmap Z string) (n : string) :
  n ∈ values m <-> exists i, m !! i = Some n.
Proof.
  unfold values. rewrite list_elem_of_fmap. split.
  - intros ([i n'] & -> & Hin). exists i. apply elem_of_map_to_list in Hin. exact Hin.
  - intros (i & Hi). exists (i, n). split; [reflexivity|].
    apply elem_of_map_to_list. exact Hi.
Qed.

Lemma get_box_color_set_class_color s cid c :
  get_box_color (set_class_color s cid c) cid = c.
Proof.
  unfold get_box_color, set_class_color. simpl. rewrite lookup_insert_eq. reflexivity.
Qed.

(** X12. Adding a class.  A name that is empty, or that after stripping is
    already the name of a class, changes nothing.  Otherwise the class map
    takes the stripped name under the chosen id, replacing the name the id
    had; every other id keeps its name; the names stay distinct; new boxes of
    that id are drawn in the chosen colour; and the boxes are not touched. *)
Theorem add_class_effect :
  forall (w : MainWindow.t) (class_name : string) (class_id : Z) (color : QColor),
    let w' := add_class w true class_name true class_id (Some color) in
    let name := PyStr.strip class_name in
    (class_name = EmptyString \/ name ∈ values (class_id_map w) -> w' = w)
    /\ (class_name <> EmptyString -> name ∉ values (class_id_map w) ->
        class_id_map w' !! class_id = Some name
        /\ (forall i, i <> class_id -> class_id_map w' !! i = class_id_map w !! i)
        /\ classes w' = classes_of (class_id_map w')
        /\ (names_unique (class_id_map w) -> names_unique (class_id_map w'))
        /\ get_box_color (scene w') class_id = color
        /\ boxes (scene w') = boxes (scene w)).
Proof.
  intros w class_name cid color w' name. subst w'. unfold add_class. cbn [negb orb].
  fold name. split.
  - intros [-> | Hin]; [reflexivity|].
    destruct (bool_decide (class_name = EmptyString)); [reflexivity|].
    rewrite (bool_decide_eq_true_2 _ Hin). reflexivity.
  - intros Hne Hnin.
    rewrite (bool_decide_eq_false_2 _ Hne), (bool_decide_eq_false_2 _ Hnin).
    cbn [negb class_id_map classes scene].
    split; [apply lookup_insert_eq|].
    split; [intros i Hi; apply lookup_insert_ne; congruence|].
    split; [reflexivity|].
    split; [|split; [apply get_box_color_set_class_color | reflexivity]].
    intros Huniq i j n Hi Hj.
    destruct (decide (i = cid)) as [->|Hic], (decide (j = cid)) as [->|Hjc];
      [reflexivity| | |].
    + rewrite lookup_insert_eq in Hi. rewrite lookup_insert_ne in Hj by congruence.
      exfalso. apply Hnin. apply elem_of_values. exists j. congruence.
    + rewrite lookup_insert_eq in Hj. rewrite lookup_insert_ne in Hi by congruence.
      exfalso. apply Hnin. apply elem_of_values. exists i. congruence.
    + rewrite lookup_insert_ne in Hi, Hj by congruence. apply (Huniq i j n Hi Hj).
Qed.
End AddClassMore.

(** ** Writing the annotation file and reading it back *)

Section SaveLoad.
Import PyStr Dec PyNum BoundingBox AnnotationScene Codec Props MainWindow.

Lemma no_newline_no_space s : no_space s = true -> no_newline s = true.
Proof.
  induction s as [|c s IH]; [reflexivity|]. simpl. intros H.
  apply andb_true_iff in H as (Hc & Hs). rewrite (IH Hs), andb_true_r.
  destruct (Ascii.eqb_spec c "010"%char) as [->|_]; [discriminate Hc|].
  destruct (Ascii.eqb_spec c "013"%char) as [->|_]; [discriminate Hc | reflexivity].
Qed.

Lemma no_newline_append s1 s2 :
  no_newline (String.append s1 s2) = no_newline s1 && no_newline s2.
Proof.
  induction s1 as [|c s IH]; [reflexivity|].
  rewrite append_cons. cbn [no_newline]. rewrite IH. apply andb_assoc.
Qed.

Lemma lines_go_char c cur r :
  Ascii.eqb c "010"%char = false -> Ascii.eqb c "013"%char = false ->
  lines_go cur (String c r) = lines_go (String.append cur (String c EmptyString)) r.
Proof. intros H H'. cbn [lines_go]. rewrite H, H'. reflexivity. Qed.

Lemma lines_go_line l : forall cur rest,
  no_newline l = true ->
  lines_go cur (String.append l (String.append newline rest))
  = String.append cur l :: lines_go EmptyString rest.
Proof.
  induction l as [|c l IH]; intros cur rest Hl.
  - rewrite append_nil_l, append_nil_r. reflexivity.
  - cbn [no_newline] in Hl. apply andb_true_iff in Hl as (Hc & Hl).
    apply andb_true_iff in Hc as (Hc & Hc').
    apply negb_true_iff in Hc. apply negb_true_iff in Hc'.
    rewrite append_cons, (lines_go_char c cur _ Hc Hc'), (IH _ _ Hl), append_assoc.
    reflexivity.
Qed.

Lemma round_half_even_int q n : (q == inject_Z n)%Q -> round_half_even q = n.
Proof.
  intros Hq. unfold Qeq in Hq. simpl in Hq. unfold round_half_even. cbv zeta.
  assert (Hn : Qnum q = n * Z.pos (Qden q)) by lia.
  rewrite Hn, Z.div_mul, Z.mod_mul by lia.
  destruct (2 * 0 <? Z.pos (Qden q)) eqn:E; [reflexivity|].
  apply Z.ltb_ge in E. lia.
Qed.

(** Formatting is stable on what it has written: a value equal to the
    number read back from the text of [v] is written as [v] was. *)
Lemma format_6f_stable v u :
  (0 <= v <= 1)%Q ->
  (u == Qmake (round_half_even (Qabs v * 1000000)) 1000000)%Q ->
  format_6f (clamp01 u) = format_6f v.
Proof.
  intros Hv Hu. set (n := round_half_even (Qabs v * 1000000)) in *.
  assert (Hn0 : 0 <= n).
  { apply round_half_even_nonneg. rewrite Qabs_pos by apply Hv.
    apply Qmult_le_0_compat; [apply Hv | discriminate]. }
  assert (Hn1 : n <= 1000000).
  { apply round_half_even_le. rewrite Qabs_pos by apply Hv.
    change (inject_Z 1000000) with (1 * 1000000)%Q.
    apply Qmult_le_compat_r; [apply Hv | discriminate]. }
  assert (Hu01 : (0 <= u <= 1)%Q).
  { rewrite Hu. unfold Qle. simpl. lia. }
  destruct (clamp01_cases u) as (_ & _ & Hc). specialize (Hc Hu01).
  assert (Hr : round_half_even (Qabs (clamp01 u) * 1000000) = n).
  { apply round_half_even_int.
    rewrite Qabs_pos by (rewrite Hc; apply Hu01).
    rewrite Hc, Hu. unfold Qeq. simpl. lia. }
  unfold format_6f. rewrite Hr. fold n.
  assert (H1 : Qltb (clamp01 u) 0 = false)
    by (apply Qltb_ge; rewrite Hc; apply Hu01).
  assert (H2 : Qltb v 0 = false) by (apply Qltb_ge; apply Hv).
  rewrite H1, H2. reflexivity.
Qed.

Lemma from_yolo_format_strip pi pf line W H name :
  from_yolo_format pi pf (strip line) W H name = from_yolo_format pi pf line W H name.
Proof. unfold from_yolo_format. rewrite split_strip. reflexivity. Qed.

(** One field of a written line, read back. *)
Lemma field_read_back v :
  (0 <= v <= 1)%Q ->
  let n := round_half_even (Qabs v * 1000000) in
  py_float_dec (format_6f v) = Some (Qmake n 1000000)
  /\ (Qabs (Qmake n 1000000 - v) <= 1 # 2000000)%Q.
Proof.
  intros Hv n.
  destruct (format_6f_nonneg v) as (_ & Hp & _); [apply Hv|]. cbv zeta in Hp. fold n in Hp.
  destruct (format_6f_six_decimals v Hv) as ((n' & Hp' & _ & Hc & _) & _).
  rewrite Hp in Hp'. injection Hp' as <-. split; assumption.
Qed.

(** The line written for a box and the box read back from it. *)
Lemma decode_encode b W H name :
  (0 < W)%Z -> (0 < H)%Z ->
  exists line b',
    to_yolo_format b W H = Some line
    /\ no_newline line = true
    /\ (exists t1 t2 t3 t4, split line = [str_int (class_id b); t1; t2; t3; t4])
    /\ from_yolo_format py_int_dec py_float_dec line W H name = Some b'
    /\ graphics_item b' = None
    /\ class_id b' = class_id b /\ class_name b' = name /\ color b' = None
    /\ within_abs (1 # 2000000) (x_center b' W) (clamp01 (x_center b W))
    /\ within_abs (1 # 2000000) (y_center b' H) (clamp01 (y_center b H))
    /\ within_abs (1 # 2000000) (norm_width b' W) (clamp01 (norm_width b W))
    /\ within_abs (1 # 2000000) (norm_height b' H) (clamp01 (norm_height b H))
    /\ to_yolo_format b' W H = Some line.
Proof.
  intros HW HH.
  destruct (to_yolo_format_tokens b W H) as (Henc & Hsplit); [lia | lia |].
  cbv zeta in Henc, Hsplit.
  pose proof (clamp01_range (x_center b W)) as Rx.
  pose proof (clamp01_range (y_center b H)) as Ry.
  pose proof (clamp01_range (norm_width b W)) as Rw.
  pose proof (clamp01_range (norm_height b H)) as Rh.
  destruct (field_read_back _ Rx) as (Px & Cx).
  destruct (field_read_back _ Ry) as (Py & Cy).
  destruct (field_read_back _ Rw) as (Pw & Cw).
  destruct (field_read_back _ Rh) as (Ph & Ch).
  set (nx := round_half_even (Qabs (clamp01 (x_center b W)) * 1000000)) in *.
  set (ny := round_half_even (Qabs (clamp01 (y_center b H)) * 1000000)) in *.
  set (nw := round_half_even (Qabs (clamp01 (norm_width b W)) * 1000000)) in *.
  set (nh := round_half_even (Qabs (clamp01 (norm_height b H)) * 1000000)) in *.
  destruct (decoded_fields (Qmake nx 1000000) (Qmake ny 1000000)
              (Qmake nw 1000000) (Qmake nh 1000000) W H (class_id b) name HW HH)
    as (Ex & Ey & Ew & Eh).
  eexists. eexists. split; [exact Henc|].
  split.
  { cbn [join]. rewrite !no_newline_append.
    destruct (no_space_str_int (class_id b)) as (N0 & _).
    destruct (format_6f_six_decimals _ Rx) as (_ & N1 & _).
    destruct (format_6f_six_decimals _ Ry) as (_ & N2 & _).
    destruct (format_6f_six_decimals _ Rw) as (_ & N3 & _).
    destruct (format_6f_six_decimals _ Rh) as (_ & N4 & _).
    rewrite (no_newline_no_space _ N0), (no_newline_no_space _ N1),
      (no_newline_no_space _ N2), (no_newline_no_space _ N3),
      (no_newline_no_space _ N4).
    reflexivity. }
  split; [eauto|].
  unfold from_yolo_format. rewrite split_strip, Hsplit.
  rewrite py_int_dec_str_int, Px, Py, Pw, Ph. cbn [mbind option_bind].
  split; [reflexivity|]. unfold BoundingBox.init.
  split; [reflexivity|]. split; [reflexivity|]. split; [reflexivity|].
  split; [reflexivity|].
  unfold within_abs.
  split; [rewrite Ex; exact Cx|]. split; [rewrite Ey; exact Cy|].
  split; [rewrite Ew; exact Cw|]. split; [rewrite Eh; exact Ch|].
  rewrite <- Henc.
  destruct (to_yolo_format_tokens
              (BoundingBox.mk
                 (mkRect (Qmake nx 1000000 * inject_Z W - Qmake nw 1000000 * inject_Z W / 2)
                         (Qmake ny 1000000 * inject_Z H - Qmake nh 1000000 * inject_Z H / 2)
                         (Qmake nw 1000000 * inject_Z W) (Qmake nh 1000000 * inject_Z H))
                 (class_id b) name None None) W H) as (Henc' & _); [lia | lia |].
  cbv zeta in Henc'. rewrite Henc', Henc. cbn [class_id].
  rewrite (format_6f_stable _ _ Rx Ex), (format_6f_stable _ _ Ry Ey),
    (format_6f_stable _ _ Rw Ew), (format_6f_stable _ _ Rh Eh).
  reflexivity.
Qed.

(** Reading the line written for [b] appends one box that reloads as [b]. *)
Lemma load_line_encoded m s b line :
  (0 < image_width s)%Z -> (0 < image_height s)%Z ->
  to_yolo_format b (image_width s) (image_height s) = Some line ->
  exists b',
    load_line py_int_dec py_float_dec m s line
    = Some (set_boxes (snd (addItem s (mkItem (rect b') (mkPoint 0 0))))
              (boxes s ++ [b']))
    /\ graphics_item b' = Some (next_item s)
    /\ reloads_as (image_width s) (image_height s) m b' b.
Proof.
  intros HW HH Henc.
  destruct (decode_encode b (image_width s) (image_height s)
              (class_name_of m (class_id b)) HW HH)
    as (line' & b' & Henc' & _ & (t1 & t2 & t3 & t4 & Hsplit) & Hdec & Hg & Hid & Hn
        & Hcol & Cx & Cy & Cw & Ch & Hre).
  rewrite Henc in Henc'. injection Henc' as <-.
  exists (set_graphics_item b' (Some (next_item s))).
  split; [|split; [reflexivity|]].
  - unfold load_line.
    destruct (strip line) eqn:Hs;
      [apply strip_empty_split in Hs; rewrite Hsplit in Hs; discriminate|].
    rewrite <- Hs, split_strip, Hsplit, py_int_dec_str_int.
    rewrite from_yolo_format_strip. fold (class_name_of m (class_id b)).
    rewrite Hdec. reflexivity.
  - assert (Hsame : to_yolo_format (set_graphics_item b' (Some (next_item s)))
                      (image_width s) (image_height s)
                    = to_yolo_format b' (image_width s) (image_height s))
      by reflexivity.
    unfold reloads_as. rewrite Hsame, Hre, Henc. repeat split; assumption.
Qed.

Lemma load_line_encoded_frame s it bs :
  let s' := set_boxes (snd (addItem s it)) bs in
  image_width s' = image_width s /\ image_height s' = image_height s
  /\ undo_stack s' = undo_stack s /\ redo_stack s' = redo_stack s.
Proof. repeat split. Qed.

(** The text [write_boxes] appends for the boxes [bs], line by line. *)
Lemma write_boxes_lines bs W H : forall written,
  (0 < W)%Z -> (0 < H)%Z ->
  exists lines,
    Forall2 (fun b line => to_yolo_format b W H = Some line /\ no_newline line = true)
      bs lines
    /\ write_boxes bs W H written
       = FileWritten
           (String.append written
              (join EmptyString (map (fun line => String.append line newline) lines)))
    /\ PyStr.lines (join EmptyString (map (fun line => String.append line newline) lines))
       = lines.
Proof.
  induction bs as [|b bs IH]; intros written HW HH.
  - exists []. split; [constructor|]. split; [|reflexivity].
    simpl. rewrite append_nil_r. reflexivity.
  - destruct (decode_encode b W H EmptyString HW HH)
      as (line & _ & Henc & Hnl & _).
    destruct (IH (String.append written (String.append line newline)) HW HH)
      as (lines & Hall & Hw & Hl).
    exists (line :: lines). split; [constructor; [split; assumption | exact Hall]|].
    assert (Hj : join EmptyString
                   (map (fun line => String.append line newline) (line :: lines))
                 = String.append line
                     (String.append newline
                        (join EmptyString
                           (map (fun line => String.append line newline) lines)))).
    { cbn [map join]. destruct (map _ lines) eqn:E.
      - cbn [join]. rewrite append_nil_r. reflexivity.
      - rewrite append_nil_l, append_assoc. reflexivity. }
    split.
    + cbn [write_boxes]. rewrite Henc, Hw, Hj, !append_assoc. reflexivity.
    + rewrite Hj. unfold PyStr.lines in *. rewrite (lines_go_line _ _ _ Hnl), Hl.
      reflexivity.
Qed.

(** Reading the lines written for [bs]. *)
Lemma load_lines_encoded m bs : forall s lines,
  (0 < image_width s)%Z -> (0 < image_height s)%Z ->
  Forall2 (fun b line =>
             to_yolo_format b (image_width s) (image_height s) = Some line
             /\ no_newline line = true) bs lines ->
  exists s' bs',
    load_lines py_int_dec py_float_dec m s lines = Loaded s'
    /\ boxes s' = boxes s ++ bs'
    /\ Forall2 (reloads_as (image_width s) (image_height s) m) bs' bs
    /\ image_width s' = image_width s /\ image_height s' = image_height s
    /\ undo_stack s' = undo_stack s /\ redo_stack s' = redo_stack s.
Proof.
  induction bs as [|b bs IH]; intros s lines HW HH Hall.
  - apply Forall2_nil_inv_l in Hall as ->. exists s, [].
    rewrite app_nil_r. repeat split. constructor.
  - apply Forall2_cons_inv_l in Hall as (line & rest & (Henc & _) & Hall & ->).
    destruct (load_line_encoded m s b line HW HH Henc) as (b' & Hl & _ & Hrel).
    set (s1 := set_boxes (snd (addItem s (mkItem (rect b') (mkPoint 0 0))))
                 (boxes s ++ [b'])) in *.
    destruct (IH s1 rest HW HH Hall)
      as (s' & bs' & Hls & Hb & Hrels & Hw & Hh & Hu & Hr).
    exists s', (b' :: bs'). cbn [load_lines]. rewrite Hl, Hls.
    split; [reflexivity|]. split; [rewrite Hb; subst s1; cbn [boxes set_boxes];
                                     rewrite <- app_assoc; reflexivity|].
    split; [constructor; assumption|]. auto.
Qed.

(** X13. Saving and reading back.  With an image of positive size open and
    at least one box, [save_annotations] writes the file and clears the
    unsaved flag; [load_annotations] on the lines of that file, for a scene
    of the same image size, runs to the end and appends one box per box
    saved, in order: each with the class id of its original, the name the
    class map gives that id, and every normalized field within 5e-7 of the
    clamped field of the original.  History is not touched by the load. *)
Theorem save_load_round_trip :
  forall (w : MainWindow.t) (s0 : AnnotationScene.t) (m : gmap Z string)
         (image_path : string),
    current_image_path w = Some image_path ->
    boxes (scene w) <> [] ->
    (0 < image_width (scene w))%Z -> (0 < image_height (scene w))%Z ->
    image_width s0 = image_width (scene w) ->
    image_height s0 = image_height (scene w) ->
    exists (text : string) (s' : AnnotationScene.t) (bs' : list BoundingBox.t),
      save_annotations w = (FileWritten text, set_scene w (scene w) false)
      /\ load_annotations py_int_dec py_float_dec m s0 (Some (PyStr.lines text))
         = Loaded s'
      /\ boxes s' = boxes s0 ++ bs'
      /\ Forall2 (reloads_as (image_width s0) (image_height s0) m) bs' (boxes (scene w))
      /\ undo_stack s' = undo_stack s0 /\ redo_stack s' = redo_stack s0.
Proof.
  intros w s0 m path Hp Hne HW HH EW EH.
  destruct (write_boxes_lines (boxes (scene w)) (image_width (scene w))
              (image_height (scene w)) EmptyString HW HH) as (lines & Hall & Hw & Hl).
  rewrite append_nil_l in Hw.
  rewrite <- EW, <- EH in Hall. rewrite <- EW in HW. rewrite <- EH in HH.
  destruct (load_lines_encoded m (boxes (scene w)) s0 lines HW HH Hall)
    as (s' & bs' & Hls & Hb & Hrel & _ & _ & Hu & Hr).
  eexists. exists s', bs'. split.
  - unfold save_annotations. rewrite Hp.
    destruct (boxes (scene w)) eqn:Eb; [contradiction|]. rewrite Hw. reflexivity.
  - cbn [load_annotations]. rewrite Hl. auto.
Qed.

Lemma save_load_round_trip_witness :
  exists (text : string) (s' : AnnotationScene.t) (bs' : list BoundingBox.t),
    save_annotations Examples.crab_fish_window
    = (FileWritten text,
       set_scene Examples.crab_fish_window (scene Examples.crab_fish_window) false)
    /\ load_annotations py_int_dec py_float_dec Examples.crab_fish
         (set_image AnnotationScene.init 1000 500) (Some (PyStr.lines text))
       = Loaded s'
    /\ boxes s' = boxes (set_image AnnotationScene.init 1000 500) ++ bs'
    /\ Forall2 (reloads_as 1000 500 Examples.crab_fish) bs'
         (boxes (scene Examples.crab_fish_window))
    /\ undo_stack s' = undo_stack (set_image AnnotationScene.init 1000 500)
    /\ redo_stack s' = redo_stack (set_image AnnotationScene.init 1000 500).
Proof.
  apply (save_load_round_trip Examples.crab_fish_window
           (set_image AnnotationScene.init 1000 500) Examples.crab_fish "a.png");
    [reflexivity | vm_compute; discriminate | reflexivity | reflexivity
    | reflexivity | reflexivity].
Defined.

Lemma write_boxes_ext W H bs' : forall bs written,
  Forall2 (fun b' b => to_yolo_format b' W H = to_yolo_format b W H) bs' bs ->
  write_boxes bs' W H written = write_boxes bs W H written.
Proof.
  induction bs' as [|b' bs' IH]; intros bs written Hall.
  - apply Forall2_nil_inv_l in Hall as ->. reflexivity.
  - apply Forall2_cons_inv_l in Hall as (b & rest & Hb & Hall & ->).
    cbn [write_boxes]. rewrite Hb. destruct (to_yolo_format b W H); [|reflexivity].
    apply IH, Hall.
Qed.

(** X14. Saving again after reopening.  When the file written by
    [save_annotations] is what [load_image] finds on opening an image of the
    same size (the question about leaving the boxes not being answered by
    Cancel), the window holds as many boxes as before and saving writes the
    same text again: the annotation file does not drift. *)
Theorem resave_is_stable :
  forall (w : MainWindow.t) (image_path next_path : string) (reply : answer),
    reply <> Cancel ->
    current_image_path w = Some image_path ->
    boxes (scene w) <> [] ->
    (0 < image_width (scene w))%Z -> (0 < image_height (scene w))%Z ->
    exists text : string,
      fst (save_annotations w) = FileWritten text
      /\ let w' := load_image py_int_dec py_float_dec w next_path reply
                     (Some (image_width (scene w), image_height (scene w)))
                     (Some (PyStr.lines text)) in
         length (boxes (scene w')) = length (boxes (scene w))
         /\ save_annotations w' = (FileWritten text, w').
Proof.
  intros w path npath reply Hreply Hp Hne HW HH.
  set (W := image_width (scene w)) in *. set (H := image_height (scene w)) in *.
  destruct (write_boxes_lines (boxes (scene w)) W H EmptyString HW HH)
    as (lines & Hall & Hw & Hl).
  rewrite append_nil_l in Hw.
  set (s0 := set_image (scene w) W H).
  destruct (load_lines_encoded (class_id_map w) (boxes (scene w)) s0 lines HW HH Hall)
    as (s' & bs' & Hls & Hb & Hrel & Hw' & Hh' & _).
  change (boxes s0) with (@nil BoundingBox.t) in Hb. rewrite app_nil_l in Hb.
  change (image_width s0) with W in *. change (image_height s0) with H in *.
  eexists. split.
  { unfold save_annotations. rewrite Hp.
    destruct (boxes (scene w)) eqn:Eb; [contradiction|]. fold W H. rewrite Hw.
    reflexivity. }
  cbv zeta.
  assert (Hload : load_image py_int_dec py_float_dec w npath reply (Some (W, H))
                    (Some (PyStr.lines
                             (join EmptyString
                                (map (fun line => String.append line newline) lines))))
                  = MainWindow.mk s' (classes w) (class_id_map w) (MainWindow.class_colors w)
                      (image_files w) (current_image_index w) (Some npath) false).
  { unfold load_image. rewrite Hp, Hl.
    destruct (boxes (scene w)) eqn:Eb; [contradiction|].
    destruct reply; [| |contradiction]; cbn [load_annotations]; fold s0;
      rewrite Hls; reflexivity. }
  rewrite Hload. cbn [scene]. rewrite Hb. split.
  - apply Forall2_length in Hrel. exact Hrel.
  - unfold save_annotations. cbn [current_image_path scene]. rewrite Hb, Hw', Hh'.
    assert (Hext : write_boxes bs' W H EmptyString
                   = write_boxes (boxes (scene w)) W H EmptyString).
    { apply write_boxes_ext. eapply Forall2_impl; [exact Hrel|].
      intros b' b Hr. apply Hr. }
    destruct bs' as [|b' bs'].
    + apply Forall2_nil_inv_l in Hrel. contradiction.
    + rewrite Hext, Hw. unfold set_scene. cbn. reflexivity.
Qed.

Lemma resave_is_stable_witness :
  exists text : string,
    fst (save_annotations Examples.crab_fish_window) = FileWritten text
    /\ let w' := load_image py_int_dec py_float_dec Examples.crab_fish_window "b.png" No
                   (Some (1000, 500)%Z) (Some (PyStr.lines text)) in
       length (boxes (scene w')) = 3%nat
       /\ save_annotations w' = (FileWritten text, w').
Proof.
  apply (resave_is_stable Examples.crab_fish_window "a.png" "b.png" No);
    [discriminate | reflexivity | vm_compute; discriminate | reflexivity | reflexivity].
Defined.
End SaveLoad.

(** ** Reading any annotation file *)

Section LoadMore.
Import PyStr BoundingBox AnnotationScene Props MainWindow.

Variable py_int : string -> option Z.
Variable py_float : string -> option Q.
Variable class_id_map : gmap Z string.

Lemma load_line_appends s line s' :
  load_line py_int py_float class_id_map s line = Some s' ->
  exists added,
    boxes s' = boxes s ++ added /\ (length added <= 1)%nat
    /\ Forall (loaded_box class_id_map) added
    /\ undo_stack s' = undo_stack s /\ redo_stack s' = redo_stack s
    /\ image_width s' = image_width s /\ image_height s' = image_height s.
Proof.
  assert (Hskip : forall s0 : AnnotationScene.t, Some s = Some s0 ->
            exists added,
              boxes s0 = boxes s ++ added /\ (length added <= 1)%nat
              /\ Forall (loaded_box class_id_map) added
              /\ undo_stack s0 = undo_stack s /\ redo_stack s0 = redo_stack s
              /\ image_width s0 = image_width s /\ image_height s0 = image_height s).
  { intros s0 [= <-]. exists []. rewrite app_nil_r. repeat split; auto. }
  unfold load_line. destruct (strip line) eqn:Hs; [apply Hskip|]. rewrite <- Hs.
  destruct (split (strip line)) as [|t0 [|t1 [|t2 [|t3 [|t4 [|t5 l]]]]]] eqn:Hsp;
    try apply Hskip.
  destruct (py_int t0) as [cid|] eqn:Hint; [|discriminate].
  fold (class_name_of class_id_map cid).
  pose proof (from_yolo_format_spec py_int py_float (strip line) (image_width s)
                (image_height s) (class_name_of class_id_map cid)) as Hspec.
  destruct (from_yolo_format py_int py_float (strip line) (image_width s)
              (image_height s) (class_name_of class_id_map cid)) as [bbox|];
    [|apply Hskip].
  destruct Hspec as (u0 & u1 & u2 & u3 & u4 & cid' & xc & yc & w & h & Hsp' & Hint'
                     & _ & _ & _ & _ & ->).
  rewrite Hsp in Hsp'. injection Hsp' as <- <- <- <- <-.
  rewrite Hint in Hint'. injection Hint' as <-.
  intros [= <-]. eexists [_]. cbn [boxes set_boxes addItem snd set_items].
  split; [reflexivity|]. split; [simpl; lia|].
  split; [|repeat split].
  constructor; [|constructor]. unfold loaded_box. cbn. repeat split. eauto.
Qed.

Lemma load_lines_appends lines : forall s,
  let s' := scene_of (load_lines py_int py_float class_id_map s lines) in
  exists added,
    boxes s' = boxes s ++ added /\ (length added <= length lines)%nat
    /\ Forall (loaded_box class_id_map) added
    /\ undo_stack s' = undo_stack s /\ redo_stack s' = redo_stack s
    /\ image_width s' = image_width s /\ image_height s' = image_height s.
Proof.
  induction lines as [|line rest IH]; intros s; cbv zeta.
  - exists []. rewrite app_nil_r. repeat split; auto.
  - cbn [load_lines].
    destruct (load_line py_int py_float class_id_map s line) as [s1|] eqn:Hl.
    + destruct (load_line_appends s line s1 Hl)
        as (a1 & Hb1 & Hn1 & Hf1 & Hu1 & Hr1 & Hw1 & Hh1).
      destruct (IH s1) as (a2 & Hb2 & Hn2 & Hf2 & Hu2 & Hr2 & Hw2 & Hh2).
      exists (a1 ++ a2). rewrite Hb2, Hb1, Hu2, Hu1, Hr2, Hr1, Hw2, Hw1, Hh2, Hh1.
      rewrite <- app_assoc, length_app.
      repeat split; [simpl; lia | apply Forall_app; auto].
    + exists []. cbn [scene_of]. rewrite app_nil_r. repeat split; [simpl; lia | auto].
Qed.

(** X15. Loading only appends.  Whatever the file holds and whether or not
    the loop is left by an exception, [load_annotations] keeps the boxes
    that were there, in front and unchanged, appends at most one box per
    line, each without a colour of its own and named as the class map names
    its id ("class_<id>" for an unknown id), and leaves the undo and redo
    stacks and the image size as they were; without a file the scene is
    returned as it is. *)
Theorem load_annotations_appends :
  forall (s : AnnotationScene.t) (file : option (list string)),
    let s' := scene_of (load_annotations py_int py_float class_id_map s file) in
    (file = None -> s' = s)
    /\ exists added : list BoundingBox.t,
         boxes s' = boxes s ++ added
         /\ (length added <= length (default [] file))%nat
         /\ Forall (loaded_box class_id_map) added
         /\ undo_stack s' = undo_stack s /\ redo_stack s' = redo_stack s
         /\ image_width s' = image_width s /\ image_height s' = image_height s.
Proof.
  intros s file s'. subst s'. split; [intros ->; reflexivity|].
  destruct file as [lines|]; cbn [load_annotations default].
  - apply load_lines_appends.
  - exists []. rewrite app_nil_r. repeat split; auto.
Qed.
End LoadMore.

(** ** Moving through the images *)

Section NavigationMore.
Import BoundingBox AnnotationScene MainWindow.

Variable py_int : string -> option Z.
Variable py_float : string -> option Q.

Lemma load_image_index w path reply pixmap file :
  let w' := load_image py_int py_float w path reply pixmap file in
  current_image_index w' = current_image_index w /\ image_files w' = image_files w.
Proof.
  cbv zeta. unfold load_image.
  destruct (current_image_path w), (boxes (scene w)), reply, pixmap as [[pw ph]|];
    split; reflexivity.
Qed.

Lemma next_image_index w reply pixmap_of file_of :
  image_files w <> [] ->
  let w' := next_image py_int py_float w reply pixmap_of file_of in
  current_image_index w'
  = (current_image_index w + 1) mod Z.of_nat (length (image_files w))
  /\ image_files w' = image_files w.
Proof.
  intros Hne. cbv zeta. unfold next_image.
  destruct (image_files w) as [|f fs] eqn:Ef; [contradiction|]. rewrite <- Ef.
  destruct (image_files w !! _) as [path|]; [|split; reflexivity].
  destruct (load_image_index
              (set_index w ((current_image_index w + 1) mod Z.of_nat (length (image_files w))))
              path reply (pixmap_of path) (file_of path)) as (Hi & Hf).
  rewrite Hi, Hf. split; reflexivity.
Qed.

Lemma previous_image_index w reply pixmap_of file_of :
  image_files w <> [] ->
  let w' := previous_image py_int py_float w reply pixmap_of file_of in
  current_image_index w'
  = (current_image_index w - 1) mod Z.of_nat (length (image_files w))
  /\ image_files w' = image_files w.
Proof.
  intros Hne. cbv zeta. unfold previous_image.
  destruct (image_files w) as [|f fs] eqn:Ef; [contradiction|]. rewrite <- Ef.
  destruct (image_files w !! _) as [path|]; [|split; reflexivity].
  destruct (load_image_index
              (set_index w ((current_image_index w - 1) mod Z.of_nat (length (image_files w))))
              path reply (pixmap_of path) (file_of path)) as (Hi & Hf).
  rewrite Hi, Hf. split; reflexivity.
Qed.

(** X16. The image index.  With a non-empty file list, whatever is answered
    and whatever is on disk, [next_image] and [previous_image] keep the file
    list and leave an index that is a position of it: the index moves by
    one and wraps around at both ends.  From an index in range,
    [previous_image] after [next_image] is back at the same index. *)
Theorem navigation_index :
  forall (w : MainWindow.t) (reply reply' : answer)
         (pixmap_of pixmap_of' : string -> option (Z * Z))
         (file_of file_of' : string -> option (list string)),
    image_files w <> [] ->
    let n := Z.of_nat (length (image_files w)) in
    let i := current_image_index w in
    let w1 := next_image py_int py_float w reply pixmap_of file_of in
    let w2 := previous_image py_int py_float w1 reply' pixmap_of' file_of' in
    image_files w1 = image_files w
    /\ current_image_index w1 = (i + 1) mod n
    /\ (0 <= current_image_index w1 < n)%Z
    /\ (i = n - 1 -> current_image_index w1 = 0)%Z
    /\ current_image_index
         (previous_image py_int py_float w reply pixmap_of file_of) = (i - 1) mod n
    /\ (i = 0 ->
        current_image_index
          (previous_image py_int py_float w reply pixmap_of file_of) = n - 1)%Z
    /\ ((0 <= i < n)%Z -> current_image_index w2 = i).
Proof.
  intros w reply reply' pixmap_of pixmap_of' file_of file_of' Hne n i w1 w2.
  assert (Hn : (0 < n)%Z).
  { subst n. destruct (image_files w); [contradiction | simpl; lia]. }
  destruct (next_image_index w reply pixmap_of file_of Hne) as (Hi1 & Hf1).
  destruct (previous_image_index w reply pixmap_of file_of Hne) as (Hp & _).
  fold w1 n i in Hi1, Hf1. fold n i in Hp.
  assert (Hne1 : image_files w1 <> []) by (rewrite Hf1; exact Hne).
  destruct (previous_image_index w1 reply' pixmap_of' file_of' Hne1) as (Hi2 & _).
  fold w2 in Hi2. rewrite Hf1 in Hi2. fold n in Hi2.
  split; [exact Hf1|]. split; [exact Hi1|].
  split; [rewrite Hi1; apply Z.mod_pos_bound; exact Hn|].
  split; [intros E; rewrite Hi1, E; replace (n - 1 + 1)%Z with (1 * n)%Z by lia;
          apply Z.mod_mul; lia|].
  split; [exact Hp|].
  split; [intros E; rewrite Hp, E; replace (0 - 1)%Z with (n - 1 + (-1) * n)%Z by lia;
          rewrite Z.mod_add by lia; apply Z.mod_small; lia|].
  intros Hr. rewrite Hi2, Hi1.
  rewrite Zminus_mod_idemp_l. replace (i + 1 - 1)%Z with i by lia.
  apply Z.mod_small. exact Hr.
Qed.

(** X17. A refused change of image.  When boxes are on the current image
    and the question is answered by Cancel, or when the next image (the
    file at the index that follows the current one, wrapping around)
    cannot be read, [next_image] leaves the scene, the image path and the
    unsaved flag as they are, but the index has moved on: with more than
    one file and an index in range it no longer is the position of the
    image shown. *)
Theorem next_image_refused :
  forall (w : MainWindow.t) (reply : answer)
         (pixmap_of : string -> option (Z * Z))
         (file_of : string -> option (list string)) (image_path : string),
    image_files w <> [] ->
    (current_image_path w = Some image_path /\ boxes (scene w) <> [] /\ reply = Cancel)
    \/ (exists next_path : string,
          image_files w
          !! Z.to_nat ((current_image_index w + 1) mod Z.of_nat (length (image_files w)))
          = Some next_path
          /\ pixmap_of next_path = None) ->
    let n := Z.of_nat (length (image_files w)) in
    let w' := next_image py_int py_float w reply pixmap_of file_of in
    scene w' = scene w
    /\ current_image_path w' = current_image_path w
    /\ unsaved_changes w' = unsaved_changes w
    /\ current_image_index w' = (current_image_index w + 1) mod n
    /\ ((1 < n)%Z -> (0 <= current_image_index w < n)%Z ->
        current_image_index w' <> current_image_index w).
Proof.
  intros w reply pixmap_of file_of p Hne Hwhy n w'.
  destruct (next_image_index w reply pixmap_of file_of Hne) as (Hi & _).
  fold w' n in Hi.
  assert (Hkeep : scene w' = scene w /\ current_image_path w' = current_image_path w
                  /\ unsaved_changes w' = unsaved_changes w).
  { subst w'. unfold next_image.
    destruct (image_files w) as [|f fs] eqn:Ef; [contradiction|]. rewrite <- Ef.
    destruct (image_files w !! _) as [path|] eqn:El; [|repeat split].
    unfold load_image, set_index. cbn [current_image_path scene unsaved_changes].
    destruct Hwhy as [(Hp & Hb & ->) | (next_path & Hnext & Hnone)].
    - destruct (current_image_path w); [|discriminate Hp].
      destruct (boxes (scene w)); [contradiction|]. repeat split.
    - rewrite <- Ef in Hnext. rewrite Hnext in El. injection El as <-. rewrite Hnone.
      destruct (current_image_path w), (boxes (scene w)), reply; repeat split. }
  destruct Hkeep as (Hs & Hp & Hu).
  split; [exact Hs|]. split; [exact Hp|]. split; [exact Hu|]. split; [exact Hi|].
  intros Hn Hr. rewrite Hi. intros E.
  destruct (Z.eq_dec (current_image_index w) (n - 1)) as [Hlast|Hlast].
  - rewrite Hlast in E at 1. replace (n - 1 + 1)%Z with (1 * n)%Z in E by lia.
    rewrite Z.mod_mul in E by lia. lia.
  - rewrite Z.mod_small in E by lia. lia.
Qed.

End NavigationMore.

Section NavigationExamples.
Import BoundingBox AnnotationScene MainWindow.

Lemma navigation_index_witness :
  let w := MainWindow.mk AnnotationScene.init [] ∅ ∅ ["a.png"; "b.png"; "c.png"]%string
             2 None false in
  current_image_index
    (next_image PyNum.py_int_dec PyNum.py_float_dec w No (fun _ => None) (fun _ => None)) = 0%Z.
Proof.
  cbv zeta.
  destruct (navigation_index PyNum.py_int_dec PyNum.py_float_dec
              (MainWindow.mk AnnotationScene.init [] ∅ ∅
                 ["a.png"; "b.png"; "c.png"]%string 2 None false)
              No No (fun _ => None) (fun _ => None) (fun _ => None) (fun _ => None))
    as (_ & _ & _ & H & _).
  - discriminate.
  - apply H. reflexivity.
Defined.

Lemma next_image_refused_witness :
  let w := MainWindow.mk Examples.three_boxes [] ∅ ∅ ["a.png"; "b.png"]%string
             0 (Some "a.png"%string) true in
  let readable := fun path : string =>
                    if String.eqb path "b.png" then None else Some (10, 10)%Z in
  let w1 := next_image PyNum.py_int_dec PyNum.py_float_dec w Cancel
              (fun _ => Some (10, 10)%Z) (fun _ => None) in
  let w2 := next_image PyNum.py_int_dec PyNum.py_float_dec w No readable
              (fun _ => None) in
  (current_image_path w1 = Some "a.png"%string /\ current_image_index w1 = 1%Z)
  /\ (current_image_path w2 = Some "a.png"%string /\ current_image_index w2 = 1%Z).
Proof.
  cbv zeta. split.
  - destruct (next_image_refused PyNum.py_int_dec PyNum.py_float_dec
                (MainWindow.mk Examples.three_boxes [] ∅ ∅ ["a.png"; "b.png"]%string
                   0 (Some "a.png"%string) true)
                Cancel (fun _ => Some (10, 10)%Z) (fun _ => None) "a.png")
      as (_ & Hp & _ & Hi & _).
    + discriminate.
    + left. split; [reflexivity|]. split; [vm_compute; discriminate | reflexivity].
    + split; [exact Hp | exact Hi].
  - destruct (next_image_refused PyNum.py_int_dec PyNum.py_float_dec
                (MainWindow.mk Examples.three_boxes [] ∅ ∅ ["a.png"; "b.png"]%string
                   0 (Some "a.png"%string) true)
                No (fun path : string =>
                      if String.eqb path "b.png" then None else Some (10, 10)%Z)
                (fun _ => None) "a.png")
      as (_ & Hp & _ & Hi & _).
    + discriminate.
    + right. exists "b.png"%string. split; reflexivity.
    + split; [exact Hp | exact Hi].
Defined.
End NavigationExamples.

(** ** The class file, written and read back *)

Section ClassFileMore.
Import PyStr Dec PyNum Props MainWindow.

Lemma lines_join ls :
  Forall (fun l => no_newline l = true) ls ->
  PyStr.lines (join EmptyString (map (fun l => String.append l newline) ls)) = ls.
Proof.
  induction ls as [|l ls IH]; intros Hall; [reflexivity|].
  apply Forall_cons in Hall as (Hl & Hall).
  assert (Hj : join EmptyString (map (fun l => String.append l newline) (l :: ls))
               = String.append l
                   (String.append newline
                      (join EmptyString (map (fun l => String.append l newline) ls)))).
  { cbn [map join]. destruct (map _ ls) eqn:E.
    - cbn [join]. rewrite append_nil_r. reflexivity.
    - rewrite append_nil_l, append_assoc. reflexivity. }
  rewrite Hj. unfold PyStr.lines in *. rewrite (lines_go_line _ _ _ Hl), (IH Hall).
  reflexivity.
Qed.

Lemma rstrip_idem s : rstrip (rstrip s) = rstrip s.
Proof.
  induction s as [|c s IH]; [reflexivity|]. cbn [rstrip].
  destruct (rstrip s) as [|c' r'] eqn:Hr.
  - destruct (isspace c) eqn:Hc; [reflexivity|]. cbn [rstrip]. rewrite Hc. reflexivity.
  - cbn [rstrip]. cbn [rstrip] in IH. rewrite IH. reflexivity.
Qed.

Lemma rstrip_append x n :
  rstrip n = n -> n <> EmptyString -> rstrip (String.append x n) = String.append x n.
Proof.
  intros Hn Hne. induction x as [|c x IH]; [exact Hn|].
  rewrite append_cons. cbn [rstrip]. rewrite IH.
  destruct (String.append x n) eqn:E; [|reflexivity].
  destruct x; [rewrite append_nil_l in E; contradiction | discriminate E].
Qed.

Lemma plain_name_rstrip n : plain_name n -> rstrip n = n.
Proof.
  intros (_ & Hs & _). unfold strip in Hs. rewrite <- Hs at 1.
  rewrite rstrip_idem. exact Hs.
Qed.

Lemma filter_nonempty (ls : list string) :
  Forall (fun l => l <> EmptyString) ls ->
  filter (fun line => line <> EmptyString) ls = ls.
Proof.
  induction ls as [|l ls IH]; intros Hall; [reflexivity|].
  apply Forall_cons in Hall as (Hl & Hall).
  rewrite filter_cons_True by exact Hl. rewrite (IH Hall). reflexivity.
Qed.

(** The loop of [load_classes] on lines that each give their position. *)
Lemma load_classes_go_positions names : forall (i : nat) (lines : list string) m,
  Forall2 (fun line n => True) lines names ->
  (forall k line n, lines !! k = Some line -> names !! k = Some n ->
     class_of_line py_int_dec (i + k) line = Some (Z.of_nat (i + k), n)) ->
  exists m',
    load_classes_go py_int_dec i lines m = ClassesLoaded m'
    /\ forall z : Z,
         m' !! z = if ((Z.of_nat i <=? z) && (z <? Z.of_nat (i + length names)))%Z
                   then names !! (Z.to_nat z - i)%nat else m !! z.
Proof.
  induction names as [|n names IH]; intros i lines m Hall Hline.
  - apply Forall2_nil_inv_r in Hall as ->. exists m. split; [reflexivity|].
    intros z. destruct (_ && _)%Z eqn:E; [|reflexivity].
    apply andb_true_iff in E as (E1 & E2). apply Z.leb_le in E1. apply Z.ltb_lt in E2.
    simpl in E2. lia.
  - apply Forall2_cons_inv_r in Hall as (line & rest & _ & Hall & ->).
    destruct (IH (S i) rest (<[Z.of_nat i := n]> m) Hall) as (m' & Hgo & Hm').
    { intros k l' n' Hl' Hn'. replace (S i + k)%nat with (i + S k)%nat by lia.
      apply Hline; assumption. }
    exists m'. cbn [load_classes_go].
    pose proof (Hline 0%nat line n eq_refl eq_refl) as H0.
    rewrite Nat.add_0_r in H0. rewrite H0. split; [exact Hgo|].
    intros z. rewrite (Hm' z). cbn [length].
    destruct (Z.eq_dec z (Z.of_nat i)) as [->|Hz].
    + destruct (Z.of_nat (S i) <=? Z.of_nat i)%Z eqn:E1;
        [apply Z.leb_le in E1; lia|]. cbn [andb].
      rewrite lookup_insert_eq.
      destruct (Z.of_nat i <=? Z.of_nat i)%Z eqn:E2; [|apply Z.leb_gt in E2; lia].
      destruct (Z.of_nat i <? Z.of_nat (i + S (length names)))%Z eqn:E3;
        [|apply Z.ltb_ge in E3; lia].
      cbn [andb]. rewrite Nat2Z.id, Nat.sub_diag. reflexivity.
    + rewrite lookup_insert_ne by congruence.
      replace (S i + length names)%nat with (i + S (length names))%nat by lia.
      destruct (Z.of_nat (S i) <=? z)%Z eqn:E1;
        [apply Z.leb_le in E1 | apply Z.leb_gt in E1].
      * destruct (Z.of_nat i <=? z)%Z eqn:E2; [|apply Z.leb_gt in E2; lia].
        cbn [andb]. destruct (z <? _)%Z; [|reflexivity].
        replace (Z.to_nat z - i)%nat with (S (Z.to_nat z - S i))%nat by lia.
        reflexivity.
      * cbn [andb]. destruct (Z.of_nat i <=? z)%Z eqn:E2; [apply Z.leb_le in E2; lia|].
        reflexivity.
Qed.

Lemma load_classes_positions text lines names :
  PyStr.lines text = lines ->
  Forall (fun l => strip l = l /\ l <> EmptyString) lines ->
  length lines = length names ->
  (forall k line n, lines !! k = Some line -> names !! k = Some n ->
     class_of_line py_int_dec k line = Some (Z.of_nat k, n)) ->
  exists m', load_classes py_int_dec text = ClassesLoaded m' /\ numbered_by_position names m'.
Proof.
  intros Hl Hplain Hlen Hall. unfold load_classes. rewrite Hl.
  assert (Hmap : map strip lines = lines).
  { clear Hall Hl Hlen. induction Hplain as [|l ls (Hs & _) _ IH]; [reflexivity|].
    cbn [map]. rewrite Hs, IH. reflexivity. }
  rewrite Hmap, filter_nonempty by (eapply Forall_impl; [exact Hplain|]; intros l H; apply H).
  destruct (load_classes_go_positions names 0 lines ∅) as (m' & Hgo & Hm').
  { apply Forall2_same_length_lookup_2; [exact Hlen | trivial]. }
  { exact Hall. }
  exists m'. split; [exact Hgo|]. intros z. rewrite (Hm' z).
  rewrite lookup_empty, Nat.sub_0_r. change (Z.of_nat 0) with 0%Z. cbn [Nat.add].
  destruct (0 <=? z)%Z eqn:E0; [|reflexivity]. cbn [andb].
  destruct (z <? Z.of_nat (length names))%Z eqn:E1; [reflexivity|].
  apply Z.ltb_ge in E1. symmetry. apply lookup_ge_None. lia.
Qed.

Lemma map_imap {A B C} (g : B -> C) (l : list A) : forall (f : nat -> A -> B),
  map g (imap f l) = imap (fun i x => g (f i x)) l.
Proof.
  induction l as [|x l IH]; intros f; [reflexivity|].
  cbn [imap map]. f_equal. apply IH.
Qed.

Lemma substring_app_l d r : String.substring 0 (String.length d) (String.append d r) = d.
Proof.
  induction d as [|c d IH]; [destruct r; reflexivity|].
  rewrite append_cons. cbn [String.length String.substring]. rewrite IH. reflexivity.
Qed.

Lemma substring_all s : String.substring 0 (String.length s) s = s.
Proof. rewrite <- (append_nil_r s) at 2. apply substring_app_l. Qed.

Lemma substring_skip d r k m :
  String.substring (String.length d + k) m (String.append d r) = String.substring k m r.
Proof.
  induction d as [|c d IH]; [reflexivity|].
  rewrite append_cons. cbn [String.length Nat.add String.substring]. exact IH.
Qed.

Lemma index_bracket d r :
  all_chars (fun c => negb (Ascii.eqb c "]"%char)) d = true ->
  String.index 0 "]" (String.append d (String "]"%char r)) = Some (String.length d).
Proof.
  induction d as [|c d IH]; intros Hd.
  - rewrite append_nil_l. cbn [String.index String.prefix String.length].
    destruct (ascii_dec "]" "]"); [destruct r; reflexivity | contradiction].
  - cbn [all_chars] in Hd. apply andb_true_iff in Hd as (Hc & Hd).
    rewrite append_cons. cbn [String.index String.prefix String.length].
    destruct (ascii_dec "]" c) as [<-|_]; [discriminate Hc|].
    rewrite (IH Hd). reflexivity.
Qed.

Lemma all_chars_nat_digits (P : ascii -> bool) f :
  (forall d, (0 <= d <= 9)%Z -> P (digit_char d) = true) ->
  forall n acc, all_chars P (nat_digits f n acc) = all_chars P acc.
Proof.
  intros HP. induction f as [|f IH]; intros n acc; [reflexivity|].
  rewrite nat_digits_S. destruct (n / 10 =? 0)%Z; [|rewrite IH];
    cbn [all_chars]; rewrite HP by apply mod10_digit; reflexivity.
Qed.

Lemma str_int_no_bracket (i : nat) :
  all_chars (fun c => negb (Ascii.eqb c "]"%char)) (str_int (Z.of_nat i)) = true.
Proof.
  unfold str_int. destruct (Z.of_nat i <? 0)%Z eqn:E; [apply Z.ltb_lt in E; lia|].
  unfold str_nonneg. rewrite all_chars_nat_digits; [reflexivity|].
  intros d Hd.
  assert (Hcases : (d = 0 \/ d = 1 \/ d = 2 \/ d = 3 \/ d = 4 \/ d = 5 \/ d = 6
                    \/ d = 7 \/ d = 8 \/ d = 9)%Z) by lia.
  destruct Hcases as [->|[->|[->|[->|[->|[->|[->|[->|[->| ->]]]]]]]]]; reflexivity.
Qed.

(** The line [save_classes_file] writes for the name [n] at position [i],
    without its line end. *)
Lemma class_of_bracket_line (i : nat) n k :
  plain_name n ->
  let line := String "["%char
                (String.append (str_int (Z.of_nat i))
                   (String "]"%char (String " "%char n))) in
  class_of_line py_int_dec k line = Some (Z.of_nat i, n)
  /\ strip line = line /\ line <> EmptyString /\ no_newline line = true.
Proof.
  intros Hn line. pose proof Hn as (Hne & Hs & Hnl).
  set (d := str_int (Z.of_nat i)) in *.
  assert (Hidx : String.index 0 "]" line = Some (S (String.length d))).
  { subst line. cbn [String.index String.prefix].
    destruct (ascii_dec "]" "[") as [E|_]; [discriminate E|].
    rewrite index_bracket by apply str_int_no_bracket. reflexivity. }
  split; [|split; [|split; [discriminate|]]].
  - unfold class_of_line. rewrite Hidx.
    assert (Hp : String.prefix "[" line = true).
    { subst line. cbn [String.prefix]. destruct (ascii_dec "[" "["); [|contradiction].
      destruct (String.append d _); reflexivity. }
    rewrite Hp. unfold slice.
    assert (H1 : String.substring 1 (S (String.length d) - 1) line = d).
    { subst line. rewrite Nat.sub_succ, Nat.sub_0_r. cbn [String.substring].
      apply substring_app_l. }
    rewrite H1. subst d. rewrite py_int_dec_str_int. cbn [mbind option_bind].
    set (d := str_int (Z.of_nat i)).
    assert (H2 : String.substring (S (String.length d) + 1)
                   (String.length line - (S (String.length d) + 1)) line
                 = String " "%char n).
    { subst line. cbn [String.length]. rewrite length_append. cbn [String.length].
      match goal with
      | |- context [(?a - ?b)%nat] =>
          replace (a - b)%nat with (S (String.length n)) by (subst d; lia)
      end.
      cbn [Nat.add String.substring]. rewrite substring_skip.
      cbn [String.substring]. rewrite substring_all. reflexivity. }
    rewrite H2.
    assert (H3 : strip (String " "%char n) = strip n) by reflexivity.
    rewrite H3, Hs. reflexivity.
  - unfold strip. subst line.
    assert (Hl : forall x, lstrip (String "["%char x) = String "["%char x) by reflexivity.
    rewrite Hl.
    change (String "["%char (String.append d (String "]"%char (String " "%char n))))
      with (String.append (String "["%char EmptyString)
              (String.append d (String.append (String "]"%char (String " "%char EmptyString)) n))).
    rewrite <- !append_assoc.
    apply rstrip_append; [apply plain_name_rstrip, Hn | exact Hne].
  - subst line. cbn [no_newline]. rewrite no_newline_append. cbn [no_newline].
    rewrite Hnl. subst d. destruct (no_space_str_int (Z.of_nat i)) as (H0 & _).
    rewrite (no_newline_no_space _ H0). reflexivity.
Qed.

(** A line ends at LF, at CR LF and at a lone CR: a class file with the
    line [a<CR>b] is read as the two classes "a" and "b". *)
Lemma load_classes_lone_cr :
  let cr := String "013"%char EmptyString in
  PyStr.lines (String.append "a" (String.append cr
                (String.append "b" (String.append newline
                  (String.append "c" (String.append cr (String.append newline "d")))))))
  = ["a"; "b"; "c"; "d"]%string
  /\ load_classes py_int_dec
       (String.append "a" (String.append cr (String.append "b" newline)))
     = ClassesLoaded (<[1%Z := "b"%string]> {[ 0%Z := "a"%string ]}).
Proof. vm_compute. split; reflexivity. Qed.

(** X18. The class file read back.  For class names as [add_class] stores
    them that are not empty and hold no line end, neither LF nor CR
    (stripped, on one line), the file written by
    [save_classes_file], and the one written by [save_classes] when no name
    starts with a bracket, are read by [load_classes] without a failure,
    and the class map that results numbers the names by their position in
    the list: the ids under which the classes were kept are not
    restored. *)
Theorem class_file_numbers_by_position :
  forall (names : list string) (class_file_path : string),
    Forall plain_name names ->
    (names <> [] ->
     exists text m',
       save_classes_file names = Some text
       /\ load_classes py_int_dec text = ClassesLoaded m'
       /\ numbered_by_position names m')
    /\ (Forall (fun n => String.prefix "[" n = false) names ->
        exists text m',
          save_classes (Some class_file_path) names = Some text
          /\ load_classes py_int_dec text = ClassesLoaded m'
          /\ numbered_by_position names m').
Proof.
  intros names path Hplain. split.
  - intros Hne.
    set (line := fun (i : nat) (n : string) =>
                   String "["%char
                     (String.append (str_int (Z.of_nat i))
                        (String "]"%char (String " "%char n)))).
    assert (Htext : save_classes_file names
                    = Some (join EmptyString
                              (map (fun l => String.append l newline) (imap line names)))).
    { unfold save_classes_file. destruct names as [|n0 names0]; [contradiction|].
      f_equal. f_equal. rewrite map_imap. apply imap_ext. intros i n _. subst line.
      cbv beta.
      change (String.append "[" ?x) with (String "["%char x).
      rewrite (append_cons "["%char
                 (String.append (str_int (Z.of_nat i)) (String "]"%char (String " "%char n)))
                 newline).
      f_equal. rewrite append_assoc. f_equal. }
    assert (Hlines : forall k l n, imap line names !! k = Some l -> names !! k = Some n ->
                       l = line k n /\ plain_name n).
    { intros k l n Hl Hn. rewrite list_lookup_imap, Hn in Hl. injection Hl as <-.
      split; [reflexivity|]. rewrite Forall_lookup in Hplain. apply (Hplain k n Hn). }
    destruct (load_classes_positions
                (join EmptyString (map (fun l => String.append l newline) (imap line names)))
                (imap line names) names) as (m' & Hload & Hnum).
    + apply lines_join. apply Forall_lookup. intros k l Hl.
      destruct (list_lookup_imap_Some line names k l) as ((n & Hn & ->) & _); [exact Hl|].
      rewrite Forall_lookup in Hplain.
      apply (class_of_bracket_line k n 0 (Hplain k n Hn)).
    + apply Forall_lookup. intros k l Hl.
      destruct (list_lookup_imap_Some line names k l) as ((n & Hn & ->) & _); [exact Hl|].
      rewrite Forall_lookup in Hplain.
      destruct (class_of_bracket_line k n 0 (Hplain k n Hn)) as (_ & Hs & Hne' & _).
      split; assumption.
    + apply length_imap.
    + intros k l n Hl Hn. destruct (Hlines k l n Hl Hn) as (-> & Hp).
      apply (class_of_bracket_line k n k Hp).
    + eauto.
  - intros Hnobr.
    destruct (load_classes_positions
                (join EmptyString (map (fun l => String.append l newline) names))
                names names) as (m' & Hload & Hnum).
    + apply lines_join. eapply Forall_impl; [exact Hplain|]. intros n H. apply H.
    + eapply Forall_impl; [exact Hplain|]. intros n (H1 & H2 & _). split; assumption.
    + reflexivity.
    + intros k l n Hl Hn. rewrite Hl in Hn. injection Hn as <-.
      rewrite Forall_lookup in Hnobr. specialize (Hnobr k l Hl).
      unfold class_of_line. rewrite Hnobr. reflexivity.
    + exists (join EmptyString (map (fun l => String.append l newline) names)), m'.
      split; [reflexivity|]. split; assumption.
Qed.

Lemma class_file_numbers_by_position_witness :
  exists text m',
    save_classes_file (classes_of Examples.crab_fish) = Some text
    /\ load_classes py_int_dec text = ClassesLoaded m'
    /\ numbered_by_position (classes_of Examples.crab_fish) m'.
Proof.
  destruct (class_file_numbers_by_position (classes_of Examples.crab_fish) "classes.txt")
    as (H & _).
  - repeat constructor; vm_compute; try discriminate; reflexivity.
  - apply H. vm_compute. discriminate.
Defined.
End ClassFileMore.

(** ** Boxes and their items *)

Section ItemsMore.
Import BoundingBox AnnotationScene Session Props MainWindow.

(** A call that keeps the boxes' items, makes no item leave the scene and
    keeps or drops the rectangle being drawn. *)
Lemma items_wf_frame s s' :
  items_wf s ->
  map graphics_item (boxes s') = map graphics_item (boxes s) ->
  (next_item s <= next_item s')%nat ->
  (forall g, is_Some (items s !! g) -> is_Some (items s' !! g)) ->
  current_box s' = current_box s \/ current_box s' = None ->
  items_wf s'.
Proof.
  intros (Hnd & Hall & Hcur) Hb Hn Hi Hc. unfold items_wf. cbv zeta in *.
  rewrite Hb. split; [exact Hnd|]. split.
  - eapply Forall_impl; [exact Hall|]. intros og (g & -> & Hlt & Hin).
    exists g. split; [reflexivity|]. split; [lia | apply Hi, Hin].
  - intros g Hg. destruct Hc as [Hc|Hc]; [|rewrite Hc in Hg; discriminate].
    rewrite Hc in Hg. destruct (Hcur g Hg) as (Hlt & Hin & Hnot).
    split; [lia|]. split; [apply Hi, Hin | exact Hnot].
Qed.

Lemma is_Some_alter {A} (f : A -> A) (m : gmap nat A) g g' :
  is_Some (m !! g') -> is_Some (alter f g m !! g').
Proof.
  intros (x & Hx). destruct (decide (g = g')) as [->|Hne].
  - rewrite lookup_alter_eq, Hx. eauto.
  - rewrite lookup_alter_ne by exact Hne. eauto.
Qed.

Lemma map_graphics_item_set_rect g r (bs : list BoundingBox.t) :
  map graphics_item
    (map (fun bbox => if bool_decide (graphics_item bbox = Some g)
                      then set_rect bbox r else bbox) bs)
  = map graphics_item bs.
Proof.
  rewrite map_map. apply map_ext. intros b.
  destruct (bool_decide (graphics_item b = Some g)); reflexivity.
Qed.

Lemma finish_editing_items_wf s : items_wf s -> items_wf (finish_editing s).
Proof.
  intros H. apply (items_wf_frame s); auto.
  unfold finish_editing. destruct (editing_box s) as [g|]; [|reflexivity].
  destruct (items s !! g); [|reflexivity].
  cbn [boxes set_editing_box set_boxes]. apply map_graphics_item_set_rect.
  all: unfold finish_editing; destruct (editing_box s) as [g|]; auto;
    destruct (items s !! g); auto.
Qed.

(** A new rectangle starts to be drawn. *)
Lemma items_wf_new_drawing s it sp :
  items_wf s -> items_wf (set_drawing (snd (addItem s it)) (Some (next_item s)) sp).
Proof.
  intros (Hnd & Hall & _). unfold items_wf. cbv zeta in *.
  cbn [boxes set_drawing addItem snd set_items next_item items current_box].
  split; [exact Hnd|]. split.
  - eapply Forall_impl; [exact Hall|]. intros og (g & -> & Hlt & Hin).
    exists g. split; [reflexivity|]. split; [lia|].
    rewrite lookup_insert_ne by lia. exact Hin.
  - intros g [= <-]. split; [lia|]. split; [rewrite lookup_insert_eq; eauto|].
    intros Hin. rewrite Forall_forall in Hall.
    destruct (Hall _ Hin) as (g & [= <-] & Hlt & _). lia.
Qed.

(** A box is appended with a new item of its own. *)
Lemma items_wf_add_box s it b :
  items_wf s ->
  items_wf (set_boxes (snd (addItem s it))
              (boxes (snd (addItem s it)) ++ [set_graphics_item b (Some (next_item s))])).
Proof.
  intros (Hnd & Hall & Hcur). unfold items_wf. cbv zeta in *.
  cbn [boxes set_boxes addItem snd set_items next_item items current_box].
  rewrite map_app. cbn [map graphics_item set_graphics_item].
  assert (Hfresh : Some (next_item s) ∉ map graphics_item (boxes s)).
  { intros Hin. rewrite Forall_forall in Hall.
    destruct (Hall _ Hin) as (g & [= <-] & Hlt & _). lia. }
  split; [|split].
  - apply NoDup_app. split; [exact Hnd|]. split; [|apply NoDup_singleton].
    intros og Hin Hin'. apply list_elem_of_singleton in Hin'. subst og. contradiction.
  - apply Forall_app. split.
    + eapply Forall_impl; [exact Hall|]. intros og (g & -> & Hlt & Hin).
      exists g. split; [reflexivity|]. split; [lia|].
      rewrite lookup_insert_ne by lia. exact Hin.
    + constructor; [|constructor]. exists (next_item s).
      split; [reflexivity|]. split; [lia|]. rewrite lookup_insert_eq. eauto.
  - intros g Hg. destruct (Hcur g Hg) as (Hlt & Hin & Hnot).
    split; [lia|]. split; [rewrite lookup_insert_ne by lia; exact Hin|].
    intros Hel. apply elem_of_app in Hel as [Hel|Hel]; [contradiction|].
    apply list_elem_of_singleton in Hel. injection Hel as ->. lia.
Qed.

Lemma map_delete {A B} (f : A -> B) (l : list A) : forall n,
  map f (delete n l) = delete n (map f l).
Proof.
  induction l as [|x l IH]; intros n; [reflexivity|].
  destruct n as [|n]; [reflexivity|]. simpl. f_equal. apply IH.
Qed.

Lemma delete_NoDup {A} (l : list A) n x :
  l !! n = Some x -> NoDup l ->
  NoDup (delete n l) /\ (x ∉ delete n l) /\ (forall y, y ∈ delete n l -> y ∈ l).
Proof.
  intros Hl Hnd. rewrite delete_take_drop.
  rewrite <- (take_drop_middle l n x Hl) in Hnd.
  apply NoDup_app in Hnd as (H1 & H12 & H2). apply NoDup_cons in H2 as (Hx & H2).
  split; [|split].
  - apply NoDup_app. split; [exact H1|]. split; [|exact H2].
    intros y Hy Hy'. apply (H12 y Hy). apply list_elem_of_further, Hy'.
  - intros Hin. apply elem_of_app in Hin as [Hin|Hin]; [|contradiction].
    apply (H12 x Hin). apply list_elem_of_here.
  - intros y Hy. rewrite <- (take_drop_middle l n x Hl).
    apply elem_of_app in Hy as [Hy|Hy]; apply elem_of_app; [left; exact Hy|].
    right. apply list_elem_of_further, Hy.
Qed.

Lemma delete_at_items_wf s i : items_wf s -> items_wf (delete_at s i).
Proof.
  intros Hwf. unfold delete_at.
  destruct ((0 <=? i) && (i <? Z.of_nat (length (boxes s))))%Z; [|exact Hwf].
  destruct (boxes s !! Z.to_nat i) as [bbox|] eqn:Hl; [|exact Hwf].
  destruct Hwf as (Hnd & Hall & Hcur). cbv zeta in *.
  assert (Hl' : map graphics_item (boxes s) !! Z.to_nat i = Some (graphics_item bbox)).
  { change (map graphics_item (boxes s)) with (graphics_item <$> boxes s).
    rewrite list_lookup_fmap, Hl. reflexivity. }
  destruct (delete_NoDup _ _ _ Hl' Hnd) as (Hnd' & Hnot & Hsub).
  rewrite Forall_forall in Hall.
  destruct (Hall (graphics_item bbox)) as (g & Hg & _).
  { eapply list_elem_of_lookup_2. exact Hl'. }
  rewrite Hg in *. unfold items_wf. cbv zeta.
  cbn [boxes set_boxes removeItem set_items next_item items current_box].
  rewrite map_delete. split; [exact Hnd'|]. split.
  - apply Forall_forall. intros og Hog.
    destruct (Hall og (Hsub og Hog)) as (g' & -> & Hlt & Hin).
    exists g'. split; [reflexivity|]. split; [exact Hlt|].
    rewrite lookup_delete_ne; [exact Hin|]. intros ->. contradiction.
  - intros gc Hgc. destruct (Hcur gc Hgc) as (Hlt & Hin & Hno).
    split; [exact Hlt|]. split.
    + rewrite lookup_delete_ne; [exact Hin|]. intros ->. apply Hno.
      eapply list_elem_of_lookup_2. exact Hl'.
    + intros Hel. apply Hno, Hsub, Hel.
Qed.

Lemma fold_delete_at_items_wf l : forall s,
  items_wf s -> items_wf (fold_left delete_at l s).
Proof.
  induction l as [|i l IH]; intros s H; [exact H|].
  simpl. apply IH, delete_at_items_wf, H.
Qed.

Lemma remove_box_items_keeps bs : forall s,
  next_item (remove_box_items bs s) = next_item s
  /\ current_box (remove_box_items bs s) = current_box s
  /\ forall g, Some g ∉ map graphics_item bs -> is_Some (items s !! g) ->
               is_Some (items (remove_box_items bs s) !! g).
Proof.
  induction bs as [|b bs IH]; intros s; [auto|].
  cbn [remove_box_items map].
  destruct (graphics_item b) as [g0|] eqn:Hg0.
  - destruct (IH (removeItem s g0)) as (Hn & Hc & Hi).
    rewrite Hn, Hc. split; [reflexivity|]. split; [reflexivity|].
    intros g Hno Hin. apply Hi.
    + intros H. apply Hno. apply list_elem_of_further, H.
    + cbn [removeItem items set_items]. rewrite lookup_delete_ne; [exact Hin|].
      intros ->. apply Hno. apply list_elem_of_here.
  - destruct (IH s) as (Hn & Hc & Hi). split; [exact Hn|]. split; [exact Hc|].
    intros g Hno Hin. apply Hi; [|exact Hin].
    intros H. apply Hno. apply list_elem_of_further, H.
Qed.

Lemma restore_boxes_items_wf st : forall s, items_wf s -> items_wf (restore_boxes st s).
Proof.
  induction st as [|b st IH]; intros s H; [exact H|].
  cbn [restore_boxes]. apply IH.
  apply (items_wf_add_box s (mkItem (rect b) (mkPoint 0 0))
           (BoundingBox.init (rect b) (class_id b) (class_name b) None) H).
Qed.

Lemma restore_state_items_wf s st : items_wf s -> items_wf (restore_state s st).
Proof.
  intros (Hnd & Hall & Hcur). unfold restore_state. apply restore_boxes_items_wf.
  destruct (remove_box_items_keeps (boxes s) s) as (Hn & Hc & Hi).
  unfold items_wf. cbv zeta.
  cbn [boxes set_boxes set_selected_box next_item items current_box map].
  split; [constructor|]. split; [constructor|].
  intros g Hg. rewrite Hc in Hg. destruct (Hcur g Hg) as (Hlt & Hin & Hno).
  rewrite Hn. split; [exact Hlt|]. split; [apply Hi; assumption|].
  apply not_elem_of_nil.
Qed.

Lemma step_items_wf s e : items_wf s -> items_wf (step s e).
Proof.
  intros H. destruct e as [b item pos|pos|b|indices|row| |g pos|g h pos|cid name color
                          |cid color| ]; cbn [step].
  - unfold mousePressEvent. destruct (b && drawing_enabled s); [|exact H].
    assert (He : items_wf
                   (let s1 := finish_editing (select_box s None) in
                    match current_class_name s1 with
                    | EmptyString => s1
                    | String _ _ =>
                        let '(new_item, s2) := addItem s1 (mkItem null_rect (mkPoint 0 0)) in
                        set_drawing s2 (Some new_item) (Some pos)
                    end)).
    { cbv zeta.
      assert (H1 : items_wf (finish_editing (select_box s None))).
      { apply finish_editing_items_wf. apply (items_wf_frame s); auto. }
      destruct (current_class_name (finish_editing (select_box s None))); [exact H1|].
      apply (items_wf_new_drawing _ (mkItem null_rect (mkPoint 0 0)) (Some pos) H1). }
    destruct item as [|g|]; [exact H| |exact He].
    destruct (bool_decide (Some g = current_box s)); [exact He|].
    unfold select_box_by_item. destruct (List.find _ (boxes s)); [|exact H].
    apply (items_wf_frame s); auto.
  - unfold mouseMoveEvent. destruct (current_box s) as [g|]; [|exact H].
    destruct (start_point s) as [sp|]; [|exact H].
    destruct (QPointF_bool sp); [|exact H].
    apply (items_wf_frame s); auto. intros g'. apply is_Some_alter.
  - unfold mouseReleaseEvent. destruct (current_box s) as [g|] eqn:Hg; [|exact H].
    destruct b; [|exact H].
    destruct H as (Hnd & Hall & Hcur). cbv zeta in *.
    destruct (Hcur g Hg) as (Hlt & Hin & Hno).
    destruct (PyNum.Qltb 5 (width (rect_of_item s g))
              && PyNum.Qltb 5 (height (rect_of_item s g))).
    + unfold items_wf. cbv zeta.
      cbn [boxes set_boxes set_drawing save_state set_redo_stack set_undo_stack
             next_item items current_box].
      rewrite map_app. cbn [map graphics_item set_graphics_item].
      split; [|split; [|intros g' [=]]].
      * apply NoDup_app. split; [exact Hnd|]. split; [|apply NoDup_singleton].
        intros og Hog Hog'. apply list_elem_of_singleton in Hog'. subst og. contradiction.
      * apply Forall_app. split; [exact Hall|]. constructor; [|constructor]. eauto.
    + unfold items_wf. cbv zeta.
      cbn [boxes set_drawing removeItem set_items next_item items current_box].
      split; [exact Hnd|]. split; [|intros g' [=]].
      rewrite Forall_forall in *. intros og Hog.
      destruct (Hall og Hog) as (g' & -> & Hlt' & Hin').
      exists g'. split; [reflexivity|]. split; [exact Hlt'|].
      rewrite lookup_delete_ne; [exact Hin'|]. intros ->. contradiction.
  - unfold delete_selected_boxes. cbv zeta.
    apply (items_wf_frame (fold_left delete_at (sorted_reverse indices) (save_state s)));
      auto.
    apply fold_delete_at_items_wf. apply (items_wf_frame s); auto.
  - unfold edit_selected_annotation.
    destruct ((0 <=? row) && (row <? Z.of_nat (length (boxes s))))%Z; [|exact H].
    destruct (boxes s !! Z.to_nat row) as [bbox|]; [|exact H].
    destruct (graphics_item bbox); [|exact H]. apply (items_wf_frame s); auto.
  - apply finish_editing_items_wf, H.
  - apply (items_wf_frame s); auto. intros g'. apply is_Some_alter.
  - apply (items_wf_frame s); auto. intros g'. apply is_Some_alter.
  - apply (items_wf_frame s); auto; unfold set_current_class; destruct color; auto.
  - apply (items_wf_frame s); auto.
  - apply (items_wf_frame s); auto.
Qed.

Lemma load_lines_items_wf py_int py_float m lines : forall s,
  items_wf s -> items_wf (scene_of (load_lines py_int py_float m s lines)).
Proof.
  induction lines as [|line rest IH]; intros s H; [exact H|].
  cbn [load_lines].
  destruct (load_line py_int py_float m s line) as [s1|] eqn:Hl; [|exact H].
  apply IH. revert Hl. unfold load_line.
  destruct (PyStr.strip line); [intros [= <-]; exact H|].
  destruct (PyStr.split _) as [|t0 [|t1 [|t2 [|t3 [|t4 [|t5 l]]]]]];
    try (intros [= <-]; exact H).
  destruct (py_int t0); [|discriminate].
  destruct (from_yolo_format _ _ _ _ _ _) as [bbox|]; [|intros [= <-]; exact H].
  intros [= <-].
  apply (items_wf_add_box s (mkItem (rect bbox) (mkPoint 0 0)) bbox H).
Qed.

(** X19. Boxes and their items.  In the empty scene, and after any
    sequence of mouse events, deletions, edits, class changes, undos, redos,
    loaded images and loaded annotation files, every box is drawn by an
    item of its own that is in the scene: no two boxes share an item, and
    the rectangle being drawn is the item of no box. *)
Theorem boxes_own_their_items :
  items_wf AnnotationScene.init
  /\ forall s : AnnotationScene.t,
       items_wf s ->
       (forall e : event, items_wf (step s e))
       /\ (forall es : list event, items_wf (run s es))
       /\ items_wf (snd (undo s))
       /\ items_wf (snd (redo s))
       /\ (forall pixmap_width pixmap_height : Z,
             items_wf (set_image s pixmap_width pixmap_height))
       /\ (forall (py_int : string -> option Z) (py_float : string -> option Q)
                  (class_id_map : gmap Z string) (file : option (list string)),
             items_wf (scene_of (load_annotations py_int py_float class_id_map s file))).
Proof.
  split.
  { unfold items_wf. cbv zeta. cbn. split; [constructor|]. split; [constructor|].
    intros g [=]. }
  intros s H. split; [intros e; apply step_items_wf, H|]. split.
  { intros es. revert s H. induction es as [|e es IH]; intros s H; [exact H|].
    unfold run. cbn [fold_left]. apply IH, step_items_wf, H. }
  split.
  { unfold undo. destruct (undo_stack s) as [|p rest]; [exact H|].
    cbn [snd]. apply restore_state_items_wf. apply (items_wf_frame s); auto. }
  split.
  { unfold redo. destruct (redo_stack s) as [|p rest]; [exact H|].
    cbn [snd]. apply restore_state_items_wf. apply (items_wf_frame s); auto. }
  split.
  { intros w h. unfold items_wf. cbv zeta. cbn.
    split; [constructor|]. split; [constructor|]. intros g [=]. }
  intros py_int py_float m [lines|]; [|exact H].
  apply load_lines_items_wf, H.
Qed.
End ItemsMore.

(** ** Committing an edit *)

Section EditMore.
Import BoundingBox AnnotationScene Props MainWindow.
Local Open Scope Q_scope.

Lemma map_at_unique {A B} `{EqDecision B} (f : A -> B) (h : A -> A) (l : list A) :
  forall (n : nat) (x : A),
    NoDup (map f l) -> l !! n = Some x ->
    map (fun y => if bool_decide (f y = f x) then h y else y) l = <[n := h x]> l.
Proof.
  induction l as [|a l IH]; intros n x Hnd Hl; [discriminate|].
  cbn [map] in Hnd. apply NoDup_cons in Hnd as (Ha & Hnd).
  destruct n as [|n]; cbn [map].
  - injection Hl as ->. rewrite bool_decide_eq_true_2 by reflexivity.
    cbn. f_equal. clear IH Hnd. induction l as [|y l IH]; [reflexivity|].
    cbn [map]. rewrite bool_decide_eq_false_2.
    + f_equal. apply IH. intros H. apply Ha. cbn [map]. apply list_elem_of_further, H.
    + intros E. apply Ha. cbn [map]. rewrite <- E. apply list_elem_of_here.
  - cbn in Hl. rewrite bool_decide_eq_false_2.
    + cbn. f_equal. apply IH; assumption.
    + intros E. apply Ha. rewrite E.
      change (map f l) with (f <$> l). apply list_elem_of_fmap. exists x.
      split; [reflexivity|]. eapply list_elem_of_lookup_2. exact Hl.
Qed.

Lemma finish_editing_commit s (row : nat) b g it :
  items_wf s ->
  editing_box s = Some g -> items s !! g = Some it ->
  boxes s !! row = Some b -> graphics_item b = Some g ->
  boxes (finish_editing s)
  = <[row := set_rect b (translated (item_rect it) (item_pos it))]> (boxes s).
Proof.
  intros (Hnd & _) He Hi Hb Hg. unfold finish_editing. rewrite He, Hi.
  cbn [boxes set_editing_box set_boxes]. rewrite <- Hg.
  apply (map_at_unique graphics_item
           (fun bbox => set_rect bbox (translated (item_rect it) (item_pos it)))
           (boxes s) row b Hnd Hb).
Qed.

(** X20. Moving a box in edit mode.  In a scene where every box has an
    item of its own, putting the box of a row into edit mode, dragging its
    item to a position and finishing the edit replaces the rectangle of
    that box by the rectangle of its item shifted by the position, with
    the same width and height; the box keeps its class, every other box is
    untouched, edit mode is left, and nothing is recorded for undo. *)
Theorem edit_move_commits_one_box :
  forall (s : AnnotationScene.t) (row : nat) (b : BoundingBox.t) (g : nat)
         (it : GraphicsRectItem) (pos : QPointF),
    items_wf s ->
    boxes s !! row = Some b -> graphics_item b = Some g -> items s !! g = Some it ->
    let s' := finish_editing
                (moveItem (edit_selected_annotation s (Z.of_nat row)) g pos) in
    let r' := mkRect (xp (item_rect it) + px pos) (yp (item_rect it) + py pos)
                (wd (item_rect it)) (ht (item_rect it)) in
    boxes s' = <[row := BoundingBox.mk r' (class_id b) (class_name b) (color b) (Some g)]>
                 (boxes s)
    /\ editing_box s' = None
    /\ undo_stack s' = undo_stack s /\ redo_stack s' = redo_stack s.
Proof.
  intros s row b g it pos Hwf Hb Hg Hi s' r'.
  assert (Hedit : edit_selected_annotation s (Z.of_nat row) = set_editing_box s (Some g)).
  { unfold edit_selected_annotation. rewrite Nat2Z.id, Hb, Hg.
    pose proof (lookup_lt_Some _ _ _ Hb) as Hlt.
    destruct (0 <=? Z.of_nat row)%Z eqn:E0; [|apply Z.leb_gt in E0; lia].
    destruct (Z.of_nat row <? Z.of_nat (length (boxes s)))%Z eqn:E1;
      [reflexivity | apply Z.ltb_ge in E1; lia]. }
  set (s2 := moveItem (edit_selected_annotation s (Z.of_nat row)) g pos).
  assert (Hwf2 : items_wf s2).
  { subst s2. rewrite Hedit. apply (items_wf_frame s); auto.
    intros g'. apply is_Some_alter. }
  assert (Hi2 : items s2 !! g = Some (mkItem (item_rect it) pos)).
  { subst s2. rewrite Hedit. cbn [moveItem items set_items set_editing_box].
    rewrite lookup_alter_eq, Hi. reflexivity. }
  assert (He2 : editing_box s2 = Some g) by (subst s2; rewrite Hedit; reflexivity).
  assert (Hb2 : boxes s2 = boxes s) by (subst s2; rewrite Hedit; reflexivity).
  split.
  - subst s'. fold s2.
    rewrite (finish_editing_commit s2 row b g _ Hwf2 He2 Hi2) by (rewrite ?Hb2; assumption).
    rewrite Hb2. f_equal. unfold set_rect. rewrite Hg. reflexivity.
  - subst s'. fold s2. unfold finish_editing. rewrite He2, Hi2.
    subst s2. rewrite Hedit. repeat split.
Qed.

Lemma three_boxes_items_wf : items_wf Examples.three_boxes.
Proof.
  unfold items_wf. cbv zeta. split; [|split].
  - apply (bool_decide_unpack _). vm_compute. exact I.
  - vm_compute. repeat constructor; eexists; (split; [reflexivity|]); split;
      try (apply Nat.ltb_lt; reflexivity); eexists; reflexivity.
  - intros g Hg. vm_compute in Hg. discriminate.
Qed.

Lemma edit_move_commits_one_box_witness :
  let s' := finish_editing
              (moveItem (edit_selected_annotation Examples.three_boxes 1) 1%nat
                 (mkPoint 5 7)) in
  map (fun b => xp (rect b)) (boxes s') = [10; 200 + 5; 500].
Proof.
  cbv zeta.
  destruct (edit_move_commits_one_box Examples.three_boxes 1%nat
              (BoundingBox.mk (mkRect 200 50 200 250) 2 "crab"
                 (Some (mkColor 0 0 255 150)) (Some 1%nat))
              1%nat (mkItem (mkRect 200 50 200 250) (mkPoint 0 0))
              (mkPoint 5 7)) as (Hb & _).
  - exact three_boxes_items_wf.
  - vm_compute. reflexivity.
  - reflexivity.
  - vm_compute. reflexivity.
  - change (Z.of_nat 1) with 1%Z in Hb. rewrite Hb. vm_compute. reflexivity.
Defined.
End EditMore.

(** ** Exporting annotations *)

Section ExportMore.
Import BoundingBox AnnotationScene Props MainWindow.

Lemma write_rows_write_boxes rows (bs : list BoundingBox.t) W H : forall written,
  write_rows rows bs W H written
  = write_boxes (omap (fun i => bs !! i) rows) W H written.
Proof.
  induction rows as [|i rows IH]; intros written; [reflexivity|].
  cbn [write_rows omap list_omap]. destruct (bs !! i) as [bbox|]; [|apply IH].
  cbn [write_boxes]. destruct (to_yolo_format bbox W H); [apply IH | reflexivity].
Qed.

Lemma omap_ext_in {A B} (f g : A -> option B) (L : list A) :
  (forall i, i ∈ L -> f i = g i) -> omap f L = omap g L.
Proof.
  induction L as [|i L IH]; intros Hfg; [reflexivity|].
  cbn [omap list_omap]. rewrite (Hfg i) by apply list_elem_of_here.
  fold (omap f L). fold (omap g L).
  rewrite IH by (intros j Hj; apply Hfg, list_elem_of_further, Hj). reflexivity.
Qed.

Lemma omap_lookup_seq {A} (l : list A) : forall k,
  omap (fun i => l !! (i - k)%nat) (seq k (length l)) = l.
Proof.
  induction l as [|x l IH]; intros k; [reflexivity|].
  cbn [length seq omap list_omap]. rewrite Nat.sub_diag. cbn. f_equal.
  fold (omap (fun i => (x :: l) !! (i - k)%nat) (seq (S k) (length l))).
  rewrite <- (IH (S k)) at 2. apply omap_ext_in.
  intros i Hi. apply elem_of_seq in Hi.
  replace (i - k)%nat with (S (i - S k)) by lia. reflexivity.
Qed.

Lemma omap_lookup_sorted {A} (l : list A) : forall (k : nat) (L : list nat),
  StronglySorted lt L -> Forall (fun i => (k <= i)%nat) L ->
  omap (fun i => l !! (i - k)%nat) L
  = keep_positions (fun j => bool_decide (j ∈ L)) k l.
Proof.
  induction l as [|x l IH]; intros k L Hs Hk.
  - cbn [keep_positions]. clear Hs Hk. induction L as [|i L IHL]; [reflexivity|].
    cbn [omap list_omap]. rewrite lookup_nil. exact IHL.
  - destruct L as [|i L].
    + cbn [omap list_omap keep_positions]. rewrite bool_decide_eq_false_2 by apply not_elem_of_nil.
      rewrite <- (IH (S k) []) by constructor. reflexivity.
    + pose proof Hs as HsL.
      apply StronglySorted_inv in Hs as (Hs & Hlt). apply Forall_cons in Hk as (Hki & Hk).
      rewrite Forall_forall in Hlt, Hk. cbn [keep_positions].
      destruct (decide (i = k)) as [->|Hne].
      * rewrite bool_decide_eq_true_2 by apply list_elem_of_here.
        cbn [omap list_omap]. rewrite Nat.sub_diag. cbn. f_equal.
        transitivity (omap (fun i => l !! (i - S k)%nat) L).
        { apply omap_ext_in. intros i Hi. specialize (Hlt i Hi).
          replace (i - k)%nat with (S (i - S k)) by lia. reflexivity. }
        rewrite (IH (S k) L Hs)
          by (apply Forall_forall; intros i Hi; specialize (Hlt i Hi); lia).
        apply keep_positions_ext. intros j Hj; cbv beta. apply bool_decide_ext.
        rewrite elem_of_cons. split; [auto | intros [E|E]; [lia | exact E]].
      * assert (Hall : Forall (fun j => (S k <= j)%nat) (i :: L)).
        { constructor; [lia|]. apply Forall_forall. intros j Hj.
          specialize (Hlt j Hj). lia. }
        rewrite bool_decide_eq_false_2.
        2:{ intros Hin. rewrite Forall_forall in Hall. specialize (Hall k Hin). lia. }
        rewrite <- (IH (S k) (i :: L) HsL Hall).
        apply omap_ext_in. intros j Hj.
        rewrite Forall_forall in Hall. specialize (Hall j Hj).
        replace (j - k)%nat with (S (j - S k)) by lia. reflexivity.
Qed.

Lemma sorted_rows_strict (rows : list nat) :
  StronglySorted lt (merge_sort Nat.le (remove_dups rows)).
Proof.
  assert (Hs : StronglySorted Nat.le (merge_sort Nat.le (remove_dups rows))).
  { apply StronglySorted_merge_sort.
    - intros x y z. unfold Nat.le. lia.
    - intros x y. unfold Nat.le. lia. }
  assert (Hn : NoDup (merge_sort Nat.le (remove_dups rows))).
  { rewrite merge_sort_Permutation. apply NoDup_remove_dups. }
  induction Hs as [|i L Hs IH Hall]; [constructor|].
  apply NoDup_cons in Hn as (Hni & Hn). constructor; [apply IH; exact Hn|].
  rewrite Forall_forall in *. intros y Hy. specialize (Hall y Hy). unfold Nat.le in Hall.
  assert (y <> i) by (intros ->; contradiction). lia.
Qed.

(** X21. What an export writes.  With an image open and boxes in the scene,
    [export_selected_annotation] with rows selected writes the lines of
    exactly the boxes at the selected rows, each once and in the order of
    the boxes, however the rows are listed; rows beyond the last box count
    for nothing.  With no row selected it writes all boxes, as
    [export_current_annotations] and [save_annotations] do. *)
Theorem export_writes_selection :
  forall (w : MainWindow.t) (selected_rows : list nat) (image_path file_path : string),
    current_image_path w = Some image_path ->
    boxes (scene w) <> [] ->
    let W := image_width (scene w) in
    let H := image_height (scene w) in
    (selected_rows <> [] ->
     export_selected_annotation w selected_rows
     = write_boxes
         (keep_positions (fun j => bool_decide (j ∈ selected_rows)) 0 (boxes (scene w)))
         W H EmptyString)
    /\ export_selected_annotation w [] = write_boxes (boxes (scene w)) W H EmptyString
    /\ export_current_annotations w (Some file_path)
       = write_boxes (boxes (scene w)) W H EmptyString
    /\ fst (save_annotations w) = write_boxes (boxes (scene w)) W H EmptyString.
Proof.
  intros w rows path fpath Hp Hne W H.
  destruct (boxes (scene w)) as [|b0 bs0] eqn:Eb; [contradiction|].
  split; [|split; [|split]].
  - intros Hrows. unfold export_selected_annotation. rewrite Hp, Eb.
    destruct rows as [|r0 rows0] eqn:Er; [contradiction|]. rewrite <- Er in *.
    assert (Hne' : merge_sort Nat.le (remove_dups rows) <> []).
    { intros E. assert (Hin : r0 ∈ merge_sort Nat.le (remove_dups rows)).
      { rewrite merge_sort_Permutation, elem_of_remove_dups, Er. apply list_elem_of_here. }
      rewrite E in Hin. apply elem_of_nil in Hin. exact Hin. }
    destruct (merge_sort Nat.le (remove_dups rows)) as [|i0 L0] eqn:EL; [contradiction|].
    rewrite <- EL. fold W H. rewrite write_rows_write_boxes. f_equal.
    transitivity (omap (fun i => (b0 :: bs0) !! (i - 0)%nat)
                    (merge_sort Nat.le (remove_dups rows))).
    { apply omap_ext_in. intros i _. rewrite Nat.sub_0_r. reflexivity. }
    rewrite omap_lookup_sorted
      by (try apply sorted_rows_strict; apply Forall_forall; intros; lia).
    apply keep_positions_ext. intros j _; cbv beta. apply bool_decide_ext.
    rewrite merge_sort_Permutation. apply elem_of_remove_dups.
  - unfold export_selected_annotation. rewrite Hp, Eb. cbn [length seq].
    fold W H. rewrite write_rows_write_boxes. f_equal.
    change (0%nat :: seq 1 (length bs0)) with (seq 0 (length (b0 :: bs0))).
    rewrite <- (omap_lookup_seq (b0 :: bs0) 0) at 2.
    apply omap_ext_in. intros i _. rewrite Nat.sub_0_r. reflexivity.
  - unfold export_current_annotations. rewrite Hp, Eb. reflexivity.
  - unfold save_annotations. rewrite Hp, Eb. fold W H.
    destruct (write_boxes (b0 :: bs0) W H EmptyString); reflexivity.
Qed.

Lemma export_writes_selection_witness :
  export_selected_annotation Examples.crab_fish_window [2; 0; 2; 5]%nat
  = FileWritten
      (String.append "2 0.060000 0.100000 0.100000 0.160000"
         (String.append newline
            (String.append "7 0.600000 0.500000 0.200000 0.600000" newline))).
Proof.
  destruct (export_writes_selection Examples.crab_fish_window [2; 0; 2; 5]%nat
              "a.png" "out.txt") as (H & _).
  - reflexivity.
  - vm_compute. discriminate.
  - rewrite H by discriminate. vm_compute. reflexivity.
Defined.
End ExportMore.
